(** * Yorlect Data Curation: progress store, assignment policy and views

    A shallow embedding of [app.py].  The Streamlit widgets are the
    environment: the value a widget returns on a run (the text typed, whether
    a button was pressed) is an argument of the page function, and so are the
    sentence list fetched by [load_sentences] and the clock read by
    [datetime.now().isoformat()].  The progress file is the only state; a page
    run is a function from the file before the run to the file after it and
    the outcome of the run, which is a rendered view or a Python exception.
    The router [main] only selects the page to run and hands it the username
    of the session.

    Data.  The progress file holds a JSON object keyed by username whose
    members are JSON objects (the user records).  A Python [dict] keeps its
    keys in insertion order and the assignment policy reads that order, so a
    dict is an association list; assignment to an existing key replaces the
    value where the key stands, assignment to a new key appends.  Field values
    are dynamically typed JSON values.  JSON numbers are integers here (the
    application never writes another kind), and a character is a code point
    below 256.  [json.dump] and [json.load] are taken as inverse to each
    other, so the file is its document. *)

From Stdlib Require Import ZArith QArith Qround List String Ascii Bool Lia.
From Stdlib Require Import DecimalString DecimalZ.
Import ListNotations.
Local Open Scope string_scope.
Local Open Scope Z_scope.

Set Warnings "-register-all,-notation-for-abbreviation".

(** ** Python values and exceptions *)

Inductive value : Type :=
| VNone
| VBool (b : bool)
| VInt (z : Z)
| VStr (s : string)
| VList (l : list value)
| VDict (d : list (string * value)).

Inductive exn : Type :=
| ZeroDivisionError
| TypeError
| KeyError
| IndexError
| ValueError
| AttributeError.

Inductive result (A : Type) : Type :=
| Ok (a : A)
| Raise (e : exn).

Arguments Ok {A} a.
Arguments Raise {A} e.

(** ** Insertion-ordered dictionaries with string keys *)

Module Dict.

Definition t (A : Type) : Type := list (string * A).

Definition keys {A} (d : t A) : list string := map fst d.

(** [d.get(k)] *)
Fixpoint get {A} (k : string) (d : t A) : option A :=
  match d with
  | [] => None
  | (k', v) :: d' => if String.eqb k k' then Some v else get k d'
  end.

(** [k in d] *)
Definition mem {A} (k : string) (d : t A) : bool :=
  match get k d with Some _ => true | None => false end.

(** [d.get(k, default)] *)
Definition get_default {A} (k : string) (default : A) (d : t A) : A :=
  match get k d with Some v => v | None => default end.

(** [d[k]] *)
Definition getitem {A} (d : t A) (k : string) : result A :=
  match get k d with Some v => Ok v | None => Raise KeyError end.

(** [d[k] = v] *)
Fixpoint set {A} (k : string) (v : A) (d : t A) : t A :=
  match d with
  | [] => [(k, v)]
  | (k', v') :: d' =>
      if String.eqb k k' then (k', v) :: d' else (k', v') :: set k v d'
  end.

(** Number of items stored under [k]. *)
Definition count {A} (k : string) (d : t A) : nat :=
  List.length (filter (String.eqb k) (keys d)).

End Dict.

(** A JSON object, a user record in particular. *)
Notation pydict := (Dict.t value) (only parsing).

(** The whole store: username to user record. *)
Notation store := (Dict.t (Dict.t value)) (only parsing).

(** The progress file; [None] when [PROGRESS_FILE] does not exist. *)
Definition file : Type := option store.

(** ** Built-ins used by the pages *)

(** [bool(v)] *)
Definition py_truthy (v : value) : bool :=
  match v with
  | VNone => false
  | VBool b => b
  | VInt z => negb (z =? 0)
  | VStr s => negb (String.eqb s "")
  | VList l => match l with [] => false | _ => true end
  | VDict d => match d with [] => false | _ => true end
  end.

Definition len {A} (l : list A) : Z := Z.of_nat (List.length l).

(** [len(v)] *)
Definition py_len (v : value) : result Z :=
  match v with
  | VStr s => Ok (Z.of_nat (String.length s))
  | VList l => Ok (len l)
  | VDict d => Ok (len d)
  | VNone | VBool _ | VInt _ => Raise TypeError
  end.

(** The integer a value stands for where Python wants an [int]
    ([bool] is a subclass of [int]). *)
Definition as_int (v : value) : option Z :=
  match v with
  | VInt z => Some z
  | VBool b => Some (if b then 1 else 0)
  | _ => None
  end.

(** [a / b] on integers: the quotient as an exact rational. *)
Definition py_truediv (a b : Z) : result Q :=
  if b =? 0 then Raise ZeroDivisionError
  else Ok (Qred (Qmake (a * Z.sgn b) (Z.to_pos (Z.abs b)))).

(** [v >= n] for an integer [n]. *)
Definition py_ge (v : value) (n : Z) : result bool :=
  match as_int v with
  | Some z => Ok (n <=? z)
  | None => Raise TypeError
  end.

(** [l[i]] on a list: negative indices count from the end. *)
Definition py_index {A} (l : list A) (i : Z) : result A :=
  let j := if i <? 0 then i + len l else i in
  if (j <? 0) || (len l <=? j) then Raise IndexError
  else match nth_error l (Z.to_nat j) with
       | Some x => Ok x
       | None => Raise IndexError
       end.

Definition string_chars (s : string) : list value :=
  map (fun c => VStr (String c EmptyString)) (list_ascii_of_string s).

(** [c[i]] for a container [c] that has a length and an integer [i]. *)
Definition py_getitem (c i : value) : result value :=
  match c with
  | VList l =>
      match as_int i with
      | Some z => py_index l z
      | None => Raise TypeError
      end
  | VStr s =>
      match as_int i with
      | Some z => py_index (string_chars s) z
      | None => Raise TypeError
      end
  | VDict d =>
      match i with
      | VStr k => Dict.getitem d k
      | VNone | VBool _ | VInt _ => Raise KeyError
      | VList _ | VDict _ => Raise TypeError
      end
  | VNone | VBool _ | VInt _ => Raise TypeError
  end.

(** [c[k] = v] with a string key [k]. *)
Definition py_setitem (c : value) (k : string) (v : value) : result value :=
  match c with
  | VDict d => Ok (VDict (Dict.set k v d))
  | _ => Raise TypeError
  end.

(** [c.get(k, default)]: only a dict has the method. *)
Definition py_get (c : value) (k : string) (default : value) : result value :=
  match c with
  | VDict d => Ok (Dict.get_default k default d)
  | _ => Raise AttributeError
  end.

(** [str(z)] *)
Definition str_int (z : Z) : string := NilZero.string_of_int (Z.to_int z).

(** [list(range(start, stop))] *)
Definition py_range (start stop : Z) : list Z :=
  map (fun i => start + Z.of_nat i) (seq 0 (Z.to_nat (stop - start))).

(** [l.index(x)] on a list of strings. *)
Fixpoint list_index (x : string) (l : list string) : result nat :=
  match l with
  | [] => Raise ValueError
  | y :: l' =>
      if String.eqb x y then Ok O
      else match list_index x l' with
           | Ok n => Ok (S n)
           | Raise e => Raise e
           end
  end.

(** [c.isspace()] for a code point below 256. *)
Definition isspace (c : ascii) : bool :=
  let n := nat_of_ascii c in
  (Nat.leb 9 n && Nat.leb n 13) || (Nat.leb 28 n && Nat.leb n 32)
  || Nat.eqb n 133 || Nat.eqb n 160.

Fixpoint lstrip (s : string) : string :=
  match s with
  | EmptyString => EmptyString
  | String c s' => if isspace c then lstrip s' else s
  end.

Fixpoint rstrip (s : string) : string :=
  match s with
  | EmptyString => EmptyString
  | String c s' =>
      match rstrip s' with
      | EmptyString => if isspace c then EmptyString else String c EmptyString
      | r => String c r
      end
  end.

(** [s.strip()] *)
Definition strip (s : string) : string := rstrip (lstrip s).

(** ** State and exceptions

    A run threads the progress file and may stop with an exception; what was
    written before the exception stays written. *)

Definition M (A : Type) : Type := file -> file * result A.

Definition ret {A} (a : A) : M A := fun fs => (fs, Ok a).

Definition bind {A B} (m : M A) (k : A -> M B) : M B :=
  fun fs =>
    match m fs with
    | (fs', Ok a) => k a fs'
    | (fs', Raise e) => (fs', Raise e)
    end.

Definition lift {A} (r : result A) : M A := fun fs => (fs, r).

Notation "x <- m ;; k" := (bind m (fun x => k))
  (at level 61, m at next level, right associativity).
Notation "m ;;; k" := (bind m (fun _ => k))
  (at level 61, right associativity).

(** ** Helpers: the progress store *)

Definition ensure_fields (details : pydict) : pydict :=
  let details :=
    if negb (Dict.mem "translations" details)
    then Dict.set "translations" (VDict []) details else details in
  let details :=
    if negb (Dict.mem "metadata" details)
    then Dict.set "metadata" (VDict []) details else details in
  let details :=
    if negb (Dict.mem "assigned" details)
    then Dict.set "assigned" (VList []) details else details in
  let details :=
    if negb (Dict.mem "index" details)
    then Dict.set "index" (VInt 0) details else details in
  details.

(** [json.load] followed by the backward-compatibility loop, which updates
    every record where it stands. *)
Definition load_store (fs : file) : store :=
  match fs with
  | Some data => map (fun '(user, details) => (user, ensure_fields details)) data
  | None => []
  end.

Definition load_user_progress : M store :=
  fun fs => (fs, Ok (load_store fs)).

(** [json.dump] replaces the file's content by the document given. *)
Definition save_user_progress (data : store) : M unit :=
  fun _ => (Some data, Ok tt).

(** ** Metadata page

    [name], [sex], [age], [gmail] and [country] are what the five widgets
    return, [save] whether "Save Metadata" was pressed.  The stored metadata
    only feeds the widgets' initial values; Streamlit's own validation of an
    initial value is outside the source. *)

Definition sex_options : list string := ["Male"; "Female"; "Other"].

(** [options.index(v)]: a list of strings holds no other value. *)
Definition options_index (options : list string) (v : value) : result nat :=
  match v with
  | VStr s => list_index s options
  | _ => Raise ValueError
  end.

Inductive metadata_view : Type :=
| MetadataForm
| MetadataSaved.

Definition metadata_page (username : string)
    (name sex : string) (age : Z) (gmail country : string) (save : bool)
  : M metadata_view :=
  all_progress <- load_user_progress ;;
  let user_data := Dict.get_default username [] all_progress in
  let metadata := Dict.get_default "metadata" (VDict []) user_data in
  _ <- lift (py_get metadata "name" (VStr "")) ;;
  sex0 <- lift (py_get metadata "sex" (VStr "Male")) ;;
  _ <- lift (options_index sex_options sex0) ;;
  _ <- lift (py_get metadata "age" (VInt 18)) ;;
  _ <- lift (py_get metadata "gmail" (VStr "")) ;;
  _ <- lift (py_get metadata "country" (VStr "")) ;;
  if save then
    let user_data :=
      Dict.set "metadata"
        (VDict [("name", VStr name); ("sex", VStr sex); ("age", VInt age);
                ("gmail", VStr gmail); ("country", VStr country)])
        user_data in
    let all_progress := Dict.set username user_data all_progress in
    save_user_progress all_progress ;;;
    ret MetadataSaved
  else ret MetadataForm.

(** ** Translation page

    [sentences] is what [load_sentences] returned on this run, [translation]
    the content of the text area, [submit] whether "Submit Translation" was
    pressed, [now] the timestamp.  [user_data] is the record inside
    [all_progress], not a copy: each update of it is an update of the store,
    written here as the [Dict.set] that follows it. *)

Definition new_record : pydict :=
  [("index", VInt 0); ("translations", VDict []); ("metadata", VDict []);
   ("assigned", VList [])].

Record progress_line : Type := {
  translated_count : Z;
  total_assigned : Z;
  percent : Q
}.

Inductive translate_view : Type :=
| Completed (p : progress_line)
| Awaiting (p : progress_line) (position : Z) (sentence : string)
| Warned (p : progress_line) (position : Z) (sentence : string)
| Submitted (p : progress_line) (position : Z) (sentence : string).

(** [sentences[v]] *)
Definition sentence_at (sentences : list string) (v : value) : result string :=
  match as_int v with
  | Some z => py_index sentences z
  | None => Raise TypeError
  end.

(** [str(v)] for a value that served as a list index on line 124, so an
    [int] or a [bool]. *)
Definition py_str_index (v : value) : result string :=
  match v with
  | VInt z => Ok (str_int z)
  | VBool b => Ok (if b then "True" else "False")
  | _ => Raise TypeError
  end.

(** [v + 1] *)
Definition py_succ (v : value) : result Z :=
  match as_int v with
  | Some z => Ok (z + 1)
  | None => Raise TypeError
  end.

Definition translation_entry (sentence translation now : string) : value :=
  VDict [("English", VStr sentence); ("Translation", VStr (strip translation));
         ("Timestamp", VStr now)].

(** Lines 100-108: assign 100 unique sentences if not already assigned. *)
Definition assign_sentences (sentences : list string) (username : string)
    (all_progress : store) (user_data : pydict) : M (store * pydict) :=
  if negb (py_truthy (Dict.get_default "assigned" VNone user_data))
  then
    let all_users := Dict.keys all_progress in
    user_index <- lift (list_index username all_users) ;;
    let start_idx := Z.of_nat user_index * 100 in
    let end_idx := Z.min (start_idx + 100) (len sentences) in
    let user_data :=
      Dict.set "assigned"
        (VList (map VInt (py_range start_idx end_idx))) user_data in
    let all_progress := Dict.set username user_data all_progress in
    save_user_progress all_progress ;;;
    ret (all_progress, user_data)
  else ret (all_progress, user_data).

(** Lines 110-147: the progress line, the current sentence and the form. *)
Definition translate_form (sentences : list string) (username : string)
    (translation : string) (submit : bool) (now : string)
    (all_progress : store) (user_data : pydict) : M translate_view :=
  assigned_indices <- lift (Dict.getitem user_data "assigned") ;;
  let current_idx := Dict.get_default "index" (VInt 0) user_data in
  (* Show user progress *)
  translated_count <-
    lift (py_len (Dict.get_default "translations" (VDict []) user_data)) ;;
  total_assigned <- lift (py_len assigned_indices) ;;
  ratio <- lift (py_truediv translated_count total_assigned) ;;
  let progress := {| translated_count := translated_count;
                     total_assigned := total_assigned;
                     percent := (ratio * 100)%Q |} in
  finished <- lift (py_ge current_idx total_assigned) ;;
  if finished then ret (Completed progress)
  else
    sentence_idx <- lift (py_getitem assigned_indices current_idx) ;;
    sentence <- lift (sentence_at sentences sentence_idx) ;;
    position <- lift (py_succ current_idx) ;;
    if submit then
      if String.eqb (strip translation) "" then
        ret (Warned progress position sentence)
      else
        (* Ensure translations dictionary exists *)
        let user_data :=
          if negb (Dict.mem "translations" user_data)
          then Dict.set "translations" (VDict []) user_data else user_data in
        translations <- lift (Dict.getitem user_data "translations") ;;
        key <- lift (py_str_index sentence_idx) ;;
        translations <-
          lift (py_setitem translations key
                  (translation_entry sentence translation now)) ;;
        let user_data := Dict.set "translations" translations user_data in
        next <- lift (py_succ current_idx) ;;
        let user_data := Dict.set "index" (VInt next) user_data in
        let all_progress := Dict.set username user_data all_progress in
        save_user_progress all_progress ;;;
        ret (Submitted progress position sentence)
    else ret (Awaiting progress position sentence).

Definition translation_page (sentences : list string) (username : string)
    (translation : string) (submit : bool) (now : string)
  : M translate_view :=
  all_progress <- load_user_progress ;;
  let all_progress :=
    if negb (Dict.mem username all_progress)
    then Dict.set username new_record all_progress else all_progress in
  user_data <- lift (Dict.getitem all_progress username) ;;
  st <- assign_sentences sentences username all_progress user_data ;;
  let '(all_progress, user_data) := st in
  translate_form sentences username translation submit now
    all_progress user_data.

(** ** Admin page

    [admin_logged_in] is the session flag on entry, [password] and [login]
    the password typed and whether "Login as Admin" was pressed.  The
    percentage is an exact rational rounded to two decimals, ties to even.
    The code rounds the binary [float] of the quotient, which is not
    modelled: the two can differ in the last digit where the exact value is
    a tie.  Of the percentage, only the value 0 of an empty assignment, which
    is not rounded, is used in the statements. *)

Record progress_row : Type := {
  pr_user : string;
  pr_translated : Z;
  pr_assigned : Z;
  pr_progress : Q
}.

Record metadata_row : Type := {
  mr_user : string;
  mr_name : value;
  mr_sex : value;
  mr_age : value;
  mr_gmail : value;
  mr_country : value
}.

Record translation_row : Type := {
  tr_user : string;
  tr_index : string;
  tr_english : value;
  tr_translation : value;
  tr_timestamp : value
}.

Inductive admin_view : Type :=
| AdminLogin
| AdminWelcome
| AdminIncorrect
| AdminNoData
| AdminDashboard (progress_data : list progress_row)
    (metadata_rows : list metadata_row)
    (translation_rows : list translation_row).

(** [round(q, 2)], ties to even. *)
Definition py_round2 (q : Q) : Q :=
  let x := (q * 100)%Q in
  let f := Qfloor x in
  let r := (x - inject_Z f)%Q in
  let n := match (r ?= 1 # 2)%Q with
           | Lt => f
           | Gt => f + 1
           | Eq => if Z.even f then f else f + 1
           end in
  Qred (Qmake n 100).

(** [entry[k]] with a string key [k]. *)
Definition py_field (entry : value) (k : string) : result value :=
  match entry with
  | VDict d => Dict.getitem d k
  | _ => Raise TypeError
  end.

(** [c.items()]: only a dict has the method. *)
Definition py_items (c : value) : result (list (string * value)) :=
  match c with
  | VDict d => Ok d
  | _ => Raise AttributeError
  end.

Definition rbind {A B} (r : result A) (k : A -> result B) : result B :=
  match r with
  | Ok a => k a
  | Raise e => Raise e
  end.

Notation "x <~ r ;; k" := (rbind r (fun x => k))
  (at level 61, r at next level, right associativity).

(** The entry of [progress_data] for one record. *)
Definition progress_entry (user : string) (translations assigned : value)
  : result progress_row :=
  translated <~ py_len translations ;;
  n_assigned <~ py_len assigned ;;
  progress <~ (if py_truthy assigned
               then ratio <~ py_truediv translated n_assigned ;;
                    Ok (py_round2 (ratio * 100))
               else Ok 0%Q) ;;
  Ok {| pr_user := user; pr_translated := translated;
        pr_assigned := n_assigned; pr_progress := progress |}.

Definition metadata_entry (user : string) (metadata : value)
  : result metadata_row :=
  name <~ py_get metadata "name" (VStr "") ;;
  sex <~ py_get metadata "sex" (VStr "") ;;
  age <~ py_get metadata "age" (VStr "") ;;
  gmail <~ py_get metadata "gmail" (VStr "") ;;
  country <~ py_get metadata "country" (VStr "") ;;
  Ok {| mr_user := user; mr_name := name; mr_sex := sex; mr_age := age;
        mr_gmail := gmail; mr_country := country |}.

Fixpoint translation_entries (user : string) (items : list (string * value))
  : result (list translation_row) :=
  match items with
  | [] => Ok []
  | (idx, entry) :: items' =>
      english <~ py_field entry "English" ;;
      translation <~ py_field entry "Translation" ;;
      timestamp <~ py_field entry "Timestamp" ;;
      rest <~ translation_entries user items' ;;
      Ok ({| tr_user := user; tr_index := idx; tr_english := english;
             tr_translation := translation; tr_timestamp := timestamp |}
          :: rest)
  end.

(** The loop over [data.items()]. *)
Fixpoint admin_tables (data : store)
  : result (list progress_row * list metadata_row * list translation_row) :=
  match data with
  | [] => Ok ([], [], [])
  | (user, details) :: data' =>
      let translations := Dict.get_default "translations" (VDict []) details in
      let metadata := Dict.get_default "metadata" (VDict []) details in
      let assigned := Dict.get_default "assigned" (VList []) details in
      p <~ progress_entry user translations assigned ;;
      m <~ metadata_entry user metadata ;;
      items <~ py_items translations ;;
      t <~ translation_entries user items ;;
      rest <~ admin_tables data' ;;
      let '(ps, ms, ts) := rest in
      Ok (p :: ps, m :: ms, (t ++ ts)%list)
  end.

Definition admin_page (ADMIN_PASSWORD : string) (admin_logged_in : bool)
    (password : string) (login : bool) : M admin_view :=
  if negb admin_logged_in then
    if login then
      if String.eqb password ADMIN_PASSWORD then ret AdminWelcome
      else ret AdminIncorrect
    else ret AdminLogin
  else
    data <- load_user_progress ;;
    match data with
    | [] => ret AdminNoData
    | _ =>
        tables <- lift (admin_tables data) ;;
        let '(ps, ms, ts) := tables in
        ret (AdminDashboard ps ms ts)
    end.

(** ** Requests

    One run of a page that reads or writes the progress file, with everything
    the environment supplies to it; [serve] is the file the run leaves. *)

Inductive request : Type :=
| ReqMetadata (username name sex : string) (age : Z) (gmail country : string)
    (save : bool)
| ReqTranslate (sentences : list string) (username translation : string)
    (submit : bool) (now : string)
| ReqAdmin (ADMIN_PASSWORD : string) (admin_logged_in : bool)
    (password : string) (login : bool).

Definition serve (r : request) (fs : file) : file :=
  match r with
  | ReqMetadata username name sex age gmail country save =>
      fst (metadata_page username name sex age gmail country save fs)
  | ReqTranslate sentences username translation submit now =>
      fst (translation_page sentences username translation submit now fs)
  | ReqAdmin pw logged password login =>
      fst (admin_page pw logged password login fs)
  end.

(** The files the application can produce, starting without a file. *)
Inductive reachable : file -> Prop :=
| reachable_init : reachable None
| reachable_serve r fs : reachable fs -> reachable (serve r fs).

(** ** Observations on the store *)

(** The record of [u] as a page sees it after loading. *)
Definition record_of (fs : file) (u : string) : option pydict :=
  Dict.get u (load_store fs).

(** The record of [u] as the file holds it. *)
Definition stored_record (fs : file) (u : string) : option pydict :=
  match fs with
  | Some data => Dict.get u data
  | None => None
  end.

Definition assigned_of (fs : file) (u : string) : option value :=
  match record_of fs u with
  | Some r => Dict.get "assigned" r
  | None => None
  end.

Definition index_of (fs : file) (u : string) : option value :=
  match record_of fs u with
  | Some r => Dict.get "index" r
  | None => None
  end.

Definition translations_of (fs : file) (u : string) : option value :=
  match record_of fs u with
  | Some r => Dict.get "translations" r
  | None => None
  end.

(** ** Vocabulary of the statements *)

(** The four fields of a user record and the value each defaults to. *)
Definition record_fields : list (string * value) :=
  [("translations", VDict []); ("metadata", VDict []);
   ("assigned", VList []); ("index", VInt 0)].

(** A record of a well-formed store has all four fields. *)
Definition well_formed_record (details : pydict) : bool :=
  forallb (fun f => Dict.mem (fst f) details) record_fields.

Definition well_formed_store (data : store) : bool :=
  forallb (fun item => well_formed_record (snd item)) data.

(** Loading the store and saving it at once. *)
Definition load_then_save : M unit :=
  data <- load_user_progress ;;
  save_user_progress data.

(** The usernames in the order [list(all_progress.keys())] has on a Translate
    visit of [username]: the order of the file, the visitor last when new. *)
Definition users_at_visit (username : string) (fs : file) : list string :=
  (Dict.keys (load_store fs)
   ++ (if Dict.mem username (load_store fs) then [] else [username]))%list.

(** [p] is the zero-based position of [username] among [users]. *)
Definition position_of (username : string) (users : list string) (p : nat)
  : Prop :=
  nth_error users p = Some username /\ ~ In username (firstn p users).

(** The store a Translate visit of [username] works on (lines 88-96). *)
Definition visited (username : string) (fs : file) : Dict.t (Dict.t value) :=
  if negb (Dict.mem username (load_store fs))
  then Dict.set username new_record (load_store fs) else load_store fs.

(** The indices a visit assigns to the user at position [p] (lines 104-106). *)
Definition assignment (sentences : list string) (p : nat) : list Z :=
  py_range (Z.of_nat p * 100)
    (Z.min (Z.of_nat p * 100 + 100) (len sentences)).

(** [user_data'] is [user_data] after an accepted submission of
    [translation] (lines 133-143). *)
Definition submission (sentences : list string) (translation now : string)
    (user_data user_data' : Dict.t value) : Prop :=
  exists assigned total z sentence_idx sentence key t,
    String.eqb (strip translation) "" = false
    /\ Dict.get "assigned" user_data = Some assigned
    /\ py_len assigned = Ok total
    /\ as_int (Dict.get_default "index" (VInt 0) user_data) = Some z
    /\ z < total
    /\ py_getitem assigned (Dict.get_default "index" (VInt 0) user_data)
       = Ok sentence_idx
    /\ sentence_at sentences sentence_idx = Ok sentence
    /\ py_str_index sentence_idx = Ok key
    /\ Dict.get "translations" user_data = Some (VDict t)
    /\ user_data'
       = Dict.set "index" (VInt (z + 1))
           (Dict.set "translations"
              (VDict (Dict.set key (translation_entry sentence translation now)
                        t))
              user_data).

(** The record a Translate visit of [username] starts from. *)
Definition start_record (username : string) (fs : file) : Dict.t value :=
  match record_of fs username with
  | Some r => r
  | None => new_record
  end.

(** The submission property with the text taken as typed: whenever a user
    whose cursor [i] stands on sentence [idx] of the assignment submits a
    non-empty [translation], the file then holds [translation] under
    [str(idx)] and the cursor [i + 1]. *)
Definition submission_stores_text_as_typed : Prop :=
  forall sentences username translation now fs r l t i idx sentence,
    record_of fs username = Some r ->
    Dict.get "assigned" r = Some (VList l) ->
    Dict.get "index" r = Some (VInt i) ->
    Dict.get "translations" r = Some (VDict t) ->
    i < len l ->
    py_index l i = Ok (VInt idx) ->
    py_index sentences idx = Ok sentence ->
    translation <> "" ->
    exists stored entry,
      translations_of
        (fst (translation_page sentences username translation true now fs))
        username = Some (VDict stored)
      /\ Dict.get (str_int idx) stored = Some entry
      /\ py_field entry "Translation" = Ok (VStr translation)
      /\ index_of
           (fst (translation_page sentences username translation true now fs))
           username = Some (VInt (i + 1)).

(** The cursor and the length of the assignment of a record, read with the
    defaults of the loader; a record not yet created reads as the empty
    record. *)
Definition record_cursor (r : Dict.t value) : Z :=
  match Dict.get_default "index" (VInt 0) r with
  | VInt i => i
  | _ => 0
  end.

Definition record_assigned (r : Dict.t value) : value :=
  Dict.get_default "assigned" (VList []) r.

Definition record_assigned_len (r : Dict.t value) : Z :=
  match record_assigned r with
  | VList l => len l
  | _ => 0
  end.

Definition record_or_empty (fs : file) (u : string) : Dict.t value :=
  match record_of fs u with
  | Some r => r
  | None => []
  end.

Definition cursor (fs : file) (u : string) : Z :=
  record_cursor (record_or_empty fs u).

Definition assigned_len (fs : file) (u : string) : Z :=
  record_assigned_len (record_or_empty fs u).

(** The shape of the records the application writes: an integer cursor
    within an assignment of at most 100 integers, and a dict of
    translations. *)
Definition record_inv (r : Dict.t value) : Prop :=
  exists i l t,
    Dict.get_default "index" (VInt 0) r = VInt i
    /\ Dict.get_default "assigned" (VList []) r = VList (map VInt l)
    /\ Dict.get_default "translations" (VDict []) r = VDict t
    /\ 0 <= i <= len l
    /\ len l <= 100.

Definition file_inv (fs : file) : Prop :=
  forall u r, record_of fs u = Some r -> record_inv r.

(** How one run changes the record of the user it serves: a metadata save,
    or an assignment (when the record has none) followed or not by an
    accepted submission. *)
Definition record_change (old new : Dict.t value) : Prop :=
  (exists md, new = ensure_fields (Dict.set "metadata" md old))
  \/ (exists mid,
        (mid = old
         \/ (py_truthy (Dict.get_default "assigned" VNone old) = false
             /\ exists sentences p,
                 mid = Dict.set "assigned"
                         (VList (map VInt (assignment sentences p))) old))
        /\ (new = mid
            \/ exists sentences translation now,
                submission sentences translation now mid new)).

(** The freezing property with every computed list taken as final: the list
    a Translate visit leaves for its user is never changed by a later run. *)
Definition assignment_frozen_after_visit : Prop :=
  forall fs sentences u translation submit now req,
    reachable fs ->
    assigned_of
      (serve req (serve (ReqTranslate sentences u translation submit now) fs))
      u
    = assigned_of (serve (ReqTranslate sentences u translation submit now) fs)
        u.

(** The frame property of a metadata save with the records taken as the file
    holds them: the fields of the user's record other than [metadata] that
    the file held keep their values, and the record of every other user is,
    in the store written back, the record the file held. *)
Definition metadata_save_keeps_stored_records : Prop :=
  forall fs username name sex age gmail country,
    snd (metadata_page username name sex age gmail country true fs)
    = Ok MetadataSaved ->
    (forall r f x,
        stored_record fs username = Some r -> f <> "metadata" ->
        Dict.get f r = Some x ->
        exists r',
          stored_record
            (fst (metadata_page username name sex age gmail country true fs))
            username = Some r'
          /\ Dict.get f r' = Some x)
    /\ (forall v, v <> username ->
          stored_record
            (fst (metadata_page username name sex age gmail country true fs)) v
          = stored_record fs v).

(** ** Router

    [main] runs once per interaction.  [st.session_state] is a dict that
    lives as long as the browser session; [inputs] is what the widgets of
    the run return.  [st.rerun()] ends the run and starts the next one, which
    is a run like any other.  A session is logged in only with a [str]
    username (lines 256-257), and no run makes another kind of session.  The
    pages are not modelled for a username that is not a [str]: where the code
    would call the page with such a value, [main] stops with [TypeError] in
    its place, and what is stated about the file a run of [main] writes is
    stated for sessions that [session_ok] admits. *)

Definition menu : list string :=
  ["Login"; "Metadata"; "Translate"; "Admin"; "Refresh"; "About"].

Record inputs : Type := {
  in_choice : string;
  in_username : string;
  in_login : bool;
  in_next : bool;
  in_name : string;
  in_sex : string;
  in_age : Z;
  in_gmail : string;
  in_country : string;
  in_save : bool;
  in_sentences : list string;
  in_translation : string;
  in_submit : bool;
  in_now : string;
  in_password : string;
  in_admin_login : bool
}.

Inductive main_view : Type :=
| ViewLoginForm
| ViewLoginInvalid
| ViewWelcome
| ViewLoggedIn
| ViewPleaseLogin
| ViewMetadata (v : metadata_view)
| ViewTranslate (v : translate_view)
| ViewAdmin (v : admin_view)
| ViewRefreshed
| ViewAbout
| ViewNothing.

(** The state between two runs: the session and the progress file. *)
Definition app_state : Type := Dict.t value * file.

(** A page run inside [main]: the session is kept, the view wrapped. *)
Definition run_page {A} (session : Dict.t value) (wrap : A -> main_view)
    (page : M A) (fs : file) : app_state * result main_view :=
  match page fs with
  | (fs', Ok v) => ((session, fs'), Ok (wrap v))
  | (fs', Raise e) => ((session, fs'), Raise e)
  end.

(** Lines 152-232 inside a session: [admin_page] with the flag it keeps in
    [st.session_state]. *)
Definition admin_in_session (ADMIN_PASSWORD : string) (i : inputs)
    (session : Dict.t value) (fs : file) : app_state * result main_view :=
  let session :=
    if negb (Dict.mem "admin_logged_in" session)
    then Dict.set "admin_logged_in" (VBool false) session else session in
  let admin_logged_in :=
    py_truthy (Dict.get_default "admin_logged_in" VNone session) in
  match admin_page ADMIN_PASSWORD admin_logged_in (in_password i)
          (in_admin_login i) fs with
  | (fs', Ok AdminWelcome) =>
      ((Dict.set "admin_logged_in" (VBool true) session, fs'),
       Ok (ViewAdmin AdminWelcome))
  | (fs', Ok v) => ((session, fs'), Ok (ViewAdmin v))
  | (fs', Raise e) => ((session, fs'), Raise e)
  end.

(** Lines 240-245: the three keys a new session lacks. *)
Definition init_session (session : Dict.t value) : Dict.t value :=
  let session :=
    if negb (Dict.mem "username" session)
    then Dict.set "username" VNone session else session in
  let session :=
    if negb (Dict.mem "logged_in" session)
    then Dict.set "logged_in" (VBool false) session else session in
  if negb (Dict.mem "page" session)
  then Dict.set "page" (VStr "Login") session else session.

Definition main (ADMIN_PASSWORD : string) (i : inputs) (st : app_state)
  : app_state * result main_view :=
  let '(session, fs) := st in
  let session := init_session session in
  match options_index menu (Dict.get_default "page" VNone session) with
  | Raise e => ((session, fs), Raise e)
  | Ok _ =>
      let session := Dict.set "page" (VStr (in_choice i)) session in
      let page := in_choice i in
      let logged_in := py_truthy (Dict.get_default "logged_in" VNone session) in
      if String.eqb page "Login" then
        if negb logged_in then
          if in_login i then
            if negb (String.eqb (strip (in_username i)) "") then
              let session :=
                Dict.set "username" (VStr (strip (in_username i))) session in
              let session := Dict.set "logged_in" (VBool true) session in
              let session := Dict.set "page" (VStr "Metadata") session in
              ((session, fs), Ok ViewWelcome)
            else ((session, fs), Ok ViewLoginInvalid)
          else ((session, fs), Ok ViewLoginForm)
        else
          if in_next i then
            ((Dict.set "page" (VStr "Metadata") session, fs), Ok ViewLoggedIn)
          else ((session, fs), Ok ViewLoggedIn)
      else if String.eqb page "Metadata" then
        if logged_in then
          match Dict.get_default "username" VNone session with
          | VStr username =>
              match metadata_page username (in_name i) (in_sex i) (in_age i)
                      (in_gmail i) (in_country i) (in_save i) fs with
              | (fs', Ok MetadataSaved) =>
                  ((Dict.set "page" (VStr "Translate") session, fs'),
                   Ok (ViewMetadata MetadataSaved))
              | (fs', Ok v) => ((session, fs'), Ok (ViewMetadata v))
              | (fs', Raise e) => ((session, fs'), Raise e)
              end
          | _ => ((session, fs), Raise TypeError)
          end
        else ((session, fs), Ok ViewPleaseLogin)
      else if String.eqb page "Translate" then
        if logged_in then
          match Dict.get_default "username" VNone session with
          | VStr username =>
              run_page session ViewTranslate
                (translation_page (in_sentences i) username
                   (in_translation i) (in_submit i) (in_now i)) fs
          | _ => ((session, fs), Raise TypeError)
          end
        else ((session, fs), Ok ViewPleaseLogin)
      else if String.eqb page "Admin" then
        admin_in_session ADMIN_PASSWORD i session fs
      else if String.eqb page "Refresh" then
        (([], fs), Ok ViewRefreshed)
      else if String.eqb page "About" then
        ((session, fs), Ok ViewAbout)
      else ((session, fs), Ok ViewNothing)
  end.

(** The state after a sequence of runs. *)
Fixpoint run_all (ADMIN_PASSWORD : string) (runs : list inputs)
    (st : app_state) : app_state :=
  match runs with
  | [] => st
  | i :: runs' => run_all ADMIN_PASSWORD runs' (fst (main ADMIN_PASSWORD i st))
  end.

(** The states of the application, from a new session and no file. *)
Inductive app_reachable (ADMIN_PASSWORD : string) : app_state -> Prop :=
| app_init : app_reachable ADMIN_PASSWORD ([], None)
| app_run i st :
    app_reachable ADMIN_PASSWORD st ->
    app_reachable ADMIN_PASSWORD (fst (main ADMIN_PASSWORD i st)).

(** ** Shape of the stores the application writes *)

(** A stored translation: the three strings of lines 138-142, the text
    stripped and not empty. *)
Definition entry_ok (entry : value) : Prop :=
  exists english text timestamp,
    entry = VDict [("English", VStr english); ("Translation", VStr text);
                   ("Timestamp", VStr timestamp)]
    /\ text <> "" /\ strip text = text.

(** The record of the user at position [p] of the store: the assignment is
    a run of consecutive indices from [100 * p], the cursor lies within it,
    and the translations are those of the sentences before the cursor, in
    that order. *)
Definition record_ok (p : nat) (r : Dict.t value) : Prop :=
  exists i l t md,
    Dict.get_default "index" (VInt 0) r = VInt i
    /\ Dict.get_default "assigned" (VList []) r = VList (map VInt l)
    /\ Dict.get_default "translations" (VDict []) r = VDict t
    /\ Dict.get_default "metadata" (VDict []) r = VDict md
    /\ 0 <= i <= len l
    /\ len l <= 100
    /\ l = py_range (100 * Z.of_nat p) (100 * Z.of_nat p + len l)
    /\ Dict.keys t = map str_int (firstn (Z.to_nat i) l)
    /\ Forall (fun item => entry_ok (snd item)) t.

Definition store_ok (data : Dict.t (Dict.t value)) : Prop :=
  forall p u r, nth_error data p = Some (u, r) -> record_ok p r.

(** How one run changes the record of the user at position [p]. *)
Definition record_step (p : nat) (old new : Dict.t value) : Prop :=
  (exists name sex age gmail country,
      new = ensure_fields
              (Dict.set "metadata"
                 (VDict [("name", VStr name); ("sex", VStr sex);
                         ("age", VInt age); ("gmail", VStr gmail);
                         ("country", VStr country)])
                 old))
  \/ (exists mid,
        (mid = old
         \/ (py_truthy (Dict.get_default "assigned" VNone old) = false
             /\ exists sentences,
                 mid = Dict.set "assigned"
                         (VList (map VInt (assignment sentences p))) old))
        /\ (new = mid
            \/ exists sentences translation now,
                submission sentences translation now mid new)).

(** A username as the login page stores it. *)
Definition username_ok (u : string) : Prop := u <> "" /\ strip u = u.

Definition session_ok (session : Dict.t value) : Prop :=
  py_truthy (Dict.get_default "logged_in" VNone session) = true ->
  exists u, Dict.get "username" session = Some (VStr u) /\ username_ok u.

Definition usernames_ok (fs : file) : Prop :=
  forall u, In u (Dict.keys (load_store fs)) -> username_ok u.

(** A run that does not log the administrator in. *)
Definition no_admin_login (ADMIN_PASSWORD : string) (i : inputs) : Prop :=
  in_admin_login i = false \/ in_password i <> ADMIN_PASSWORD.

(** The progress line a Translate view shows (lines 113-117). *)
Definition view_progress (v : translate_view) : progress_line :=
  match v with
  | Completed p | Awaiting p _ _ | Warned p _ _ | Submitted p _ _ => p
  end.


(** * Properties *)

(** ** Dictionaries *)

Section DictFacts.

Context {A : Type}.
Implicit Types (d : Dict.t A) (k : string) (v : A).

Lemma dict_get_set_same k v d : Dict.get k (Dict.set k v d) = Some v.
Proof.
  induction d as [|[k' v'] d IH]; simpl.
  - now rewrite String.eqb_refl.
  - destruct (String.eqb k k') eqn:E; simpl; rewrite E; auto.
Qed.

Lemma dict_get_set_other k k' v d :
  k <> k' -> Dict.get k' (Dict.set k v d) = Dict.get k' d.
Proof.
  intros Hne. induction d as [|[k0 v0] d IH]; simpl.
  - destruct (String.eqb_spec k' k); [congruence | reflexivity].
  - destruct (String.eqb_spec k k0) as [->|]; simpl.
    + destruct (String.eqb_spec k' k0); [congruence | reflexivity].
    + now rewrite IH.
Qed.

Lemma dict_get_set k k' v d :
  Dict.get k' (Dict.set k v d)
  = if String.eqb k k' then Some v else Dict.get k' d.
Proof.
  destruct (String.eqb_spec k k') as [<-|Hne].
  - apply dict_get_set_same.
  - now apply dict_get_set_other.
Qed.

Lemma dict_get_default_cases k v0 d :
  Dict.get k d = Some (Dict.get_default k v0 d)
  \/ (Dict.get k d = None /\ Dict.get_default k v0 d = v0).
Proof. unfold Dict.get_default. destruct (Dict.get k d); auto. Qed.

Lemma dict_mem_false k d : Dict.mem k d = false <-> Dict.get k d = None.
Proof.
  unfold Dict.mem. destruct (Dict.get k d); split; congruence.
Qed.

Lemma dict_mem_set_same k v d : Dict.mem k (Dict.set k v d) = true.
Proof. unfold Dict.mem. now rewrite dict_get_set_same. Qed.

Lemma dict_mem_set_other k k' v d :
  k <> k' -> Dict.mem k' (Dict.set k v d) = Dict.mem k' d.
Proof. intros. unfold Dict.mem. now rewrite dict_get_set_other. Qed.

Lemma dict_get_default_set_same k v v0 d :
  Dict.get_default k v0 (Dict.set k v d) = v.
Proof. unfold Dict.get_default. now rewrite dict_get_set_same. Qed.

Lemma dict_get_default_set_other k k' v v0 d :
  k <> k' ->
  Dict.get_default k' v0 (Dict.set k v d) = Dict.get_default k' v0 d.
Proof. intros. unfold Dict.get_default. now rewrite dict_get_set_other. Qed.

(** Assigning to a key that is present keeps every key where it is. *)
Lemma dict_keys_set_present k v d :
  Dict.mem k d = true -> Dict.keys (Dict.set k v d) = Dict.keys d.
Proof.
  unfold Dict.mem. induction d as [|[k' v'] d IH]; simpl; [discriminate|].
  destruct (String.eqb k k'); simpl; intros H; [reflexivity|].
  f_equal. auto.
Qed.

(** Assigning to a new key appends it. *)
Lemma dict_keys_set_absent k v d :
  Dict.mem k d = false -> Dict.keys (Dict.set k v d) = (Dict.keys d ++ [k])%list.
Proof.
  unfold Dict.mem. induction d as [|[k' v'] d IH]; simpl; [reflexivity|].
  destruct (String.eqb k k'); simpl; intros H; [discriminate|].
  f_equal. auto.
Qed.

Lemma dict_in_keys k d : In k (Dict.keys d) <-> Dict.mem k d = true.
Proof.
  unfold Dict.mem. induction d as [|[k' v'] d IH]; simpl.
  - split; [tauto | discriminate].
  - destruct (String.eqb_spec k k') as [->|Hne].
    + split; auto.
    + rewrite <- IH. split; [intros [|]; congruence || auto | auto].
Qed.

Lemma dict_set_set k v v' d :
  Dict.set k v (Dict.set k v' d) = Dict.set k v d.
Proof.
  induction d as [|[k0 v0] d IH]; simpl.
  - now rewrite String.eqb_refl.
  - destruct (String.eqb k k0) eqn:E; simpl; rewrite E; [reflexivity|].
    now rewrite IH.
Qed.

Lemma dict_count_absent k d : Dict.mem k d = false -> Dict.count k d = O.
Proof.
  unfold Dict.count, Dict.mem.
  induction d as [|[k' v'] d IH]; simpl; [reflexivity|].
  destruct (String.eqb k k'); [discriminate | auto].
Qed.

(** After [d[k] = v] on a dict whose keys are distinct, [k] occurs once. *)
Lemma dict_count_set k v d :
  NoDup (Dict.keys d) -> Dict.count k (Dict.set k v d) = 1%nat.
Proof.
  unfold Dict.count.
  induction d as [|[k' v'] d IH]; simpl; intros Hnd.
  - now rewrite String.eqb_refl.
  - inversion Hnd as [|? ? Hnotin Hnd']; subst.
    destruct (String.eqb_spec k k') as [->|Hne]; simpl.
    + rewrite String.eqb_refl. simpl. f_equal.
      apply (dict_count_absent k' d).
      apply not_true_is_false. now rewrite <- dict_in_keys.
    + destruct (String.eqb_spec k k'); [congruence | auto].
Qed.

Lemma dict_nodup_set k v d :
  NoDup (Dict.keys d) -> NoDup (Dict.keys (Dict.set k v d)).
Proof.
  intros Hnd. destruct (Dict.mem k d) eqn:E.
  - now rewrite dict_keys_set_present.
  - rewrite dict_keys_set_absent by assumption.
    apply NoDup_app; [assumption | repeat constructor; simpl; tauto |].
    intros x Hx [<-|[]]. apply dict_in_keys in Hx. congruence.
Qed.

End DictFacts.

(** ** Loading and saving *)

Section Load.

(** [if k not in d: d[k] = v] *)
Let setdefault (k : string) (v : value) (d : pydict) : pydict :=
  if negb (Dict.mem k d) then Dict.set k v d else d.

Lemma setdefault_get k v d f :
  Dict.get f (setdefault k v d) =
  if String.eqb k f
  then match Dict.get f d with Some x => Some x | None => Some v end
  else Dict.get f d.
Proof.
  unfold setdefault, Dict.mem.
  destruct (String.eqb_spec k f) as [->|Hne].
  - destruct (Dict.get f d) eqn:E; simpl; [exact E|].
    apply dict_get_set_same.
  - destruct (Dict.get k d); simpl; [reflexivity|].
    now apply dict_get_set_other.
Qed.

Lemma ensure_fields_fold d :
  ensure_fields d =
  fold_left (fun d f => setdefault (fst f) (snd f) d) record_fields d.
Proof. reflexivity. Qed.

Lemma fold_setdefault_get (fields : list (string * value)) d f :
  Dict.get f (fold_left (fun d f => setdefault (fst f) (snd f) d) fields d) =
  match Dict.get f d with
  | Some x => Some x
  | None => Dict.get f fields
  end.
Proof.
  revert d. induction fields as [|[k v] fields IH]; intros d.
  - simpl. now destruct (Dict.get f d).
  - cbn [fold_left fst snd]. rewrite IH, setdefault_get.
    cbn [Dict.get]. rewrite (String.eqb_sym f k).
    destruct (String.eqb k f); destruct (Dict.get f d); reflexivity.
Qed.

(** A field of the loaded record: the stored value when there is one, the
    default of the field otherwise. *)
Lemma ensure_fields_get d f :
  Dict.get f (ensure_fields d) =
  match Dict.get f d with
  | Some x => Some x
  | None => Dict.get f record_fields
  end.
Proof. rewrite ensure_fields_fold. apply fold_setdefault_get. Qed.

Lemma ensure_fields_get_default d f v :
  Dict.get f record_fields = Some v ->
  Dict.get_default f v (ensure_fields d) = Dict.get_default f v d.
Proof.
  intros Hf. unfold Dict.get_default. rewrite ensure_fields_get.
  destruct (Dict.get f d); [reflexivity | now rewrite Hf].
Qed.

Lemma ensure_fields_well_formed d :
  well_formed_record d = true -> ensure_fields d = d.
Proof.
  unfold well_formed_record. simpl. rewrite !andb_true_iff.
  intros (Ht & Hm & Ha & Hi & _).
  unfold ensure_fields.
  rewrite Ht; cbn [negb]. rewrite Hm; cbn [negb].
  rewrite Ha; cbn [negb]. now rewrite Hi.
Qed.

Lemma ensure_fields_is_well_formed d :
  well_formed_record (ensure_fields d) = true.
Proof.
  unfold well_formed_record. apply forallb_forall. intros [f v] Hin.
  simpl. unfold Dict.mem. rewrite ensure_fields_get.
  destruct (Dict.get f d); [reflexivity|].
  simpl in Hin. decompose [or] Hin; try contradiction;
    match goal with H : _ = (f, v) |- _ => inversion H; subst end;
    reflexivity.
Qed.

Lemma well_formed_record_mem d f :
  well_formed_record d = true -> In f (Dict.keys record_fields) ->
  Dict.mem f d = true.
Proof.
  unfold well_formed_record. simpl. rewrite !andb_true_iff.
  intros (Ht & Hm & Ha & Hi & _) Hin.
  decompose [or] Hin; subst; try contradiction; assumption.
Qed.

Lemma load_store_get data u :
  Dict.get u (load_store (Some data)) =
  option_map ensure_fields (Dict.get u data).
Proof.
  simpl. induction data as [|[u' d'] data IH]; simpl; [reflexivity|].
  destruct (String.eqb u u'); [reflexivity | exact IH].
Qed.

Lemma load_store_well_formed data :
  well_formed_store data = true -> load_store (Some data) = data.
Proof.
  unfold well_formed_store. simpl.
  induction data as [|[u d] data IH]; simpl; [reflexivity|].
  rewrite andb_true_iff. intros [Hd Hrest].
  now rewrite (ensure_fields_well_formed _ Hd), IH.
Qed.

Lemma load_store_is_well_formed fs :
  well_formed_store (load_store fs) = true.
Proof.
  destruct fs as [data|]; [|reflexivity].
  unfold well_formed_store. simpl.
  induction data as [|[u d] data IH]; simpl; [reflexivity|].
  now rewrite ensure_fields_is_well_formed, IH.
Qed.

Lemma load_store_saved data :
  load_store (Some (load_store data)) = load_store data.
Proof. apply load_store_well_formed, load_store_is_well_formed. Qed.

End Load.

(** C5.  Every record of the progress file is loaded where it stands, under
    the same username, with each of the four fields [translations],
    [metadata], [assigned], [index] that is missing set to [{}], [{}], [[]],
    [0], and every field that is present (these four or any other) left as
    stored; each of the four can then be read by subscript without
    [KeyError], and the load itself returns normally. *)
Theorem load_defaults_missing_fields
    (data : store) (n : nat) (user : string) (details : pydict) :
  nth_error data n = Some (user, details) ->
  exists loaded,
    load_user_progress (Some data) = (Some data, Ok (load_store (Some data)))
    /\ nth_error (load_store (Some data)) n = Some (user, loaded)
    /\ (forall f v, Dict.get f details = Some v -> Dict.get f loaded = Some v)
    /\ (Dict.get "translations" details = None ->
        Dict.get "translations" loaded = Some (VDict []))
    /\ (Dict.get "metadata" details = None ->
        Dict.get "metadata" loaded = Some (VDict []))
    /\ (Dict.get "assigned" details = None ->
        Dict.get "assigned" loaded = Some (VList []))
    /\ (Dict.get "index" details = None ->
        Dict.get "index" loaded = Some (VInt 0))
    /\ (forall f, In f (Dict.keys record_fields) ->
        exists v, Dict.getitem loaded f = Ok v)
    /\ (forall f, Dict.get f record_fields = None ->
        Dict.get f loaded = Dict.get f details).
Proof.
  intros Hn. exists (ensure_fields details).
  split; [reflexivity|]. split.
  { simpl. rewrite nth_error_map, Hn. reflexivity. }
  split.
  { intros f v Hf. now rewrite ensure_fields_get, Hf. }
  do 4 (split; [intros Hf; now rewrite ensure_fields_get, Hf|]).
  split.
  - intros f Hin. unfold Dict.getitem. rewrite ensure_fields_get.
    destruct (Dict.get f details); [eauto|].
    simpl in Hin. decompose [or] Hin; subst; try contradiction; simpl; eauto.
  - intros f Hf. rewrite ensure_fields_get, Hf.
    now destruct (Dict.get f details).
Qed.

Lemma load_defaults_missing_fields_witness :
  exists loaded,
    load_user_progress (Some [("ada", [("metadata", VDict [("name", VStr "Ada")])])])
    = (Some [("ada", [("metadata", VDict [("name", VStr "Ada")])])],
       Ok (load_store (Some [("ada", [("metadata", VDict [("name", VStr "Ada")])])])))
    /\ nth_error
         (load_store (Some [("ada", [("metadata", VDict [("name", VStr "Ada")])])]))
         0 = Some ("ada", loaded)
    /\ Dict.get "metadata" loaded = Some (VDict [("name", VStr "Ada")])
    /\ Dict.get "index" loaded = Some (VInt 0).
Proof.
  destruct (load_defaults_missing_fields
              [("ada", [("metadata", VDict [("name", VStr "Ada")])])] 0
              "ada" [("metadata", VDict [("name", VStr "Ada")])] eq_refl)
    as (loaded & H1 & H2 & H3 & _ & _ & _ & H7 & _).
  exists loaded. repeat split; auto.
Defined.

(** C6.  Loading a store in which every record has the four fields and
    saving what was loaded, with nothing done in between, writes back the
    store that was in the file: same users in the same order, every record
    field for field the same. *)
Theorem load_then_save_well_formed (data : store) :
  well_formed_store data = true ->
  load_then_save (Some data) = (Some data, Ok tt).
Proof.
  intros Hwf. unfold load_then_save, bind, load_user_progress,
    save_user_progress.
  now rewrite (load_store_well_formed _ Hwf).
Qed.

Lemma load_then_save_well_formed_witness :
  load_then_save (Some [("ada", new_record)]) = (Some [("ada", new_record)], Ok tt).
Proof. apply load_then_save_well_formed. reflexivity. Defined.

(** ** Admin reporting *)

Section Admin.

Lemma py_len_raise v e : py_len v = Raise e -> e = TypeError.
Proof. destruct v; simpl; congruence. Qed.

(** A truthy value that has a length has a positive one. *)
Lemma py_len_truthy v n : py_truthy v = true -> py_len v = Ok n -> 0 < n.
Proof.
  destruct v as [| | |s|l|d]; simpl; try discriminate.
  - destruct s; simpl; [discriminate|]. intros _ [= <-]. lia.
  - destruct l; [discriminate|]. intros _ [= <-]. unfold len. simpl. lia.
  - destruct d; [discriminate|]. intros _ [= <-]. unfold len. simpl. lia.
Qed.

Lemma py_truediv_raise a b e : py_truediv a b = Raise e -> b = 0.
Proof.
  unfold py_truediv. destruct (Z.eqb_spec b 0); [auto | discriminate].
Qed.

Lemma py_get_raise c k v e : py_get c k v = Raise e -> e = AttributeError.
Proof. destruct c; simpl; congruence. Qed.

Lemma py_items_raise c e : py_items c = Raise e -> e = AttributeError.
Proof. destruct c; simpl; congruence. Qed.

Lemma py_field_raise entry k e :
  py_field entry k = Raise e -> e = TypeError \/ e = KeyError.
Proof.
  destruct entry; simpl; try (intros [= <-]; now left).
  unfold Dict.getitem. destruct (Dict.get k d); [discriminate|].
  intros [= <-]. now right.
Qed.

Lemma progress_entry_raise user translations assigned e :
  progress_entry user translations assigned = Raise e -> e = TypeError.
Proof.
  unfold progress_entry, rbind.
  destruct (py_len translations) as [t|e1] eqn:Et;
    [|intros [= <-]; eapply py_len_raise; eauto].
  destruct (py_len assigned) as [n|e2] eqn:En;
    [|intros [= <-]; eapply py_len_raise; eauto].
  destruct (py_truthy assigned) eqn:Ea; [|discriminate].
  destruct (py_truediv t n) as [q|e3] eqn:Eq; [discriminate|].
  apply py_truediv_raise in Eq. pose proof (py_len_truthy _ _ Ea En). lia.
Qed.

Lemma metadata_entry_raise user metadata e :
  metadata_entry user metadata = Raise e -> e = AttributeError.
Proof.
  unfold metadata_entry, rbind.
  repeat match goal with
         | |- context [py_get ?m ?k ?v] =>
             let E := fresh "E" in
             destruct (py_get m k v) eqn:E;
             [|intros [= <-]; eapply py_get_raise; eauto]
         end.
  discriminate.
Qed.

Lemma translation_entries_raise user items e :
  translation_entries user items = Raise e -> e = TypeError \/ e = KeyError.
Proof.
  induction items as [|[idx entry] items IH]; simpl; [discriminate|].
  unfold rbind.
  repeat match goal with
         | |- context [py_field ?m ?k] =>
             let E := fresh "E" in
             destruct (py_field m k) eqn:E;
             [|intros [= <-]; eapply py_field_raise; eauto]
         end.
  destruct (translation_entries user items); [discriminate|].
  intros [= <-]. auto.
Qed.

Lemma admin_tables_raise data e :
  admin_tables data = Raise e -> e <> ZeroDivisionError.
Proof.
  induction data as [|[user details] data IH]; simpl; [discriminate|].
  unfold rbind.
  destruct (progress_entry _ _ _) eqn:Ep;
    [|intros [= <-]; apply progress_entry_raise in Ep; congruence].
  destruct (metadata_entry _ _) eqn:Em;
    [|intros [= <-]; apply metadata_entry_raise in Em; congruence].
  destruct (py_items _) eqn:Ei;
    [|intros [= <-]; apply py_items_raise in Ei; congruence].
  destruct (translation_entries _ _) eqn:Et;
    [|intros [= <-]; apply translation_entries_raise in Et;
      destruct Et; congruence].
  destruct (admin_tables data) as [[[ps ms] ts]|e'] eqn:Er; [discriminate|].
  intros [= <-]. auto.
Qed.

Lemma admin_page_raise pw logged password login fs e :
  snd (admin_page pw logged password login fs) = Raise e ->
  e <> ZeroDivisionError.
Proof.
  unfold admin_page.
  destruct logged; cbn [negb].
  - unfold bind, load_user_progress, lift, ret.
    destruct (load_store fs) as [|item data] eqn:El; [discriminate|].
    destruct (admin_tables (item :: data)) as [[[ps ms] ts]|e'] eqn:Et;
      cbn [snd]; [discriminate|].
    intros [= <-]. eapply admin_tables_raise; eauto.
  - destruct login; [destruct (String.eqb password pw)|]; discriminate.
Qed.

(** The rows of the progress table stand in the order of the records. *)
Lemma admin_tables_progress_row data ps ms ts n user details :
  admin_tables data = Ok (ps, ms, ts) ->
  nth_error data n = Some (user, details) ->
  exists row,
    nth_error ps n = Some row /\
    progress_entry user
      (Dict.get_default "translations" (VDict []) details)
      (Dict.get_default "assigned" (VList []) details) = Ok row.
Proof.
  revert ps ms ts n.
  induction data as [|[u d] data IH]; intros ps ms ts n; simpl.
  - destruct n; discriminate.
  - unfold rbind.
    destruct (progress_entry u _ _) as [p|] eqn:Ep; [|discriminate].
    destruct (metadata_entry _ _); [|discriminate].
    destruct (py_items _); [|discriminate].
    destruct (translation_entries _ _); [|discriminate].
    destruct (admin_tables data) as [[[ps' ms'] ts']|]; [|discriminate].
    intros [= <- <- <-]. destruct n as [|n]; simpl.
    + intros [= <- <-]. eauto.
    + intros Hn. eapply IH; eauto.
Qed.

End Admin.

(** C7.  The admin progress table is never stopped by a division error,
    whatever the store holds; and for a record whose [assigned] list is empty
    the row reports 0 assigned and 0 percent: the row computed for the record
    is that one as soon as [translations] has a length, and it is the row the
    dashboard shows for it. *)
Theorem admin_progress_empty_assignment
    (data : store) (n : nat) (user : string) (details : pydict) :
  nth_error data n = Some (user, details) ->
  Dict.get_default "assigned" (VList []) details = VList [] ->
  admin_tables data <> Raise ZeroDivisionError
  /\ (forall pw logged password login fs,
        snd (admin_page pw logged password login fs)
        <> Raise ZeroDivisionError)
  /\ (forall translated,
        py_len (Dict.get_default "translations" (VDict []) details)
        = Ok translated ->
        progress_entry user
          (Dict.get_default "translations" (VDict []) details) (VList [])
        = Ok {| pr_user := user; pr_translated := translated;
                pr_assigned := 0; pr_progress := 0%Q |})
  /\ (forall ps ms ts,
        admin_tables data = Ok (ps, ms, ts) ->
        exists row,
          nth_error ps n = Some row /\ pr_user row = user
          /\ pr_assigned row = 0 /\ pr_progress row = 0%Q).
Proof.
  intros Hn Ha. split; [|split; [|split]].
  - intros H. now apply admin_tables_raise in H.
  - intros pw logged password login fs H. now apply admin_page_raise in H.
  - intros translated Ht. unfold progress_entry, rbind. now rewrite Ht.
  - intros ps ms ts Hok.
    destruct (admin_tables_progress_row _ _ _ _ _ _ _ Hok Hn)
      as (row & Hrow & Hp).
    exists row. split; [assumption|].
    rewrite Ha in Hp. unfold progress_entry, rbind in Hp.
    destruct (py_len _) as [t|]; [|discriminate].
    simpl in Hp. injection Hp as <-. auto.
Qed.

Lemma admin_progress_empty_assignment_witness :
  admin_page "secret" true "" false
    (Some [("ada", new_record);
           ("bob", [("metadata", VDict []); ("translations", VDict []);
                    ("assigned", VList [VInt 0; VInt 1]); ("index", VInt 0)])])
  = (Some [("ada", new_record);
           ("bob", [("metadata", VDict []); ("translations", VDict []);
                    ("assigned", VList [VInt 0; VInt 1]); ("index", VInt 0)])],
     Ok (AdminDashboard
           [ {| pr_user := "ada"; pr_translated := 0; pr_assigned := 0;
                pr_progress := 0%Q |};
             {| pr_user := "bob"; pr_translated := 0; pr_assigned := 2;
                pr_progress := 0%Q |} ]
           [ {| mr_user := "ada"; mr_name := VStr ""; mr_sex := VStr "";
                mr_age := VStr ""; mr_gmail := VStr ""; mr_country := VStr "" |};
             {| mr_user := "bob"; mr_name := VStr ""; mr_sex := VStr "";
                mr_age := VStr ""; mr_gmail := VStr ""; mr_country := VStr "" |} ]
           []))
  /\ progress_entry "ada" (VDict []) (VList [])
     = Ok {| pr_user := "ada"; pr_translated := 0; pr_assigned := 0;
             pr_progress := 0%Q |}.
Proof.
  split; [reflexivity|].
  exact (proj1 (proj2 (proj2
           (admin_progress_empty_assignment
              [("ada", new_record)] 0 "ada" new_record eq_refl eq_refl)))
           0 eq_refl).
Defined.

(** ** Running a page *)

(** One step of a run: case analysis on the outermost pending result. *)
Ltac run_step :=
  match goal with
  | |- context [match ?r with Ok _ => _ | Raise _ => _ end] =>
      lazymatch r with
      | context [match _ with Ok _ => _ | Raise _ => _ end] => fail
      | _ => let E := fresh "E" in destruct r eqn:E
      end
  end; cbv beta iota zeta.

Ltac unfold_run :=
  unfold bind, lift, ret, load_user_progress, save_user_progress;
  cbv beta iota zeta.

(** ** Metadata page *)

Section Metadata.

Variables (username name sex : string) (age : Z) (gmail country : string).

Let saved_metadata : value :=
  VDict [("name", VStr name); ("sex", VStr sex); ("age", VInt age);
         ("gmail", VStr gmail); ("country", VStr country)].

(** The store a successful save writes. *)
Lemma metadata_page_saved fs :
  snd (metadata_page username name sex age gmail country true fs)
  = Ok MetadataSaved ->
  fst (metadata_page username name sex age gmail country true fs)
  = Some (Dict.set username
            (Dict.set "metadata" saved_metadata
               (Dict.get_default username [] (load_store fs)))
            (load_store fs)).
Proof.
  unfold metadata_page. unfold_run.
  repeat run_step; cbn [fst snd]; try discriminate. reflexivity.
Qed.

Lemma metadata_page_file save fs :
  fst (metadata_page username name sex age gmail country save fs) = fs
  \/ fst (metadata_page username name sex age gmail country save fs)
     = Some (Dict.set username
               (Dict.set "metadata" saved_metadata
                  (Dict.get_default username [] (load_store fs)))
               (load_store fs)).
Proof.
  unfold metadata_page. unfold_run.
  repeat run_step; cbn [fst snd]; auto.
  destruct save; auto.
Qed.

End Metadata.

(** C10, as stated, fails for the records as the file holds them: the save
    writes back what [load_user_progress] returned, and that is the stored
    record with the defaults added.  The file that the metadata save of a new
    user "cy" leaves holds for "cy" a record with the one field [metadata];
    the metadata save of "ada" on that file writes the record of "cy" back
    with [translations], [assigned] and [index] added. *)
Lemma metadata_save_keeps_stored_records_counterexample :
  ~ metadata_save_keeps_stored_records.
Proof.
  intros H.
  destruct (H (serve (ReqMetadata "cy" "Cy" "Male" 20 "cy@gmail.com" "Ghana"
                        true) None)
              "ada" "Ada" "Female" 30 "ada@gmail.com" "Ghana" eq_refl)
    as [_ Hother].
  specialize (Hother "cy"). vm_compute in Hother.
  assert (Hne : "cy" <> "ada") by discriminate.
  specialize (Hother Hne). discriminate.
Qed.

(** C10, amended.  A metadata save by [username] writes a store in which the
    record of [username] has the new [metadata] and every other field as the
    page loaded it, and in which the record of every other user is the record
    as loaded, that is the record the file held with the loader's defaults
    added for the fields it lacked; so each field that the file held, other
    than the [metadata] of [username], has its stored value in the store
    written back, a record of another user that had the four fields is
    written back as it was, and the usernames keep their order, a new one
    being appended. *)
Theorem metadata_save_frame
    (fs : file) (username name sex : string) (age : Z) (gmail country : string) :
  snd (metadata_page username name sex age gmail country true fs)
  = Ok MetadataSaved ->
  exists saved record,
    fst (metadata_page username name sex age gmail country true fs) = Some saved
    /\ Dict.get username saved = Some record
    /\ Dict.get "metadata" record
       = Some (VDict [("name", VStr name); ("sex", VStr sex); ("age", VInt age);
                      ("gmail", VStr gmail); ("country", VStr country)])
    /\ (forall f, f <> "metadata" ->
        Dict.get f record =
        match record_of fs username with
        | Some r => Dict.get f r
        | None => None
        end)
    /\ (forall v, v <> username -> Dict.get v saved = record_of fs v)
    /\ (forall data v r f x,
        fs = Some data -> Dict.get v data = Some r -> Dict.get f r = Some x ->
        v <> username \/ f <> "metadata" ->
        exists r', Dict.get v saved = Some r' /\ Dict.get f r' = Some x)
    /\ (forall data v r,
        fs = Some data -> v <> username -> Dict.get v data = Some r ->
        well_formed_record r = true -> Dict.get v saved = Some r)
    /\ (Dict.keys saved = Dict.keys (load_store fs)
        \/ (record_of fs username = None
            /\ Dict.keys saved = (Dict.keys (load_store fs) ++ [username])%list))
    /\ (forall v, v <> username ->
        Dict.get v saved = option_map ensure_fields (stored_record fs v)).
Proof.
  intros Hsaved. apply metadata_page_saved in Hsaved.
  pose (md := VDict [("name", VStr name); ("sex", VStr sex);
                     ("age", VInt age); ("gmail", VStr gmail);
                     ("country", VStr country)]).
  pose (ud := Dict.get_default username ([] : pydict) (load_store fs)).
  pose (record := Dict.set "metadata" md ud).
  pose (saved := Dict.set username record (load_store fs)).
  exists saved, record. split; [exact Hsaved|].
  split; [apply dict_get_set_same|].
  split; [apply dict_get_set_same|].
  assert (Hfield : forall f, f <> "metadata" ->
            Dict.get f record
            = match record_of fs username with
              | Some r => Dict.get f r
              | None => None
              end).
  { intros f Hf. unfold record. rewrite dict_get_set_other by congruence.
    unfold ud, Dict.get_default, record_of.
    exact (match Dict.get username (load_store fs) as o
             return Dict.get f (match o with Some v => v | None => [] end)
                    = match o with Some r => Dict.get f r | None => None end
           with Some _ => eq_refl | None => eq_refl end). }
  assert (Hother : forall v, v <> username ->
            Dict.get v saved = record_of fs v).
  { intros v Hv. unfold saved. now rewrite dict_get_set_other by congruence. }
  split; [exact Hfield|]. split; [exact Hother|].
  split; [|split; [|split]].
  - intros data v r f x Hfs Hr Hx Hor.
    assert (Hload : record_of fs v = Some (ensure_fields r)).
    { unfold record_of. now rewrite Hfs, load_store_get, Hr. }
    destruct (string_dec v username) as [Hv|Hv].
    + destruct Hor as [Hor|Hf]; [congruence|].
      exists record. split; [rewrite Hv; apply dict_get_set_same|].
      rewrite (Hfield f Hf), <- Hv, Hload.
      now rewrite ensure_fields_get, Hx.
    + exists (ensure_fields r). rewrite (Hother v Hv), Hload.
      split; [reflexivity|]. now rewrite ensure_fields_get, Hx.
  - intros data v r Hfs Hv Hr Hwf.
    rewrite (Hother v Hv). unfold record_of.
    rewrite Hfs, load_store_get, Hr. simpl.
    now rewrite ensure_fields_well_formed.
  - unfold record_of.
    destruct (Dict.mem username (load_store fs)) eqn:Hmem.
    + left. unfold saved. now apply dict_keys_set_present.
    + right. split; [now apply dict_mem_false|].
      unfold saved. now apply dict_keys_set_absent.
  - intros v Hv. rewrite (Hother v Hv). unfold record_of.
    destruct fs as [data|]; [apply load_store_get | reflexivity].
Qed.

Lemma metadata_save_frame_witness :
  exists saved record,
    fst (metadata_page "bob" "Bob" "Other" 30 "bob@gmail.com" "Ghana" true
           (Some [("ada", new_record); ("bob", [("index", VInt 3)])]))
    = Some saved
    /\ Dict.get "bob" saved = Some record
    /\ Dict.get "index" record = Some (VInt 3)
    /\ Dict.get "ada" saved = Some new_record.
Proof.
  destruct (metadata_save_frame
              (Some [("ada", new_record); ("bob", [("index", VInt 3)])])
              "bob" "Bob" "Other" 30 "bob@gmail.com" "Ghana" eq_refl)
    as (saved & record & H1 & H2 & _ & H4 & H5 & _).
  exists saved, record. repeat split; auto.
  - rewrite H4 by discriminate. reflexivity.
  - rewrite H5 by discriminate. reflexivity.
Defined.

(** ** Translation page *)

Section Position.

Lemma list_index_position x l p :
  list_index x l = Ok p <-> position_of x l p.
Proof.
  unfold position_of. revert p. induction l as [|y l IH]; intros p.
  - simpl. split; [discriminate|]. intros [H _]. destruct p; discriminate.
  - simpl list_index. destruct (String.eqb_spec x y) as [->|Hne].
    + split.
      * intros [= <-]. simpl. tauto.
      * intros [Hn Hnot]. destruct p as [|p]; [reflexivity|].
        simpl in Hnot. tauto.
    + destruct p as [|p].
      * split.
        -- destruct (list_index x l); discriminate.
        -- simpl. intros [[= ->] _]. congruence.
      * specialize (IH p). simpl nth_error. simpl firstn.
        destruct (list_index x l) as [q|e].
        -- split.
           ++ intros [= ->]. destruct IH as [IH _].
              destruct (IH eq_refl) as [H1 H2]. split; [assumption|].
              simpl. intros [->|Hin]; [congruence | tauto].
           ++ intros [H Hnot]. destruct IH as [_ IH].
              assert (Hq : Ok q = Ok p).
              { apply IH. split; [assumption|].
                intros Hin. apply Hnot. now right. }
              congruence.
        -- split; [discriminate|]. intros [H Hnot]. destruct IH as [_ IH].
           assert (Hq : @Raise nat e = Ok p).
           { apply IH. split; [assumption|].
             intros Hin. apply Hnot. now right. }
           discriminate.
Qed.

Lemma list_index_member x l :
  In x l -> exists p, list_index x l = Ok p.
Proof.
  induction l as [|y l IH]; simpl; [tauto|].
  destruct (String.eqb_spec x y) as [->|Hne]; [eauto|].
  intros [->|Hin]; [congruence|].
  destruct (IH Hin) as [p ->]. eauto.
Qed.

Lemma visited_keys username fs :
  Dict.keys (visited username fs) = users_at_visit username fs.
Proof.
  unfold visited, users_at_visit.
  destruct (Dict.mem username (load_store fs)) eqn:E; cbn [negb].
  - now rewrite app_nil_r.
  - now apply dict_keys_set_absent.
Qed.

Lemma visited_get_self username fs :
  Dict.get username (visited username fs)
  = Some (match record_of fs username with
          | Some r => r
          | None => new_record
          end).
Proof.
  unfold visited, record_of, Dict.mem.
  destruct (Dict.get username (load_store fs)) eqn:E; cbn [negb].
  - exact E.
  - apply dict_get_set_same.
Qed.

Lemma record_of_well_formed fs u r :
  record_of fs u = Some r -> well_formed_record r = true.
Proof.
  unfold record_of. destruct fs as [data|]; [|discriminate].
  rewrite load_store_get. destruct (Dict.get u data); [|discriminate].
  intros [= <-]. apply ensure_fields_is_well_formed.
Qed.

End Position.

Section Builtins.

Lemma dict_getitem_ok {A} (d : Dict.t A) k v :
  Dict.getitem d k = Ok v <-> Dict.get k d = Some v.
Proof.
  unfold Dict.getitem. destruct (Dict.get k d); split; congruence.
Qed.

Lemma py_ge_ok v n b :
  py_ge v n = Ok b -> exists z, as_int v = Some z /\ b = (n <=? z).
Proof.
  unfold py_ge. destruct (as_int v) as [z|]; [|discriminate].
  intros [= <-]. eauto.
Qed.

Lemma py_succ_ok v z a : as_int v = Some z -> py_succ v = Ok a -> a = z + 1.
Proof. unfold py_succ. intros ->. congruence. Qed.

Lemma py_setitem_ok c k v c' :
  py_setitem c k v = Ok c' ->
  exists t, c = VDict t /\ c' = VDict (Dict.set k v t).
Proof. destruct c; simpl; try discriminate. intros [= <-]. eauto. Qed.

End Builtins.

Section Translate.

Variables (sentences : list string) (username translation : string)
          (submit : bool) (now : string).

Lemma assign_sentences_kept ap ud fs :
  py_truthy (Dict.get_default "assigned" VNone ud) = true ->
  assign_sentences sentences username ap ud fs = (fs, Ok (ap, ud)).
Proof. intros H. unfold assign_sentences. now rewrite H. Qed.

Lemma assign_sentences_computed ap ud fs p :
  py_truthy (Dict.get_default "assigned" VNone ud) = false ->
  list_index username (Dict.keys ap) = Ok p ->
  assign_sentences sentences username ap ud fs
  = (Some (Dict.set username (Dict.set "assigned" (VList (map VInt (assignment sentences p))) ud) ap),
     Ok (Dict.set username (Dict.set "assigned" (VList (map VInt (assignment sentences p))) ud) ap,
         Dict.set "assigned" (VList (map VInt (assignment sentences p))) ud)).
Proof.
  intros H Hp. unfold assign_sentences. rewrite H. cbn [negb].
  unfold_run. now rewrite Hp.
Qed.

Lemma start_record_well_formed fs :
  well_formed_record (start_record username fs) = true.
Proof.
  unfold start_record. destruct (record_of fs username) eqn:E.
  - eapply record_of_well_formed; eauto.
  - reflexivity.
Qed.

Lemma translation_page_unfold fs :
  translation_page sentences username translation submit now fs
  = match assign_sentences sentences username (visited username fs)
            (start_record username fs) fs with
    | (fs1, Ok (ap1, ud1)) =>
        translate_form sentences username translation submit now ap1 ud1 fs1
    | (fs1, Raise e) => (fs1, Raise e)
    end.
Proof.
  unfold translation_page. unfold_run.
  fold (visited username fs). unfold Dict.getitem.
  rewrite visited_get_self. fold (start_record username fs).
  destruct (assign_sentences _ _ _ _ _) as [fs1 [[ap1 ud1]|e]]; reflexivity.
Qed.

Lemma visited_position fs :
  exists p, list_index username (Dict.keys (visited username fs)) = Ok p.
Proof.
  apply list_index_member. apply dict_in_keys. unfold Dict.mem.
  now rewrite visited_get_self.
Qed.

Lemma translate_form_file ap ud fs :
  Dict.mem "translations" ud = true ->
  fst (translate_form sentences username translation submit now ap ud fs) = fs
  \/ exists ud' view,
    submit = true /\ submission sentences translation now ud ud'
    /\ translate_form sentences username translation submit now ap ud fs
       = (Some (Dict.set username ud' ap), Ok view).
Proof.
  intros Hmem. unfold translate_form. unfold_run. rewrite Hmem. cbn [negb].
  repeat run_step; cbn [fst]; auto;
    (destruct a3; cbn [fst]; auto);
    (destruct submit; cbn [fst]; auto);
    (destruct (String.eqb (strip translation) "") eqn:Estrip;
     cbn [fst]; auto).
  right.
  apply dict_getitem_ok in E, E7.
  destruct (py_ge_ok _ _ _ E3) as (z & Hz & Hlt).
  symmetry in Hlt. apply Z.leb_gt in Hlt.
  pose proof (py_succ_ok _ _ _ Hz E6) as ->.
  destruct (py_setitem_ok _ _ _ _ E9) as (t & -> & ->).
  eexists _, _. split; [reflexivity|]. split; [|reflexivity].
  exists a, a1, z, a4, a5, a8, t. repeat split; eauto.
Qed.

(** What a run of the page leaves in the file. *)
Lemma translation_page_file fs :
  exists ud1 fs1,
    ((py_truthy (Dict.get_default "assigned" VNone
                   (start_record username fs)) = true
      /\ ud1 = start_record username fs /\ fs1 = fs)
     \/ (py_truthy (Dict.get_default "assigned" VNone
                      (start_record username fs)) = false
         /\ exists p,
             list_index username (users_at_visit username fs) = Ok p
             /\ ud1 = Dict.set "assigned"
                        (VList (map VInt (assignment sentences p)))
                        (start_record username fs)
             /\ fs1 = Some (Dict.set username ud1 (visited username fs))))
    /\ (fst (translation_page sentences username translation submit now fs)
        = fs1
        \/ exists ud2 view,
            submit = true /\ submission sentences translation now ud1 ud2
            /\ translation_page sentences username translation submit now fs
               = (Some (Dict.set username ud2 (visited username fs)),
                  Ok view)).
Proof.
  rewrite translation_page_unfold.
  pose proof (start_record_well_formed fs) as Hwf.
  assert (Hmem : Dict.mem "translations" (start_record username fs) = true).
  { apply well_formed_record_mem; [assumption | simpl; tauto]. }
  destruct (py_truthy (Dict.get_default "assigned" VNone
                         (start_record username fs))) eqn:Ha.
  - rewrite assign_sentences_kept by assumption.
    exists (start_record username fs), fs. split; [left; auto|].
    destruct (translate_form_file (visited username fs)
                (start_record username fs) fs Hmem)
      as [H|(ud2 & view & Hs & Hsub & H)]; [now left|right].
    exists ud2, view. auto.
  - destruct (visited_position fs) as [p Hp].
    rewrite (assign_sentences_computed _ _ fs _ Ha Hp).
    rewrite visited_keys in Hp.
    eexists _, _. split; [right; split; [reflexivity|]; eauto|].
    match goal with
    | |- context [translate_form _ _ _ _ _ ?ap ?ud ?f] =>
        destruct (translate_form_file ap ud f)
          as [H|(ud2 & view & Hs & Hsub & H)]
    end.
    + now rewrite dict_mem_set_other by discriminate.
    + now left.
    + right. exists ud2, view. rewrite H, dict_set_set. auto.
Qed.

End Translate.

Section Assignment.

Lemma py_range_length a b : List.length (py_range a b) = Z.to_nat (b - a).
Proof. unfold py_range. now rewrite length_map, length_seq. Qed.

Lemma py_range_nth a b i :
  (i < Z.to_nat (b - a))%nat ->
  nth_error (py_range a b) i = Some (a + Z.of_nat i).
Proof.
  intros Hi. unfold py_range.
  rewrite nth_error_map, nth_error_seq.
  destruct (Nat.ltb_spec i (Z.to_nat (b - a))); [reflexivity | lia].
Qed.

Lemma assignment_length sentences p :
  len (assignment sentences p)
  = Z.max 0 (Z.min (100 * Z.of_nat p + 100) (len sentences)
             - 100 * Z.of_nat p).
Proof. unfold assignment, len. rewrite py_range_length. lia. Qed.

Lemma assignment_at_most_100 sentences p :
  len (assignment sentences p) <= 100.
Proof. rewrite assignment_length. lia. Qed.

Lemma assignment_nth sentences p i :
  (i < List.length (assignment sentences p))%nat ->
  nth_error (assignment sentences p) i
  = Some (100 * Z.of_nat p + Z.of_nat i).
Proof.
  unfold assignment. rewrite py_range_length. intros Hi.
  rewrite py_range_nth by assumption. f_equal. lia.
Qed.

(** An accepted submission leaves every field but [translations] and
    [index] as it was. *)
Lemma submission_other_field {sentences translation now ud ud' f} :
  submission sentences translation now ud ud' ->
  f <> "translations" -> f <> "index" ->
  Dict.get f ud' = Dict.get f ud.
Proof.
  intros (a & total & z & si & s & key & t & _ & _ & _ & _ & _ & _ & _ & _
          & _ & ->) Ht Hi.
  now rewrite !dict_get_set_other by congruence.
Qed.

Lemma start_record_empty username fs :
  assigned_of fs username = Some (VList [])
  \/ record_of fs username = None ->
  py_truthy (Dict.get_default "assigned" VNone (start_record username fs))
  = false.
Proof.
  unfold assigned_of, start_record, Dict.get_default.
  destruct (record_of fs username) as [r|].
  - intros [->|]; [reflexivity | discriminate].
  - intros _. reflexivity.
Qed.

Lemma visited_mem_self username fs :
  Dict.mem username (visited username fs) = true.
Proof. unfold Dict.mem. now rewrite visited_get_self. Qed.

End Assignment.

(** C1.  On a Translate visit of a user whose [assigned] list is empty, or
    who has no record yet, the file written holds for that user the indices
    [100*p, 100*p + 1, ...] up to but not including
    [min(100*p + 100, sentence_count)], where [p] is the position of the user
    among the usernames of the store, own name included; these are
    [min(100, sentence_count - 100*p)] indices when [100*p < sentence_count].
    This holds however the rest of the run ends. *)
Theorem first_visit_assignment
    (sentences : list string) (username translation : string) (submit : bool)
    (now : string) (fs : file) (p : nat) :
  assigned_of fs username = Some (VList [])
  \/ record_of fs username = None ->
  position_of username (users_at_visit username fs) p ->
  exists saved record l,
    fst (translation_page sentences username translation submit now fs)
    = Some saved
    /\ Dict.keys saved = users_at_visit username fs
    /\ Dict.get username saved = Some record
    /\ Dict.get "assigned" record = Some (VList (map VInt l))
    /\ len l = Z.max 0 (Z.min (100 * Z.of_nat p + 100) (len sentences)
                        - 100 * Z.of_nat p)
    /\ (forall i, (i < List.length l)%nat ->
        nth_error l i = Some (100 * Z.of_nat p + Z.of_nat i))
    /\ (100 * Z.of_nat p < len sentences ->
        len l = Z.min 100 (len sentences - 100 * Z.of_nat p)).
Proof.
  intros Hempty Hpos. apply start_record_empty in Hempty.
  apply list_index_position in Hpos.
  destruct (translation_page_file sentences username translation submit now fs)
    as (ud1 & fs1 & [(Ht & _)|(_ & q & Hq & Hud1 & Hfs1)] & Hform);
    [congruence|].
  assert (q = p) by congruence. subst q.
  assert (Hassigned : Dict.get "assigned" ud1
                      = Some (VList (map VInt (assignment sentences p)))).
  { rewrite Hud1. apply dict_get_set_same. }
  assert (Hfacts :
    len (assignment sentences p)
    = Z.max 0 (Z.min (100 * Z.of_nat p + 100) (len sentences)
               - 100 * Z.of_nat p)
    /\ (forall i, (i < List.length (assignment sentences p))%nat ->
        nth_error (assignment sentences p) i
        = Some (100 * Z.of_nat p + Z.of_nat i))
    /\ (100 * Z.of_nat p < len sentences ->
        len (assignment sentences p)
        = Z.min 100 (len sentences - 100 * Z.of_nat p))).
  { split; [apply assignment_length|]. split; [apply assignment_nth|].
    intros Hlt. rewrite assignment_length. lia. }
  destruct Hform as [Hfile|(ud2 & view & _ & Hsub & Hrun)].
  - exists (Dict.set username ud1 (visited username fs)), ud1,
      (assignment sentences p).
    split; [congruence|]. split.
    { rewrite dict_keys_set_present by apply visited_mem_self.
      apply visited_keys. }
    split; [apply dict_get_set_same|]. split; assumption.
  - exists (Dict.set username ud2 (visited username fs)), ud2,
      (assignment sentences p).
    split; [now rewrite Hrun|]. split.
    { rewrite dict_keys_set_present by apply visited_mem_self.
      apply visited_keys. }
    split; [apply dict_get_set_same|]. split; [|assumption].
    rewrite (submission_other_field (f := "assigned") Hsub) by discriminate.
    assumption.
Qed.

Lemma first_visit_assignment_witness :
  exists saved record l,
    fst (translation_page (repeat "s" 250) "cy" "" false "2025-01-01T00:00:00"
           (Some [("ada", new_record); ("bob", new_record)]))
    = Some saved
    /\ Dict.get "cy" saved = Some record
    /\ Dict.get "assigned" record = Some (VList (map VInt l))
    /\ len l = 50
    /\ nth_error l 0 = Some 200.
Proof.
  assert (Hpos : position_of "cy"
                   (users_at_visit "cy"
                      (Some [("ada", new_record); ("bob", new_record)])) 2).
  { split; [reflexivity|]. simpl. intros [H|[H|[]]]; discriminate. }
  destruct (first_visit_assignment (repeat "s" 250) "cy" ""
              false "2025-01-01T00:00:00"
              (Some [("ada", new_record); ("bob", new_record)]) 2
              (or_intror eq_refl) Hpos)
    as (saved & record & l & H1 & _ & H3 & H4 & H5 & H6 & _).
  exists saved, record, l.
  split; [exact H1|]. split; [exact H3|]. split; [exact H4|].
  split; [rewrite H5; reflexivity|].
  assert (Hlen : len l = 50) by (rewrite H5; reflexivity).
  apply (H6 O). unfold len in Hlen. lia.
Defined.

Section EmptyAssignment.

Variables (sentences : list string) (username translation : string)
          (submit : bool) (now : string).

(** The progress line of a record whose assignment is empty. *)
Lemma translate_form_empty_assignment ap ud fs n :
  Dict.get "assigned" ud = Some (VList []) ->
  py_len (Dict.get_default "translations" (VDict []) ud) = Ok n ->
  translate_form sentences username translation submit now ap ud fs
  = (fs, Raise ZeroDivisionError).
Proof.
  intros Ha Ht. unfold translate_form. unfold_run.
  unfold Dict.getitem. rewrite Ha, Ht. reflexivity.
Qed.

(** A visit that computes an empty assignment stops at the progress line,
    after the empty assignment was saved. *)
Lemma translation_page_empty_assignment fs p n :
  assigned_of fs username = Some (VList [])
  \/ record_of fs username = None ->
  position_of username (users_at_visit username fs) p ->
  len sentences <= 100 * Z.of_nat p ->
  py_len (Dict.get_default "translations" (VDict [])
            (start_record username fs)) = Ok n ->
  snd (translation_page sentences username translation submit now fs)
  = Raise ZeroDivisionError
  /\ assigned_of
       (fst (translation_page sentences username translation submit now fs))
       username = Some (VList []).
Proof.
  intros Hempty Hpos Hlen Ht. apply start_record_empty in Hempty.
  apply list_index_position in Hpos. rewrite <- visited_keys in Hpos.
  rewrite translation_page_unfold.
  rewrite (assign_sentences_computed sentences username _ _ fs _
             Hempty Hpos).
  assert (Hnil : assignment sentences p = []).
  { apply length_zero_iff_nil.
    pose proof (assignment_length sentences p) as H. unfold len in H.
    unfold len in Hlen. lia. }
  rewrite Hnil. cbn [map].
  erewrite translate_form_empty_assignment;
    [| apply dict_get_set_same
     | rewrite dict_get_default_set_other by discriminate; exact Ht ].
  cbn [fst snd]. split; [reflexivity|].
  unfold assigned_of, record_of.
  rewrite load_store_get, dict_get_set_same. cbn [option_map].
  now rewrite ensure_fields_get, dict_get_set_same.
Qed.

End EmptyAssignment.

(** C2.  With 100 sentences and one user already in the store, the Translate
    view of a second user computes the empty range [100, 100), saves it, and
    is then stopped by [ZeroDivisionError] in the progress line: the
    completion message is never reached. *)
Theorem translate_view_empty_assignment_raises :
  translation_page (repeat "s" 100) "bob" "" false "2025-01-01T00:00:00"
    (Some [("ada", new_record)])
  = (Some [("ada", new_record);
           ("bob", [("index", VInt 0); ("translations", VDict []);
                    ("metadata", VDict []); ("assigned", VList [])])],
     Raise ZeroDivisionError).
Proof. vm_compute. reflexivity. Qed.

Section Submission.

Variables (sentences : list string) (username translation : string)
          (now : string).

(** What the warning branch shows in place of the plain form. *)
Let warned (r : result translate_view) : result translate_view :=
  match r with
  | Ok (Awaiting p position sentence) => Ok (Warned p position sentence)
  | _ => r
  end.

Lemma translate_form_blank ap ud fs :
  strip translation = "" ->
  translate_form sentences username translation true now ap ud fs
  = (fst (translate_form sentences username translation false now ap ud fs),
     warned
       (snd (translate_form sentences username translation false now
               ap ud fs))).
Proof.
  intros Hblank. unfold translate_form. unfold_run. rewrite Hblank.
  cbn [String.eqb].
  repeat run_step; try reflexivity;
    match goal with
    | |- context [if ?b then _ else _] => destruct b
    end; reflexivity.
Qed.

Lemma translate_form_no_submit ap ud fs :
  fst (translate_form sentences username translation false now ap ud fs)
  = fs.
Proof.
  unfold translate_form. unfold_run.
  repeat run_step; try reflexivity;
    match goal with
    | |- context [if ?b then _ else _] => destruct b
    end; reflexivity.
Qed.

Lemma translation_page_blank fs :
  strip translation = "" ->
  translation_page sentences username translation true now fs
  = (fst (translation_page sentences username translation false now fs),
     warned
       (snd (translation_page sentences username translation false now fs))).
Proof.
  intros Hblank. rewrite !translation_page_unfold.
  destruct (assign_sentences _ _ _ _ _) as [fs1 [[ap1 ud1]|e]];
    [|reflexivity].
  now apply translate_form_blank.
Qed.

Lemma translation_page_no_submit fs :
  py_truthy (Dict.get_default "assigned" VNone (start_record username fs))
  = true ->
  fst (translation_page sentences username translation false now fs) = fs.
Proof.
  intros Ha. rewrite translation_page_unfold.
  rewrite assign_sentences_kept by assumption.
  apply translate_form_no_submit.
Qed.

End Submission.

Section SavedStore.

Lemma load_store_set u new (d : Dict.t (Dict.t value)) :
  load_store (Some (Dict.set u new d))
  = Dict.set u (ensure_fields new) (load_store (Some d)).
Proof.
  simpl. induction d as [|[u' r] d IH]; simpl; [reflexivity|].
  destruct (String.eqb u u'); simpl; [reflexivity|]. now rewrite IH.
Qed.

(** Reading back what a Translate visit of [u] saved. *)
Lemma load_visited_set u new fs :
  well_formed_record new = true ->
  load_store (Some (Dict.set u new (visited u fs)))
  = Dict.set u new (load_store fs).
Proof.
  intros Hwf. rewrite load_store_set, (ensure_fields_well_formed _ Hwf).
  unfold visited. destruct (Dict.mem u (load_store fs)); cbn [negb].
  - now rewrite load_store_saved.
  - rewrite load_store_set, load_store_saved. apply dict_set_set.
Qed.

Lemma well_formed_record_set k v r :
  well_formed_record r = true -> well_formed_record (Dict.set k v r) = true.
Proof.
  unfold well_formed_record. rewrite !forallb_forall.
  intros H f Hf. specialize (H f Hf).
  destruct (string_dec k (fst f)) as [->|Hne].
  - apply dict_mem_set_same.
  - now rewrite dict_mem_set_other.
Qed.

Lemma submission_well_formed sentences translation now ud ud' :
  submission sentences translation now ud ud' ->
  well_formed_record ud = true -> well_formed_record ud' = true.
Proof.
  intros (a & total & z & si & s & key & t & _ & _ & _ & _ & _ & _ & _ & _
          & _ & ->) Hwf.
  now repeat apply well_formed_record_set.
Qed.

End SavedStore.

(** C8.  When the text submitted is empty once stripped, pressing the button
    changes nothing: the run leaves the file that the same run without the
    press leaves, shows the warning where the form would stand and never
    reports a submission; with an assignment already in the record the file
    is not written at all; and in every case the [translations] and the
    [index] of every record are what they were. *)
Theorem blank_submission_blocked
    (sentences : list string) (username translation now : string) (fs : file) :
  strip translation = "" ->
  fst (translation_page sentences username translation true now fs)
  = fst (translation_page sentences username translation false now fs)
  /\ (forall p position sentence,
        snd (translation_page sentences username translation false now fs)
        = Ok (Awaiting p position sentence) ->
        snd (translation_page sentences username translation true now fs)
        = Ok (Warned p position sentence))
  /\ (forall p position sentence,
        snd (translation_page sentences username translation true now fs)
        <> Ok (Submitted p position sentence))
  /\ (forall a, assigned_of fs username = Some a -> py_truthy a = true ->
        fst (translation_page sentences username translation true now fs) = fs)
  /\ (forall v r, record_of fs v = Some r ->
        translations_of
          (fst (translation_page sentences username translation true now fs)) v
        = Dict.get "translations" r
        /\ index_of
             (fst (translation_page sentences username translation true now fs))
             v
           = Dict.get "index" r).
Proof.
  intros Hblank.
  rewrite (translation_page_blank sentences username translation now fs Hblank).
  cbn [fst snd]. split; [reflexivity|]. split; [|split; [|split]].
  - intros p position sentence ->. reflexivity.
  - intros p position sentence.
    destruct (snd (translation_page sentences username translation false now fs))
      as [[| | |]|] eqn:E; try discriminate.
    exfalso.
    destruct (translation_page_file sentences username translation false now fs)
      as (ud1 & fs1 & _ & [Hfile|(ud2 & view & Hs & _)]); [|discriminate].
    revert E. rewrite translation_page_unfold.
    destruct (assign_sentences _ _ _ _ _) as [fs2 [[ap2 ud2]|e]];
      [|discriminate].
    unfold translate_form. unfold_run.
    repeat run_step; try discriminate;
      match goal with
      | |- context [if ?b then _ else _] => destruct b
      end; discriminate.
  - intros a Ha Htruthy. apply translation_page_no_submit.
    unfold assigned_of in Ha. unfold start_record, Dict.get_default.
    destruct (record_of fs username); [|discriminate]. now rewrite Ha.
  - intros v r Hr.
    destruct (translation_page_file sentences username translation false now fs)
      as (ud1 & fs1 & Hassign & [Hfile|(ud2 & view & Hs & _)]);
      [|discriminate].
    rewrite Hfile.
    destruct Hassign as [(_ & _ & ->)|(_ & p & _ & Hud1 & ->)].
    + unfold translations_of, index_of. now rewrite Hr.
    + assert (Hwf : well_formed_record ud1 = true).
      { rewrite Hud1. apply well_formed_record_set.
        apply start_record_well_formed. }
      unfold translations_of, index_of, record_of.
      rewrite (load_visited_set _ _ _ Hwf).
      destruct (string_dec username v) as [->|Hne].
      * rewrite dict_get_set_same, Hud1.
        rewrite !dict_get_set_other by discriminate.
        unfold start_record. now rewrite Hr.
      * rewrite dict_get_set_other by assumption.
        fold (record_of fs v). now rewrite Hr.
Qed.

Lemma blank_submission_blocked_witness :
  fst (translation_page ["Good morning"] "ada" "   " true "2025-01-01T00:00:00"
         (Some [("ada", [("index", VInt 0); ("translations", VDict []);
                         ("metadata", VDict []);
                         ("assigned", VList [VInt 0])])]))
  = Some [("ada", [("index", VInt 0); ("translations", VDict []);
                   ("metadata", VDict []); ("assigned", VList [VInt 0])])].
Proof.
  exact (proj1 (proj2 (proj2 (proj2
           (blank_submission_blocked ["Good morning"] "ada" "   "
              "2025-01-01T00:00:00"
              (Some [("ada", [("index", VInt 0); ("translations", VDict []);
                              ("metadata", VDict []);
                              ("assigned", VList [VInt 0])])])
              eq_refl))))
           (VList [VInt 0]) eq_refl eq_refl).
Defined.

Section Accepted.

Variables (sentences : list string) (username translation : string)
          (now : string).

Lemma py_index_nonempty {A} (l : list A) i x : py_index l i = Ok x -> 0 < len l.
Proof.
  unfold py_index, len. destruct l; [|simpl; lia].
  simpl. rewrite Z.add_0_r.
  destruct (i <? 0) eqn:E; simpl; rewrite ?E; simpl.
  - discriminate.
  - destruct (0 <=? i) eqn:E'; [discriminate|]. lia.
Qed.

(** The accepted submission, step by step. *)
Lemma translate_form_submit ap ud fs l t i idx sentence :
  Dict.get "assigned" ud = Some (VList l) ->
  Dict.get "index" ud = Some (VInt i) ->
  Dict.get "translations" ud = Some (VDict t) ->
  i < len l ->
  py_index l i = Ok (VInt idx) ->
  py_index sentences idx = Ok sentence ->
  strip translation <> "" ->
  exists progress,
    translate_form sentences username translation true now ap ud fs
    = (Some (Dict.set username
               (Dict.set "index" (VInt (i + 1))
                  (Dict.set "translations"
                     (VDict (Dict.set (str_int idx)
                               (translation_entry sentence translation now)
                               t))
                     ud))
               ap),
       Ok (Submitted progress (i + 1) sentence)).
Proof.
  intros Ha Hi Ht Hlt Hidx Hs Hstrip.
  apply String.eqb_neq in Hstrip.
  pose proof (py_index_nonempty _ _ _ Hidx) as Hpos.
  unfold translate_form. unfold_run.
  unfold Dict.getitem, Dict.get_default, Dict.mem. rewrite Ha, Hi, Ht.
  cbn [py_len negb]. unfold py_truediv.
  destruct (Z.eqb_spec (len l) 0) as [|_]; [lia|].
  cbn [py_ge as_int]. destruct (Z.leb_spec (len l) i) as [|_]; [lia|].
  cbn [py_getitem as_int]. rewrite Hidx.
  cbn [sentence_at as_int]. rewrite Hs.
  cbn [py_succ as_int]. rewrite Hstrip.
  cbn [py_str_index]. rewrite Ht. cbn [py_setitem]. eexists. reflexivity.
Qed.

End Accepted.

(** C3, as stated, fails: the text is stored stripped.  With the cursor on
    sentence 0, submitting [" hi "] stores ["hi"]. *)
Lemma submission_stores_text_as_typed_counterexample :
  ~ submission_stores_text_as_typed.
Proof.
  intros H.
  destruct (H ["Hello"] "ada" " hi " "2025-01-01T00:00:00"
              (Some [("ada", [("index", VInt 0); ("translations", VDict []);
                              ("metadata", VDict []);
                              ("assigned", VList [VInt 0])])])
              [("index", VInt 0); ("translations", VDict []);
               ("metadata", VDict []); ("assigned", VList [VInt 0])]
              [VInt 0] [] 0 0 "Hello"
              eq_refl eq_refl eq_refl eq_refl eq_refl eq_refl eq_refl)
    as (stored & entry & Hstored & Hentry & Htext & _);
    [discriminate|].
  vm_compute in Hstored. injection Hstored as <-.
  vm_compute in Hentry. injection Hentry as <-.
  vm_compute in Htext. discriminate.
Qed.

(** C3, amended.  When a user whose cursor [i] is below [len(assigned)] and
    stands on sentence [idx] submits a text that is not empty once stripped,
    the run reports the submission and the file then holds, under the key
    [str(idx)] of the user's [translations], the source sentence, the
    stripped text and the timestamp; [index] is [i + 1]; the key occurs once,
    an entry already there is replaced where it stood, the other entries and
    the assignment are untouched. *)
Theorem submission_recorded
    (sentences : list string) (username translation now : string) (fs : file)
    (r : Dict.t value) (l : list value) (t : Dict.t value) (i idx : Z)
    (sentence : string) :
  record_of fs username = Some r ->
  Dict.get "assigned" r = Some (VList l) ->
  Dict.get "index" r = Some (VInt i) ->
  Dict.get "translations" r = Some (VDict t) ->
  i < len l ->
  py_index l i = Ok (VInt idx) ->
  py_index sentences idx = Ok sentence ->
  strip translation <> "" ->
  exists stored,
    stored = Dict.set (str_int idx) (translation_entry sentence translation now) t
    /\ (exists progress,
          snd (translation_page sentences username translation true now fs)
          = Ok (Submitted progress (i + 1) sentence))
    /\ translations_of
         (fst (translation_page sentences username translation true now fs))
         username = Some (VDict stored)
    /\ Dict.get (str_int idx) stored
       = Some (VDict [("English", VStr sentence);
                      ("Translation", VStr (strip translation));
                      ("Timestamp", VStr now)])
    /\ index_of
         (fst (translation_page sentences username translation true now fs))
         username = Some (VInt (i + 1))
    /\ (NoDup (Dict.keys t) -> Dict.count (str_int idx) stored = 1%nat)
    /\ (Dict.mem (str_int idx) t = true -> Dict.keys stored = Dict.keys t)
    /\ (forall k, k <> str_int idx -> Dict.get k stored = Dict.get k t)
    /\ assigned_of
         (fst (translation_page sentences username translation true now fs))
         username = Some (VList l).
Proof.
  intros Hr Ha Hi Ht Hlt Hidx Hs Hstrip.
  assert (Hstart : start_record username fs = r).
  { unfold start_record. now rewrite Hr. }
  assert (Htruthy : py_truthy (Dict.get_default "assigned" VNone
                                 (start_record username fs)) = true).
  { rewrite Hstart. unfold Dict.get_default. rewrite Ha.
    pose proof (py_index_nonempty _ _ _ Hidx) as Hpos.
    destruct l; [unfold len in Hpos; simpl in Hpos; lia | reflexivity]. }
  destruct (translate_form_submit sentences username translation now
              (visited username fs) r fs l t i idx sentence
              Ha Hi Ht Hlt Hidx Hs Hstrip) as [progress Hrun].
  rewrite translation_page_unfold, assign_sentences_kept by assumption.
  rewrite Hstart, Hrun. cbn [fst snd].
  eexists. split; [reflexivity|]. split; [eauto|].
  assert (Hwf : well_formed_record
                  (Dict.set "index" (VInt (i + 1))
                     (Dict.set "translations"
                        (VDict (Dict.set (str_int idx)
                                  (translation_entry sentence translation now)
                                  t)) r)) = true).
  { do 2 apply well_formed_record_set. eapply record_of_well_formed; eauto. }
  unfold translations_of, index_of, assigned_of, record_of.
  rewrite (load_visited_set _ _ _ Hwf), dict_get_set_same.
  split.
  { rewrite dict_get_set_other by discriminate. apply dict_get_set_same. }
  split; [apply dict_get_set_same|].
  split; [apply dict_get_set_same|].
  split; [apply dict_count_set|].
  split; [apply dict_keys_set_present|].
  split.
  { intros k Hk. apply dict_get_set_other. congruence. }
  now rewrite !dict_get_set_other by discriminate.
Qed.

Lemma submission_recorded_witness :
  translations_of
    (fst (translation_page ["Hello"; "Thanks"] "ada" " e kaaro " true
            "2025-01-01T00:00:00"
            (Some [("ada", [("index", VInt 0); ("translations", VDict []);
                            ("metadata", VDict []);
                            ("assigned", VList [VInt 0; VInt 1])])])))
    "ada"
  = Some (VDict [("0", VDict [("English", VStr "Hello");
                               ("Translation", VStr "e kaaro");
                               ("Timestamp", VStr "2025-01-01T00:00:00")])])
  /\ index_of
       (fst (translation_page ["Hello"; "Thanks"] "ada" " e kaaro " true
               "2025-01-01T00:00:00"
               (Some [("ada", [("index", VInt 0); ("translations", VDict []);
                               ("metadata", VDict []);
                               ("assigned", VList [VInt 0; VInt 1])])])))
       "ada"
     = Some (VInt 1).
Proof.
  destruct (submission_recorded ["Hello"; "Thanks"] "ada" " e kaaro "
              "2025-01-01T00:00:00"
              (Some [("ada", [("index", VInt 0); ("translations", VDict []);
                              ("metadata", VDict []);
                              ("assigned", VList [VInt 0; VInt 1])])])
              [("index", VInt 0); ("translations", VDict []);
               ("metadata", VDict []); ("assigned", VList [VInt 0; VInt 1])]
              [VInt 0; VInt 1] [] 0 0 "Hello"
              eq_refl eq_refl eq_refl eq_refl eq_refl eq_refl eq_refl)
    as (stored & -> & _ & H2 & _ & H4 & _).
  - vm_compute. discriminate.
  - split; [exact H2 | exact H4].
Defined.

(** ** Reachable stores *)

Section Records.

Lemma record_inv_new : record_inv new_record.
Proof. exists 0, [], []. repeat split; simpl; unfold len; simpl; lia. Qed.

Lemma record_inv_empty : record_inv [].
Proof. exists 0, [], []. repeat split; simpl; unfold len; simpl; lia. Qed.

Lemma record_inv_ensure_fields r :
  record_inv r -> record_inv (ensure_fields r).
Proof.
  intros (i & l & t & Hi & Ha & Ht & Hb).
  exists i, l, t. rewrite !ensure_fields_get_default by reflexivity. auto.
Qed.

Lemma record_inv_set_metadata md r :
  record_inv r -> record_inv (Dict.set "metadata" md r).
Proof.
  intros (i & l & t & Hi & Ha & Ht & Hb).
  exists i, l, t. rewrite !dict_get_default_set_other by discriminate. auto.
Qed.

Lemma map_VInt_nil l : VList (map VInt l) = VList [] -> l = [].
Proof. destruct l; [reflexivity | discriminate]. Qed.

(** A record without assignment has its cursor at 0. *)
Lemma record_inv_unassigned {r} :
  record_inv r ->
  py_truthy (Dict.get_default "assigned" VNone r) = false ->
  Dict.get_default "index" (VInt 0) r = VInt 0
  /\ Dict.get_default "assigned" (VList []) r = VList [].
Proof.
  intros (i & l & t & Hi & Ha & Ht & Hb & Hc) Hf.
  assert (l = []) as ->.
  { revert Ha Hf. unfold Dict.get_default.
    destruct (Dict.get "assigned" r) as [v|].
    - intros ->. destruct l; [reflexivity | discriminate].
    - intros H _. now apply map_VInt_nil. }
  unfold len in Hb. simpl in Hb. split; [|assumption].
  rewrite Hi. f_equal. lia.
Qed.

Lemma record_inv_assign sentences p r :
  record_inv r ->
  py_truthy (Dict.get_default "assigned" VNone r) = false ->
  record_inv
    (Dict.set "assigned" (VList (map VInt (assignment sentences p))) r).
Proof.
  intros Hinv Hf.
  destruct (record_inv_unassigned Hinv Hf) as [Hi _].
  destruct Hinv as (i & l & t & _ & _ & Ht & _).
  exists 0, (assignment sentences p), t.
  rewrite dict_get_default_set_same.
  rewrite !dict_get_default_set_other by discriminate.
  pose proof (assignment_at_most_100 sentences p).
  pose proof (assignment_length sentences p).
  repeat split; auto; lia.
Qed.

(** What an accepted submission does to a record of that shape. *)
Lemma submission_cursor {sentences translation now ud ud' i l} :
  submission sentences translation now ud ud' ->
  Dict.get_default "index" (VInt 0) ud = VInt i ->
  Dict.get_default "assigned" (VList []) ud = VList l ->
  i < len l
  /\ Dict.get_default "index" (VInt 0) ud' = VInt (i + 1)
  /\ Dict.get_default "assigned" (VList []) ud' = VList l
  /\ exists t', Dict.get_default "translations" (VDict []) ud' = VDict t'.
Proof.
  intros (a & total & z & si & s & key & t & _ & Ha & Hlen & Hz & Hlt & _
          & _ & _ & _ & ->) Hi Hl.
  rewrite Hi in Hz. injection Hz as <-.
  unfold Dict.get_default in Hl. rewrite Ha in Hl. subst a.
  injection Hlen as <-.
  split; [assumption|].
  split; [apply dict_get_default_set_same|].
  split.
  { rewrite !dict_get_default_set_other by discriminate.
    unfold Dict.get_default. now rewrite Ha. }
  eexists. rewrite dict_get_default_set_other by discriminate.
  apply dict_get_default_set_same.
Qed.

Lemma record_inv_submission sentences translation now ud ud' :
  record_inv ud -> submission sentences translation now ud ud' ->
  record_inv ud'.
Proof.
  intros (i & l & t & Hi & Ha & Ht & Hb & Hc) Hsub.
  destruct (submission_cursor Hsub Hi Ha) as (Hlt & Hi' & Ha' & t' & Ht').
  exists (i + 1), l, t'. unfold len in *. rewrite length_map in Hlt.
  repeat split; auto; lia.
Qed.

Lemma record_change_inv {old new} :
  record_inv old -> record_change old new -> record_inv new.
Proof.
  intros Hinv [(md & ->)|(mid & Hmid & Hnew)].
  - now apply record_inv_ensure_fields, record_inv_set_metadata.
  - assert (Hmidinv : record_inv mid).
    { destruct Hmid as [->|(Hf & s & p & ->)]; [assumption|].
      now apply record_inv_assign. }
    destruct Hnew as [->|(s & tr & now & Hsub)]; [assumption|].
    eapply record_inv_submission; eauto.
Qed.

End Records.

Section Serve.

Lemma admin_page_file pw logged password login fs :
  fst (admin_page pw logged password login fs) = fs.
Proof.
  unfold admin_page. destruct logged; cbn [negb].
  - unfold_run. destruct (load_store fs) as [|item data]; [reflexivity|].
    destruct (admin_tables (item :: data)) as [[[ps ms] ts]|e]; reflexivity.
  - destruct login; [destruct (String.eqb password pw)|]; reflexivity.
Qed.

Lemma start_record_cases username fs :
  (record_of fs username = Some (start_record username fs))
  \/ (record_of fs username = None
      /\ start_record username fs = new_record).
Proof.
  unfold start_record. destruct (record_of fs username); auto.
Qed.

(** A run leaves the file alone or rewrites the record of one user. *)
Lemma serve_store req fs :
  serve req fs = fs
  \/ exists u old new,
      load_store (serve req fs) = Dict.set u new (load_store fs)
      /\ (record_of fs u = Some old
          \/ (record_of fs u = None /\ (old = new_record \/ old = [])))
      /\ record_change old new.
Proof.
  destruct req as [username name sex age gmail country save
                  |sentences username translation submit now
                  |pw logged password login].
  - cbn [serve].
    destruct (metadata_page_file username name sex age gmail country save fs)
      as [H|H]; [now left|right].
    exists username, (Dict.get_default username [] (load_store fs)).
    eexists. rewrite H, load_store_set, load_store_saved.
    split; [reflexivity|]. split.
    + destruct (dict_get_default_cases username [] (load_store fs))
        as [H1|[H1 H2]]; [left; exact H1|right].
      split; [exact H1|]. right. exact H2.
    + left. eexists. reflexivity.
  - cbn [serve].
    destruct (translation_page_file sentences username translation submit
                now fs)
      as (ud1 & fs1 & Hassign & Hform).
    pose proof (start_record_well_formed username fs) as Hwf0.
    assert (Hwf1 : well_formed_record ud1 = true).
    { destruct Hassign as [(_ & -> & _)|(_ & p & _ & -> & _)];
        [assumption|]. now apply well_formed_record_set. }
    assert (Hold : record_of fs username = Some (start_record username fs)
                   \/ (record_of fs username = None
                       /\ (start_record username fs = new_record
                           \/ start_record username fs = []))).
    { destruct (start_record_cases username fs) as [H|[H1 H2]]; auto. }
    assert (Hmid : ud1 = start_record username fs
                   \/ (py_truthy (Dict.get_default "assigned" VNone
                                    (start_record username fs)) = false
                       /\ exists sentences p,
                           ud1 = Dict.set "assigned"
                                   (VList (map VInt (assignment sentences p)))
                                   (start_record username fs))).
    { destruct Hassign as [(_ & -> & _)|(Hf & p & _ & -> & _)]; [now left|].
      right. split; [assumption|]. eauto. }
    destruct Hform as [Hfile|(ud2 & view & _ & Hsub & Hrun)].
    + destruct Hassign as [(_ & _ & ->)|(_ & p & _ & _ & ->)];
        [now left|right].
      exists username, (start_record username fs), ud1.
      rewrite Hfile, (load_visited_set _ _ _ Hwf1).
      split; [reflexivity|]. split; [assumption|].
      right. exists ud1. split; [assumption | now left].
    + right. exists username, (start_record username fs), ud2.
      rewrite Hrun. cbn [fst].
      rewrite (load_visited_set _ _ _
                 (submission_well_formed _ _ _ _ _ Hsub Hwf1)).
      split; [reflexivity|]. split; [assumption|].
      right. exists ud1. split; [assumption|]. right. eauto.
  - left. apply admin_page_file.
Qed.

Lemma record_of_serve_set {fs fs' u new} v :
  load_store fs' = Dict.set u new (load_store fs) ->
  record_of fs' v = if String.eqb u v then Some new else record_of fs v.
Proof. intros H. unfold record_of. rewrite H. apply dict_get_set. Qed.

Lemma file_inv_serve req fs : file_inv fs -> file_inv (serve req fs).
Proof.
  intros Hinv.
  destruct (serve_store req fs) as [->|(u & old & new & Hload & Hold & Hch)];
    [assumption|].
  intros v r. rewrite (record_of_serve_set v Hload).
  destruct (String.eqb u v); [|apply Hinv].
  intros [= <-]. apply (record_change_inv (old := old)); [|assumption].
  destruct Hold as [Hold|(_ & [->| ->])].
  - eapply Hinv; eauto.
  - apply record_inv_new.
  - apply record_inv_empty.
Qed.

Lemma reachable_inv {fs} : reachable fs -> file_inv fs.
Proof.
  induction 1 as [|req fs Hreach IH].
  - intros u r. discriminate.
  - now apply file_inv_serve.
Qed.

End Serve.

Section Observed.

(** What a change of a record does to its cursor and to its assignment. *)
Lemma record_change_observed {old new} :
  record_inv old -> record_change old new ->
  (record_cursor new = record_cursor old
   \/ (record_cursor new = record_cursor old + 1
       /\ record_cursor old < record_assigned_len new))
  /\ (record_assigned new = record_assigned old
      \/ (record_assigned old = VList []
          /\ exists sentences p,
              record_assigned new
              = VList (map VInt (assignment sentences p)))).
Proof.
  unfold record_cursor, record_assigned_len, record_assigned.
  intros Hinv [(md & ->)|(mid & Hmid & Hnew)].
  - rewrite !ensure_fields_get_default by reflexivity.
    rewrite !dict_get_default_set_other by discriminate. auto.
  - destruct Hmid as [->|(Hf & s & p & ->)].
    + destruct Hnew as [->|(s & tr & now & Hsub)]; [auto|].
      destruct Hinv as (i & l & t & Hi & Ha & _).
      destruct (submission_cursor Hsub Hi Ha) as (Hlt & Hi' & Ha' & _).
      rewrite Hi', Ha', Hi, Ha. auto.
    + destruct (record_inv_unassigned Hinv Hf) as [Hi Ha].
      destruct Hnew as [->|(s' & tr & now & Hsub)].
      * rewrite dict_get_default_set_same.
        rewrite dict_get_default_set_other by discriminate.
        split; [now left|]. right. split; [assumption|]. eauto.
      * assert (Hi1 : Dict.get_default "index" (VInt 0)
                        (Dict.set "assigned"
                           (VList (map VInt (assignment s p))) old)
                      = VInt 0).
        { now rewrite dict_get_default_set_other by discriminate. }
        destruct (submission_cursor Hsub Hi1
                    (dict_get_default_set_same _ _ _ _))
          as (Hlt & Hi' & Ha' & _).
        rewrite Hi', Ha', Hi. split; [right; auto|].
        right. split; [assumption|]. eauto.
Qed.

Lemma record_or_empty_serve {fs fs' u new} v :
  load_store fs' = Dict.set u new (load_store fs) ->
  record_or_empty fs' v
  = if String.eqb u v then new else record_or_empty fs v.
Proof.
  intros H. unfold record_or_empty.
  rewrite (record_of_serve_set v H). now destruct (String.eqb u v).
Qed.

(** The same, for the record of any user across any run. *)
Lemma serve_observed {fs} req u :
  file_inv fs ->
  (cursor (serve req fs) u = cursor fs u
   \/ (cursor (serve req fs) u = cursor fs u + 1
       /\ cursor fs u < assigned_len (serve req fs) u))
  /\ (record_assigned (record_or_empty (serve req fs) u)
      = record_assigned (record_or_empty fs u)
      \/ (record_assigned (record_or_empty fs u) = VList []
          /\ exists sentences p,
              record_assigned (record_or_empty (serve req fs) u)
              = VList (map VInt (assignment sentences p)))).
Proof.
  intros Hinv. unfold cursor, assigned_len.
  destruct (serve_store req fs)
    as [->|(u' & old & new & Hload & Hold & Hch)]; [auto|].
  rewrite (record_or_empty_serve u Hload).
  destruct (String.eqb_spec u' u) as [->|Hne]; [|auto].
  assert (Hobs : record_inv old
                 /\ record_cursor (record_or_empty fs u) = record_cursor old
                 /\ record_assigned (record_or_empty fs u)
                    = record_assigned old).
  { unfold record_or_empty.
    destruct Hold as [Hold|(Hold & [->| ->])]; rewrite Hold.
    - split; [eapply Hinv; eauto | auto].
    - split; [apply record_inv_new | auto].
    - split; [apply record_inv_empty | auto]. }
  destruct Hobs as (Hinvold & -> & ->).
  apply record_change_observed; assumption.
Qed.

(** A loaded record holds each of its four fields. *)
Lemma record_of_field fs u {r} f {d} :
  record_of fs u = Some r -> Dict.get f record_fields = Some d ->
  Dict.get f r = Some (Dict.get_default f d r).
Proof.
  intros Hr Hf.
  pose proof (record_of_well_formed _ _ _ Hr) as Hwf.
  destruct (dict_get_default_cases f d r) as [H|[H _]]; [assumption|].
  assert (Hmem : Dict.mem f r = true).
  { apply well_formed_record_mem; [assumption|].
    apply dict_in_keys. unfold Dict.mem. now rewrite Hf. }
  unfold Dict.mem in Hmem. rewrite H in Hmem. discriminate.
Qed.

Lemma assigned_of_record fs u :
  assigned_of fs u
  = match record_of fs u with
    | Some _ => Some (record_assigned (record_or_empty fs u))
    | None => None
    end.
Proof.
  unfold assigned_of, record_or_empty, record_assigned.
  destruct (record_of fs u) as [r|] eqn:Hr; [|reflexivity].
  now apply (record_of_field fs u).
Qed.

(** A run never removes a record. *)
Lemma serve_keeps_record {fs} req {u r} :
  record_of fs u = Some r -> exists r', record_of (serve req fs) u = Some r'.
Proof.
  intros Hr.
  destruct (serve_store req fs) as [->|(u' & old & new & Hload & _)];
    [eauto|].
  rewrite (record_of_serve_set u Hload).
  destruct (String.eqb u' u); eauto.
Qed.

End Observed.

(** C4.  In every store the application can reach, each record has an
    integer cursor [index] with [0 <= index <= len(assigned)].  Across any
    run the cursor of any user stays as it is or grows by one, and it grows
    only from a value below the length of the assignment.  A user without a
    record counts as cursor 0, which is the cursor of the record once a
    metadata save or a Translate visit has created it. *)
Theorem cursor_within_assignment (fs : file) :
  reachable fs ->
  (forall u r, record_of fs u = Some r ->
     exists i l,
       Dict.get "index" r = Some (VInt i)
       /\ Dict.get "assigned" r = Some (VList l)
       /\ 0 <= i <= len l
       /\ cursor fs u = i /\ assigned_len fs u = len l)
  /\ (forall req u,
        cursor (serve req fs) u = cursor fs u
        \/ (cursor (serve req fs) u = cursor fs u + 1
            /\ cursor fs u < assigned_len (serve req fs) u))
  /\ (forall u, record_of fs u = None ->
        cursor fs u = 0
        /\ (forall name sex age gmail country save,
              index_of
                (serve (ReqMetadata u name sex age gmail country save) fs) u
              = None
              \/ index_of
                   (serve (ReqMetadata u name sex age gmail country save) fs) u
                 = Some (VInt 0))
        /\ (forall sentences translation now,
              index_of
                (serve (ReqTranslate sentences u translation false now) fs) u
              = Some (VInt 0))).
Proof.
  intros Hreach. pose proof (reachable_inv Hreach) as Hinv.
  split; [|split].
  - intros u r Hr.
    destruct (Hinv u r Hr) as (i & l & t & Hi & Ha & _ & Hb & _).
    exists i, (map VInt l).
    rewrite (record_of_field fs u "index" Hr eq_refl), Hi.
    rewrite (record_of_field fs u "assigned" Hr eq_refl), Ha.
    unfold cursor, assigned_len, record_or_empty, record_cursor,
      record_assigned_len, record_assigned.
    rewrite Hr, Hi, Ha. unfold len in *. rewrite length_map.
    repeat split; auto; lia.
  - intros req u. apply serve_observed. assumption.
  - intros u Hnone. split; [|split].
    + unfold cursor, record_or_empty. now rewrite Hnone.
    + intros name sex age gmail country save. cbn [serve].
      destruct (metadata_page_file u name sex age gmail country save fs)
        as [->| ->].
      * left. unfold index_of. now rewrite Hnone.
      * right. unfold index_of, record_of.
        rewrite load_store_set, load_store_saved, dict_get_set_same.
        rewrite ensure_fields_get.
        rewrite dict_get_set_other by discriminate.
        destruct (dict_get_default_cases u [] (load_store fs))
          as [H|[_ ->]];
          [pose proof (eq_trans (eq_sym H) Hnone) as Hx; discriminate Hx|].
        reflexivity.
    + intros sentences translation now. cbn [serve].
      destruct (translation_page_file sentences u translation false now fs)
        as (ud1 & fs1 & Hassign & [Hfile|(ud2 & view & Hs & _)]);
        [|discriminate].
      assert (Hstart : start_record u fs = new_record).
      { unfold start_record. now rewrite Hnone. }
      rewrite Hstart in Hassign.
      destruct Hassign as [(Ht & _)|(_ & p & _ & -> & ->)];
        [discriminate|].
      rewrite Hfile. unfold index_of, record_of.
      rewrite load_visited_set by reflexivity.
      rewrite dict_get_set_same. reflexivity.
Qed.

Lemma cursor_within_assignment_witness :
  exists i l,
    Dict.get "index"
      [("index", VInt 0); ("translations", VDict []); ("metadata", VDict []);
       ("assigned", VList [VInt 0; VInt 1])]
    = Some (VInt i)
    /\ Dict.get "assigned"
         [("index", VInt 0); ("translations", VDict []);
          ("metadata", VDict []); ("assigned", VList [VInt 0; VInt 1])]
       = Some (VList l)
    /\ 0 <= i <= len l
    /\ cursor (serve (ReqTranslate ["Hello"; "Thanks"] "ada" "" false "t") None)
         "ada" = i
    /\ assigned_len
         (serve (ReqTranslate ["Hello"; "Thanks"] "ada" "" false "t") None)
         "ada" = len l.
Proof.
  exact (proj1 (cursor_within_assignment _
                  (reachable_serve
                     (ReqTranslate ["Hello"; "Thanks"] "ada" "" false "t")
                     None reachable_init))
           "ada"
           [("index", VInt 0); ("translations", VDict []);
            ("metadata", VDict []); ("assigned", VList [VInt 0; VInt 1])]
           eq_refl).
Defined.

Section Recomputed.

(** A Translate visit of a user whose list is empty, or who has no record,
    leaves the range of the policy for the position of the user in the
    record, however the run ends. *)
Lemma visit_computes_assignment sentences u translation submit now fs p :
  assigned_of fs u = Some (VList []) \/ record_of fs u = None ->
  position_of u (users_at_visit u fs) p ->
  assigned_of (serve (ReqTranslate sentences u translation submit now) fs) u
  = Some (VList (map VInt (assignment sentences p))).
Proof.
  intros Hempty Hpos. apply start_record_empty in Hempty.
  apply list_index_position in Hpos. cbn [serve].
  destruct (translation_page_file sentences u translation submit now fs)
    as (ud1 & fs1 & [(Ht & _)|(_ & q & Hq & Hud1 & Hfs1)] & Hform);
    [congruence|].
  assert (q = p) by congruence. subst q.
  assert (Hwf1 : well_formed_record ud1 = true).
  { rewrite Hud1. apply well_formed_record_set, start_record_well_formed. }
  assert (Hassigned : Dict.get "assigned" ud1
                      = Some (VList (map VInt (assignment sentences p)))).
  { rewrite Hud1. apply dict_get_set_same. }
  unfold assigned_of, record_of.
  destruct Hform as [Hfile|(ud2 & view & _ & Hsub & Hrun)].
  - rewrite Hfile, Hfs1, (load_visited_set _ _ _ Hwf1), dict_get_set_same.
    assumption.
  - rewrite Hrun. cbn [fst].
    rewrite (load_visited_set _ _ _
               (submission_well_formed _ _ _ _ _ Hsub Hwf1)),
      dict_get_set_same.
    rewrite (submission_other_field (f := "assigned") Hsub) by discriminate.
    assumption.
Qed.

(** The range of the policy is empty exactly when the source has no sentence
    at the first index of the user's block. *)
Lemma assignment_empty sentences p :
  assignment sentences p = [] <-> len sentences <= 100 * Z.of_nat p.
Proof.
  pose proof (assignment_length sentences p) as Hlen.
  split.
  - intros H. rewrite H in Hlen. unfold len in Hlen at 1.
    cbn [List.length] in Hlen. lia.
  - intros H. destruct (assignment sentences p) as [|x l]; [reflexivity|].
    unfold len in Hlen at 1. cbn [List.length] in Hlen. lia.
Qed.

End Recomputed.

(** C9, as stated, fails: a list that was computed empty is computed again.
    With 100 sentences the second user is assigned the empty range; when the
    source has 150 sentences on the next visit, the same user is assigned
    [100, 150). *)
Lemma assignment_frozen_after_visit_counterexample :
  ~ assignment_frozen_after_visit.
Proof.
  intros H.
  specialize (H (serve (ReqTranslate (repeat "s" 100) "ada" "" false "t") None)
                (repeat "s" 100) "bob" "" false "t"
                (ReqTranslate (repeat "s" 150) "bob" "" false "t")
                (reachable_serve _ None reachable_init)).
  vm_compute in H. discriminate.
Qed.

(** C9, amended.  In every store the application can reach, each [assigned]
    list holds at most 100 integers.  A list that is not empty is never
    changed by any run.  The only change a run makes to a list is to replace
    an empty or missing one by a range of the assignment policy (a metadata
    save creates the record of a new user, whose list then loads as empty).
    And the list is computed on every Translate visit that finds it empty
    or finds no record: the visit leaves [range(100 * p, min(100 * p + 100,
    len(sentences)))] for the position [p] of the user, which is empty again
    exactly when the source of that visit has at most [100 * p] sentences. *)
Theorem assignment_frozen_once_nonempty (fs : file) :
  reachable fs ->
  (forall u a, assigned_of fs u = Some a ->
     exists l, a = VList (map VInt l) /\ len l <= 100)
  /\ (forall req u a,
        assigned_of fs u = Some a -> py_truthy a = true ->
        assigned_of (serve req fs) u = Some a)
  /\ (forall req u,
        assigned_of (serve req fs) u = assigned_of fs u
        \/ ((assigned_of fs u = Some (VList []) \/ assigned_of fs u = None)
            /\ exists sentences p,
                assigned_of (serve req fs) u
                = Some (VList (map VInt (assignment sentences p))))
        \/ (assigned_of fs u = None
            /\ assigned_of (serve req fs) u = Some (VList [])))
  /\ (forall sentences u translation submit now p,
        assigned_of fs u = Some (VList []) \/ record_of fs u = None ->
        position_of u (users_at_visit u fs) p ->
        assigned_of
          (serve (ReqTranslate sentences u translation submit now) fs) u
        = Some (VList (map VInt (assignment sentences p)))
        /\ assignment sentences p
           = py_range (100 * Z.of_nat p)
               (Z.min (100 * Z.of_nat p + 100) (len sentences))
        /\ (assignment sentences p = []
            <-> len sentences <= 100 * Z.of_nat p)).
Proof.
  intros Hreach. pose proof (reachable_inv Hreach) as Hinv.
  split; [|split; [|split]].
  - intros u a. rewrite assigned_of_record.
    destruct (record_of fs u) as [r|] eqn:Hr; [|discriminate].
    intros [= <-]. unfold record_or_empty, record_assigned. rewrite Hr.
    destruct (Hinv u r Hr) as (i & l & t & _ & Ha & _ & _ & Hb). eauto.
  - intros req u a. rewrite !assigned_of_record.
    destruct (record_of fs u) as [r|] eqn:Hr; [|discriminate].
    destruct (serve_keeps_record req Hr) as [r' ->].
    intros [= <-] Htruthy.
    destruct (serve_observed req u Hinv) as [_ [->|[Hempty _]]];
      [reflexivity|].
    rewrite Hempty in Htruthy. discriminate.
  - intros req u. rewrite !assigned_of_record.
    destruct (serve_observed req u Hinv) as [_ Hobs].
    destruct (record_of fs u) as [r|] eqn:Hr.
    + destruct (serve_keeps_record req Hr) as [r' ->].
      destruct Hobs as [->|(Hempty & s & p & ->)]; [now left|].
      right. left. rewrite Hempty. eauto.
    + destruct (record_of (serve req fs) u) as [r'|]; [|now left].
      right. destruct Hobs as [->|(_ & s & p & ->)].
      * right. unfold record_or_empty. rewrite Hr. auto.
      * left. eauto.
  - intros sentences u translation submit now p Hempty Hpos.
    split; [now apply visit_computes_assignment|].
    split; [|apply assignment_empty].
    unfold assignment. f_equal; lia.
Qed.

Lemma assignment_frozen_once_nonempty_witness :
  assigned_of
    (serve (ReqTranslate ["Hello"; "Thanks"; "Please"] "ada" "" false "t")
       (serve (ReqTranslate ["Hello"; "Thanks"] "ada" "" false "t") None))
    "ada"
  = Some (VList [VInt 0; VInt 1]).
Proof.
  exact (proj1 (proj2 (assignment_frozen_once_nonempty _
                         (reachable_serve
                            (ReqTranslate ["Hello"; "Thanks"] "ada" "" false "t")
                            None reachable_init)))
           (ReqTranslate ["Hello"; "Thanks"; "Please"] "ada" "" false "t")
           "ada" (VList [VInt 0; VInt 1]) eq_refl eq_refl).
Defined.

(** ** Strings *)

Section Strings.

Lemma rstrip_idempotent s : rstrip (rstrip s) = rstrip s.
Proof.
  induction s as [|c s IH]; [reflexivity|].
  simpl. destruct (rstrip s) as [|a r] eqn:E.
  - destruct (isspace c) eqn:Ec; [reflexivity|]. simpl. now rewrite Ec.
  - simpl in *. now rewrite IH.
Qed.

Lemma lstrip_head s :
  lstrip s = "" \/ exists c s', lstrip s = String c s' /\ isspace c = false.
Proof.
  induction s as [|c s IH]; [now left|].
  simpl. destruct (isspace c) eqn:Ec; [assumption|]. right. eauto.
Qed.

Lemma rstrip_head c s :
  isspace c = false -> exists r, rstrip (String c s) = String c r.
Proof.
  intros Ec. simpl. destruct (rstrip s); [rewrite Ec|]; eauto.
Qed.

(** Stripping a stripped string changes nothing. *)
Lemma strip_idempotent s : strip (strip s) = strip s.
Proof.
  unfold strip.
  destruct (lstrip_head s) as [->|(c & s' & -> & Ec)]; [reflexivity|].
  destruct (rstrip_head c s' Ec) as [r Hr]. rewrite Hr.
  cbn [lstrip]. rewrite Ec, <- Hr. apply rstrip_idempotent.
Qed.

Lemma to_int_nonnil z : Z.to_int z <> Decimal.Pos Decimal.Nil
                        /\ Z.to_int z <> Decimal.Neg Decimal.Nil.
Proof.
  destruct z; simpl; split; try discriminate;
    intros [= H]; now apply DecimalPos.Unsigned.to_uint_nonnil in H.
Qed.

(** [str] is injective on integers. *)
Lemma str_int_inj a b : str_int a = str_int b -> a = b.
Proof.
  unfold str_int. intros H.
  apply DecimalZ.to_int_inj.
  destruct (to_int_nonnil a) as [Ha1 Ha2].
  destruct (to_int_nonnil b) as [Hb1 Hb2].
  pose proof (NilZero.isi _ Ha1 Ha2) as Ia.
  pose proof (NilZero.isi _ Hb1 Hb2) as Ib.
  rewrite H in Ia. congruence.
Qed.

End Strings.

(** ** Positions in the store *)

Section Positions.

Context {A : Type}.
Implicit Types (s : Dict.t A) (u : string).

(** The keys after [s[u] = v], whether [u] is new or not. *)
Lemma dict_keys_set u (v : A) s :
  Dict.keys (Dict.set u v s)
  = (Dict.keys s ++ (if Dict.mem u s then [] else [u]))%list.
Proof.
  destruct (Dict.mem u s) eqn:E.
  - rewrite app_nil_r. now apply dict_keys_set_present.
  - now apply dict_keys_set_absent.
Qed.

(** [s[u] = v] writes at the position of [u] and nowhere else. *)
Lemma dict_set_nth u (v : A) s p :
  list_index u (Dict.keys (Dict.set u v s)) = Ok p ->
  nth_error (Dict.set u v s) p = Some (u, v)
  /\ forall q, q <> p -> nth_error (Dict.set u v s) q = nth_error s q.
Proof.
  revert p. induction s as [|[k x] s IH]; intros p; simpl.
  - rewrite String.eqb_refl. intros [= <-]. split; [reflexivity|].
    intros [|q] Hq; [congruence|]. now destruct q.
  - destruct (String.eqb_spec u k) as [->|Hne]; simpl.
    + rewrite String.eqb_refl. intros [= <-]. split; [reflexivity|].
      intros [|q] Hq; [congruence | reflexivity].
    + destruct (String.eqb_spec u k) as [|_]; [congruence|].
      destruct (list_index u (Dict.keys (Dict.set u v s))) as [n|e] eqn:E;
        [|discriminate].
      intros [= <-]. destruct (IH n eq_refl) as [H1 H2].
      split; [exact H1|]. intros [|q] Hq; [reflexivity|].
      simpl. apply H2. congruence.
Qed.

(** The record [d.get(u)] returns stands at the position of [u]. *)
Lemma dict_get_nth u s x :
  Dict.get u s = Some x ->
  exists p, list_index u (Dict.keys s) = Ok p /\ nth_error s p = Some (u, x).
Proof.
  induction s as [|[k y] s IH]; simpl; [discriminate|].
  destruct (String.eqb_spec u k) as [->|Hne].
  - intros [= ->]. exists O. auto.
  - intros H. destruct (IH H) as (p & Hp & Hn). exists (S p).
    rewrite Hp. auto.
Qed.

Lemma list_index_app x l l' p :
  list_index x l = Ok p -> list_index x (l ++ l') = Ok p.
Proof.
  revert p. induction l as [|y l IH]; intros p; simpl; [discriminate|].
  destruct (String.eqb x y); [auto|].
  destruct (list_index x l) as [n|]; [|discriminate].
  intros [= <-]. now rewrite (IH n eq_refl).
Qed.

End Positions.

(** ** Shape of the records *)

Section Shape.

Lemma py_index_nth {A} (l : list A) i x :
  0 <= i -> py_index l i = Ok x -> nth_error l (Z.to_nat i) = Some x.
Proof.
  intros Hi. unfold py_index.
  destruct (Z.ltb_spec i 0); [lia|].
  destruct ((i <? 0) || (len l <=? i)); [discriminate|].
  destruct (nth_error l (Z.to_nat i)); congruence.
Qed.

Lemma py_range_nth_inv a b k x :
  nth_error (py_range a b) k = Some x -> x = a + Z.of_nat k.
Proof.
  intros H.
  assert (Hk : (k < List.length (py_range a b))%nat).
  { apply nth_error_Some. congruence. }
  rewrite py_range_length in Hk. rewrite py_range_nth in H by assumption.
  congruence.
Qed.

Lemma firstn_snoc {A} (l : list A) k x :
  nth_error l k = Some x -> firstn (S k) l = (firstn k l ++ [x])%list.
Proof.
  revert k. induction l as [|y l IH]; intros [|k]; simpl; try discriminate.
  - now intros [= ->].
  - intros H. f_equal. now apply IH.
Qed.

Lemma in_firstn_nth {A} (l : list A) k y :
  In y (firstn k l) -> exists j, (j < k)%nat /\ nth_error l j = Some y.
Proof.
  revert k. induction l as [|x l IH]; intros [|k]; simpl; try tauto.
  intros [->|Hin].
  - exists O. split; [lia | reflexivity].
  - destruct (IH k Hin) as (j & Hj & Hn). exists (S j). split; [lia | exact Hn].
Qed.

Lemma dict_forall_set {A} (P : string * A -> Prop) k v (d : Dict.t A) :
  Forall P d -> P (k, v) -> (forall k' v', P (k', v') -> P (k', v)) ->
  Forall P (Dict.set k v d).
Proof.
  intros Hd Hv Hk. induction Hd as [|[k' v'] d Hx Hd IH]; simpl.
  - repeat constructor. exact Hv.
  - destruct (String.eqb k k'); constructor; eauto.
Qed.

Lemma record_ok_new p : record_ok p new_record.
Proof.
  exists 0, [], [], []. unfold len. simpl.
  repeat split; try reflexivity; try lia.
  - unfold py_range. now rewrite Z.add_0_r, Z.sub_diag.
  - constructor.
Qed.

Lemma record_ok_empty p : record_ok p [].
Proof.
  exists 0, [], [], []. unfold len. simpl.
  repeat split; try reflexivity; try lia.
  - unfold py_range. now rewrite Z.add_0_r, Z.sub_diag.
  - constructor.
Qed.

Lemma record_ok_inv {p r} : record_ok p r -> record_inv r.
Proof.
  intros (i & l & t & md & Hi & Ha & Ht & _ & Hb & Hc & _).
  exists i, l, t. auto.
Qed.

Lemma record_ok_metadata p r name sex age gmail country :
  record_ok p r ->
  record_ok p
    (ensure_fields
       (Dict.set "metadata"
          (VDict [("name", VStr name); ("sex", VStr sex); ("age", VInt age);
                  ("gmail", VStr gmail); ("country", VStr country)]) r)).
Proof.
  intros (i & l & t & md & Hi & Ha & Ht & Hm & Hrest).
  exists i, l, t. eexists.
  rewrite !ensure_fields_get_default by reflexivity.
  rewrite dict_get_default_set_same.
  rewrite !dict_get_default_set_other by discriminate.
  repeat split; try apply Hrest; auto.
Qed.

Lemma assignment_range sentences p :
  assignment sentences p
  = py_range (100 * Z.of_nat p)
      (100 * Z.of_nat p + len (assignment sentences p)).
Proof.
  unfold assignment, len. rewrite py_range_length. unfold py_range.
  replace (Z.of_nat p * 100) with (100 * Z.of_nat p) by lia.
  f_equal. f_equal. lia.
Qed.

Lemma record_ok_assign sentences p r :
  record_ok p r ->
  py_truthy (Dict.get_default "assigned" VNone r) = false ->
  record_ok p
    (Dict.set "assigned" (VList (map VInt (assignment sentences p))) r).
Proof.
  intros Hok Hf.
  destruct (record_inv_unassigned (record_ok_inv Hok) Hf) as [Hi Ha].
  destruct Hok as (i & l & t & md & Hi' & Ha' & Ht & Hm & _ & _ & _ & Hk & Hall).
  rewrite Hi in Hi'. injection Hi' as <-.
  rewrite Ha in Ha'. symmetry in Ha'. apply map_VInt_nil in Ha'. subst l.
  exists 0, (assignment sentences p), t, md.
  rewrite dict_get_default_set_same.
  rewrite !dict_get_default_set_other by discriminate.
  pose proof (assignment_at_most_100 sentences p) as H100.
  pose proof (assignment_length sentences p) as Hlen.
  repeat split; auto; try lia;
    first [apply assignment_range | exact Hk].
Qed.

Lemma record_ok_submission sentences translation now p ud ud' :
  record_ok p ud -> submission sentences translation now ud ud' ->
  record_ok p ud'.
Proof.
  intros (i & l & t & md & Hi & Ha & Ht & Hm & Hb & Hc & Hl & Hk & Hall)
         (a & total & z & si & s & key & t0 & Hstrip & Hga & Hlen & Hz & Hlt
          & Hitem & _ & Hkey & Hgt & ->).
  rewrite Hi in Hz, Hitem. injection Hz as <-.
  unfold Dict.get_default in Ha, Ht. rewrite Hga in Ha. rewrite Hgt in Ht.
  subst a. injection Ht as ->.
  injection Hlen as <-.
  assert (Hlen : len (map VInt l) = len l).
  { unfold len. now rewrite length_map. }
  rewrite Hlen in Hlt.
  cbn [py_getitem as_int] in Hitem.
  apply py_index_nth in Hitem; [|lia].
  rewrite nth_error_map in Hitem.
  destruct (nth_error l (Z.to_nat i)) as [x|] eqn:Hx; [|discriminate].
  injection Hitem as <-. injection Hkey as <-.
  assert (Hxv : x = 100 * Z.of_nat p + i).
  { rewrite Hl in Hx. apply py_range_nth_inv in Hx. lia. }
  assert (Hfresh : Dict.mem (str_int x) t = false).
  { apply not_true_is_false. rewrite <- dict_in_keys, Hk.
    intros Hin. apply in_map_iff in Hin. destruct Hin as (y & Hy & Hin).
    apply str_int_inj in Hy. subst y.
    apply in_firstn_nth in Hin. destruct Hin as (j & Hj & Hn).
    rewrite Hl in Hn. apply py_range_nth_inv in Hn. lia. }
  exists (i + 1), l,
    (Dict.set (str_int x) (translation_entry s translation now) t), md.
  rewrite dict_get_default_set_same.
  rewrite !dict_get_default_set_other by discriminate.
  rewrite dict_get_default_set_same.
  unfold Dict.get_default at 1. rewrite Hga.
  split; [reflexivity|]. split; [reflexivity|]. split; [reflexivity|].
  split.
  { rewrite !dict_get_default_set_other by discriminate. exact Hm. }
  split; [lia|]. split; [assumption|]. split; [assumption|]. split.
  - rewrite dict_keys_set_absent by assumption. rewrite Hk.
    replace (Z.to_nat (i + 1)) with (S (Z.to_nat i)) by lia.
    rewrite (firstn_snoc _ _ _ Hx), map_app. reflexivity.
  - assert (Hset : Dict.set (str_int x) (translation_entry s translation now) t
                   = (t ++ [(str_int x, translation_entry s translation now)])%list).
    { clear -Hfresh. unfold Dict.mem in Hfresh.
      induction t as [|[k v] t IH]; simpl in *; [reflexivity|].
      destruct (String.eqb (str_int x) k); [discriminate|].
      now rewrite IH. }
    rewrite Hset.
    apply Forall_app. split; [assumption|]. constructor; [|constructor].
    simpl. unfold translation_entry. eexists _, _, _.
    split; [reflexivity|]. split.
    + now apply String.eqb_neq.
    + apply strip_idempotent.
Qed.

Lemma record_step_ok {p old new} :
  record_ok p old -> record_step p old new -> record_ok p new.
Proof.
  intros Hok [(name & sex & age & gmail & country & ->)|(mid & Hmid & Hnew)].
  - now apply record_ok_metadata.
  - assert (Hmidok : record_ok p mid).
    { destruct Hmid as [->|(Hf & s & ->)]; [assumption|].
      now apply record_ok_assign. }
    destruct Hnew as [->|(s & tr & now & Hsub)]; [assumption|].
    eapply record_ok_submission; eauto.
Qed.

End Shape.

(** ** Shape of the reachable stores *)

Section StoreShape.

Lemma users_at_visit_position u fs :
  exists p, list_index u (users_at_visit u fs) = Ok p.
Proof.
  apply list_index_member. rewrite <- visited_keys.
  apply dict_in_keys, visited_mem_self.
Qed.

(** A run leaves the file alone or rewrites the record of one user, whose
    position it does not change. *)
Lemma serve_step req fs :
  serve req fs = fs
  \/ exists u old new p,
      load_store (serve req fs) = Dict.set u new (load_store fs)
      /\ list_index u (users_at_visit u fs) = Ok p
      /\ (record_of fs u = Some old
          \/ (record_of fs u = None /\ (old = new_record \/ old = [])))
      /\ record_step p old new.
Proof.
  destruct req as [username name sex age gmail country save
                  |sentences username translation submit now
                  |pw logged password login].
  - cbn [serve].
    destruct (metadata_page_file username name sex age gmail country save fs)
      as [H|H]; [now left|right].
    destruct (users_at_visit_position username fs) as [p Hp].
    exists username, (Dict.get_default username [] (load_store fs)).
    eexists. exists p. rewrite H, load_store_set, load_store_saved.
    split; [reflexivity|]. split; [assumption|]. split.
    + destruct (dict_get_default_cases username [] (load_store fs))
        as [H1|[H1 H2]]; [left; exact H1|right].
      split; [exact H1|]. right. exact H2.
    + left. exists name, sex, age, gmail, country. reflexivity.
  - cbn [serve].
    destruct (translation_page_file sentences username translation submit
                now fs)
      as (ud1 & fs1 & Hassign & Hform).
    destruct (users_at_visit_position username fs) as [p Hp].
    pose proof (start_record_well_formed username fs) as Hwf0.
    assert (Hwf1 : well_formed_record ud1 = true).
    { destruct Hassign as [(_ & -> & _)|(_ & q & _ & -> & _)];
        [assumption|]. now apply well_formed_record_set. }
    assert (Hold : record_of fs username = Some (start_record username fs)
                   \/ (record_of fs username = None
                       /\ (start_record username fs = new_record
                           \/ start_record username fs = []))).
    { destruct (start_record_cases username fs) as [H|[H1 H2]]; auto. }
    assert (Hmid : ud1 = start_record username fs
                   \/ (py_truthy (Dict.get_default "assigned" VNone
                                    (start_record username fs)) = false
                       /\ exists sentences,
                           ud1 = Dict.set "assigned"
                                   (VList (map VInt (assignment sentences p)))
                                   (start_record username fs))).
    { destruct Hassign as [(_ & -> & _)|(Hf & q & Hq & -> & _)]; [now left|].
      right. split; [assumption|].
      assert (q = p) by congruence. subst q. eauto. }
    destruct Hform as [Hfile|(ud2 & view & _ & Hsub & Hrun)].
    + destruct Hassign as [(_ & _ & ->)|(_ & q & _ & _ & ->)];
        [now left|right].
      exists username, (start_record username fs), ud1, p.
      rewrite Hfile, (load_visited_set _ _ _ Hwf1).
      split; [reflexivity|]. split; [assumption|]. split; [assumption|].
      right. exists ud1. split; [assumption | now left].
    + right. exists username, (start_record username fs), ud2, p.
      rewrite Hrun. cbn [fst].
      rewrite (load_visited_set _ _ _
                 (submission_well_formed _ _ _ _ _ Hsub Hwf1)).
      split; [reflexivity|]. split; [assumption|]. split; [assumption|].
      right. exists ud1. split; [assumption|]. right. eauto.
  - left. apply admin_page_file.
Qed.

Lemma users_at_visit_set u new fs :
  Dict.keys (Dict.set u new (load_store fs)) = users_at_visit u fs.
Proof. apply dict_keys_set. Qed.

Lemma store_ok_serve req fs :
  store_ok (load_store fs) -> store_ok (load_store (serve req fs)).
Proof.
  intros Hok.
  destruct (serve_step req fs)
    as [->|(u & old & new & p & Hload & Hp & Hold & Hstep)]; [assumption|].
  rewrite Hload. rewrite <- (users_at_visit_set u new fs) in Hp.
  destruct (dict_set_nth _ _ _ _ Hp) as [Hat Hother].
  intros q v r Hq.
  destruct (Nat.eq_dec q p) as [->|Hne].
  - rewrite Hat in Hq. injection Hq as <- <-.
    apply (record_step_ok (old := old)); [|assumption].
    destruct Hold as [Hold|(_ & [->| ->])].
    + destruct (dict_get_nth _ _ _ Hold) as (p' & Hp' & Hn).
      rewrite dict_keys_set in Hp.
      rewrite (list_index_app _ _ _ _ Hp') in Hp. injection Hp as <-.
      eapply Hok; eauto.
    + apply record_ok_new.
    + apply record_ok_empty.
  - rewrite (Hother q Hne) in Hq. eapply Hok; eauto.
Qed.

Lemma reachable_ok {fs} : reachable fs -> store_ok (load_store fs).
Proof.
  induction 1 as [|req fs Hreach IH].
  - intros p u r H. destruct p; discriminate.
  - now apply store_ok_serve.
Qed.

Lemma record_of_position {fs u r} :
  record_of fs u = Some r ->
  exists p, position_of u (Dict.keys (load_store fs)) p
            /\ nth_error (load_store fs) p = Some (u, r).
Proof.
  intros Hr. destruct (dict_get_nth _ _ _ Hr) as (p & Hp & Hn).
  exists p. split; [now apply list_index_position | assumption].
Qed.

Lemma py_range_in a b x : In x (py_range a b) -> a <= x < b.
Proof.
  intros Hin. apply In_nth_error in Hin. destruct Hin as [k Hk].
  assert (Hlt : (k < List.length (py_range a b))%nat).
  { apply nth_error_Some. congruence. }
  rewrite py_range_length in Hlt. apply py_range_nth_inv in Hk. lia.
Qed.

End StoreShape.

(** X1.  No run removes a user or moves one: the usernames of the store a
    run leaves are those it found, in the same order, with at most one new
    username appended. *)
Theorem users_keep_positions (req : request) (fs : file) :
  exists added,
    Dict.keys (load_store (serve req fs))
    = (Dict.keys (load_store fs) ++ added)%list
    /\ (added = [] \/ exists u, added = [u] /\ record_of fs u = None).
Proof.
  destruct (serve_step req fs)
    as [->|(u & old & new & p & Hload & _)].
  - exists []. rewrite app_nil_r. auto.
  - rewrite Hload, dict_keys_set.
    destruct (Dict.mem u (load_store fs)) eqn:E.
    + exists []. auto.
    + exists [u]. split; [reflexivity|]. right. exists u.
      split; [reflexivity|]. now apply dict_mem_false.
Qed.

(** X2.  In every store the application can reach, the assignment of the
    user at position [p] of the store is a run of at most 100 consecutive
    indices that starts at [100 * p]. *)
Theorem assignment_at_position
    (fs : file) (u : string) (r : Dict.t value) (p : nat) :
  reachable fs ->
  record_of fs u = Some r ->
  position_of u (Dict.keys (load_store fs)) p ->
  exists l,
    Dict.get "assigned" r = Some (VList (map VInt l))
    /\ len l <= 100
    /\ forall k, (k < List.length l)%nat ->
         nth_error l k = Some (100 * Z.of_nat p + Z.of_nat k).
Proof.
  intros Hreach Hr Hp.
  destruct (record_of_position Hr) as (p' & Hp' & Hn).
  apply list_index_position in Hp, Hp'.
  assert (p' = p) by congruence. subst p'.
  destruct (reachable_ok Hreach p u r Hn)
    as (i & l & t & md & _ & Ha & _ & _ & _ & Hc & Hl & _).
  exists l. rewrite (record_of_field fs u "assigned" Hr eq_refl), Ha.
  split; [reflexivity|]. split; [assumption|].
  intros k Hk. rewrite Hl. rewrite py_range_nth; [reflexivity|].
  unfold len. lia.
Qed.

Lemma assignment_at_position_witness :
  exists l,
    Dict.get "assigned"
      [("index", VInt 0); ("translations", VDict []); ("metadata", VDict []);
       ("assigned", VList [VInt 100; VInt 101])]
    = Some (VList (map VInt l))
    /\ len l <= 100
    /\ forall k, (k < List.length l)%nat ->
         nth_error l k = Some (100 * Z.of_nat 1 + Z.of_nat k).
Proof.
  apply (assignment_at_position
           (serve (ReqTranslate (repeat "s" 102) "bob" "" false "t")
              (serve (ReqTranslate (repeat "s" 102) "ada" "" false "t") None))
           "bob").
  - apply reachable_serve, reachable_serve, reachable_init.
  - vm_compute. reflexivity.
  - split; [reflexivity|]. simpl. intros [H|[]]. discriminate.
Defined.

(** X3.  In every store the application can reach, no sentence index is
    assigned to two users. *)
Theorem assignments_disjoint
    (fs : file) (u v : string) (ru rv : Dict.t value) (lu lv : list value)
    (x : value) :
  reachable fs ->
  u <> v ->
  record_of fs u = Some ru -> record_of fs v = Some rv ->
  Dict.get "assigned" ru = Some (VList lu) ->
  Dict.get "assigned" rv = Some (VList lv) ->
  In x lu -> ~ In x lv.
Proof.
  intros Hreach Hne Hru Hrv Hau Hav Hxu Hxv.
  destruct (record_of_position Hru) as (p & _ & Hp).
  destruct (record_of_position Hrv) as (q & _ & Hq).
  assert (Hpq : p <> q).
  { intros ->. rewrite Hp in Hq. congruence. }
  pose proof (reachable_ok Hreach) as Hok.
  destruct (Hok p u ru Hp)
    as (i & l & t & md & _ & Ha & _ & _ & _ & Hc & Hl & _).
  destruct (Hok q v rv Hq)
    as (i' & l' & t' & md' & _ & Ha' & _ & _ & _ & Hc' & Hl' & _).
  rewrite (record_of_field fs u "assigned" Hru eq_refl), Ha in Hau.
  rewrite (record_of_field fs v "assigned" Hrv eq_refl), Ha' in Hav.
  injection Hau as <-. injection Hav as <-.
  apply in_map_iff in Hxu, Hxv.
  destruct Hxu as (a & <- & Hin). destruct Hxv as (b & [= ->] & Hin').
  rewrite Hl in Hin. rewrite Hl' in Hin'.
  apply py_range_in in Hin, Hin'. lia.
Qed.

Lemma assignments_disjoint_witness :
  ~ In (VInt 1) [VInt 100; VInt 101].
Proof.
  apply (assignments_disjoint
           (serve (ReqTranslate (repeat "s" 102) "bob" "" false "t")
              (serve (ReqTranslate (repeat "s" 102) "ada" "" false "t") None))
           "ada" "bob"
           [("index", VInt 0); ("translations", VDict []);
            ("metadata", VDict []);
            ("assigned", VList (map VInt (py_range 0 100)))]
           [("index", VInt 0); ("translations", VDict []);
            ("metadata", VDict []);
            ("assigned", VList [VInt 100; VInt 101])]
           (map VInt (py_range 0 100)) [VInt 100; VInt 101] (VInt 1)).
  - apply reachable_serve, reachable_serve, reachable_init.
  - discriminate.
  - vm_compute. reflexivity.
  - vm_compute. reflexivity.
  - reflexivity.
  - reflexivity.
  - vm_compute. tauto.
Defined.

(** X4.  In every store the application can reach, the translations of a
    record are exactly those of the assigned sentences before the cursor,
    stored under [str] of their indices in the order of the assignment; so
    the number of translations equals the cursor, and every stored text is
    stripped and not empty. *)
Theorem translations_follow_cursor
    (fs : file) (u : string) (r : Dict.t value) :
  reachable fs ->
  record_of fs u = Some r ->
  exists i l t,
    Dict.get "index" r = Some (VInt i)
    /\ Dict.get "assigned" r = Some (VList (map VInt l))
    /\ Dict.get "translations" r = Some (VDict t)
    /\ Dict.keys t = map str_int (firstn (Z.to_nat i) l)
    /\ len t = i
    /\ Forall (fun item => entry_ok (snd item)) t.
Proof.
  intros Hreach Hr.
  destruct (record_of_position Hr) as (p & _ & Hn).
  destruct (reachable_ok Hreach p u r Hn)
    as (i & l & t & md & Hi & Ha & Ht & _ & Hb & _ & _ & Hk & Hall).
  exists i, l, t.
  rewrite (record_of_field fs u "index" Hr eq_refl), Hi.
  rewrite (record_of_field fs u "assigned" Hr eq_refl), Ha.
  rewrite (record_of_field fs u "translations" Hr eq_refl), Ht.
  repeat split; auto.
  assert (Hlen : List.length (Dict.keys t) = Z.to_nat i).
  { rewrite Hk, length_map, length_firstn. unfold len in Hb. lia. }
  unfold Dict.keys in Hlen. rewrite length_map in Hlen. unfold len. lia.
Qed.

Lemma translations_follow_cursor_witness :
  exists i l t,
    Dict.get "index"
      [("index", VInt 1);
       ("translations",
        VDict [("0", VDict [("English", VStr "Hello");
                            ("Translation", VStr "e kaaro");
                            ("Timestamp", VStr "t")])]);
       ("metadata", VDict []); ("assigned", VList [VInt 0; VInt 1])]
    = Some (VInt i)
    /\ Dict.get "assigned"
         [("index", VInt 1);
          ("translations",
           VDict [("0", VDict [("English", VStr "Hello");
                               ("Translation", VStr "e kaaro");
                               ("Timestamp", VStr "t")])]);
          ("metadata", VDict []); ("assigned", VList [VInt 0; VInt 1])]
       = Some (VList (map VInt l))
    /\ Dict.get "translations"
         [("index", VInt 1);
          ("translations",
           VDict [("0", VDict [("English", VStr "Hello");
                               ("Translation", VStr "e kaaro");
                               ("Timestamp", VStr "t")])]);
          ("metadata", VDict []); ("assigned", VList [VInt 0; VInt 1])]
       = Some (VDict t)
    /\ Dict.keys t = map str_int (firstn (Z.to_nat i) l)
    /\ len t = i
    /\ Forall (fun item => entry_ok (snd item)) t.
Proof.
  apply (translations_follow_cursor
           (serve (ReqTranslate ["Hello"; "Thanks"] "ada" " e kaaro " true "t")
              (serve (ReqTranslate ["Hello"; "Thanks"] "ada" "" false "t")
                 None))
           "ada").
  - apply reachable_serve, reachable_serve, reachable_init.
  - vm_compute. reflexivity.
Defined.

(** ** The Translate view on a record with an assignment *)

Section View.

Variables (sentences : list string) (username translation : string)
          (submit : bool) (now : string).

(** With an assignment in the record, the run is the form on the record as
    loaded. *)
Lemma translation_page_kept fs r :
  record_of fs username = Some r ->
  py_truthy (Dict.get_default "assigned" VNone r) = true ->
  translation_page sentences username translation submit now fs
  = translate_form sentences username translation submit now
      (load_store fs) r fs.
Proof.
  intros Hr Ha.
  assert (Hstart : start_record username fs = r).
  { unfold start_record. now rewrite Hr. }
  rewrite translation_page_unfold, Hstart, assign_sentences_kept by assumption.
  unfold visited, Dict.mem. unfold record_of in Hr. now rewrite Hr.
Qed.

Lemma truthy_nonempty (l : list value) :
  l <> [] -> py_truthy (VList l) = true /\ 0 < len l.
Proof.
  destruct l; [congruence|]. intros _. split; [reflexivity|].
  unfold len. simpl. lia.
Qed.

Lemma translate_form_completed ap ud fs l i n :
  Dict.get "assigned" ud = Some (VList l) ->
  Dict.get "index" ud = Some (VInt i) ->
  py_len (Dict.get_default "translations" (VDict []) ud) = Ok n ->
  l <> [] -> len l <= i ->
  exists progress,
    translate_form sentences username translation submit now ap ud fs
    = (fs, Ok (Completed progress))
    /\ translated_count progress = n
    /\ total_assigned progress = len l.
Proof.
  intros Ha Hi Ht Hne Hle.
  destruct (truthy_nonempty _ Hne) as [_ Hpos].
  unfold translate_form. unfold_run.
  unfold Dict.getitem. rewrite Ha, Ht.
  unfold Dict.get_default. rewrite Hi.
  cbn [py_len]. unfold py_truediv.
  destruct (Z.eqb_spec (len l) 0) as [|_]; [lia|].
  cbn [py_ge as_int]. destruct (Z.leb_spec (len l) i) as [_|]; [|lia].
  eexists. split; [reflexivity|]. split; reflexivity.
Qed.

Lemma translate_form_sentence_missing ap ud fs l i n idx e :
  Dict.get "assigned" ud = Some (VList l) ->
  Dict.get "index" ud = Some (VInt i) ->
  py_len (Dict.get_default "translations" (VDict []) ud) = Ok n ->
  i < len l ->
  py_index l i = Ok (VInt idx) ->
  py_index sentences idx = Raise e ->
  translate_form sentences username translation submit now ap ud fs
  = (fs, Raise e).
Proof.
  intros Ha Hi Ht Hlt Hidx Hs.
  pose proof (py_index_nonempty _ _ _ Hidx) as Hpos.
  unfold translate_form. unfold_run.
  unfold Dict.getitem. rewrite Ha, Ht.
  unfold Dict.get_default. rewrite Hi.
  cbn [py_len]. unfold py_truediv.
  destruct (Z.eqb_spec (len l) 0) as [|_]; [lia|].
  cbn [py_ge as_int]. destruct (Z.leb_spec (len l) i) as [|_]; [lia|].
  cbn [py_getitem as_int]. rewrite Hidx.
  cbn [sentence_at as_int]. now rewrite Hs.
Qed.


Lemma py_index_out_of_range {A} (l : list A) i :
  len l <= i \/ i < - len l -> py_index l i = Raise IndexError.
Proof.
  intros H. unfold py_index.
  destruct (Z.ltb_spec i 0); cbv zeta.
  - destruct (Z.ltb_spec (i + len l) 0); [reflexivity|].
    destruct (Z.leb_spec (len l) (i + len l)); [reflexivity|].
    unfold len in *. lia.
  - destruct (Z.ltb_spec i 0); [lia|].
    destruct (Z.leb_spec (len l) i); [reflexivity|]. lia.
Qed.


End View.

(** X5.  A user whose cursor has reached the end of a non-empty assignment
    is shown the completion message whatever is typed or pressed, and the
    run leaves the file as it was. *)
Theorem completed_view
    (sentences : list string) (username translation : string) (submit : bool)
    (now : string) (fs : file) (r : Dict.t value) (l : list value)
    (t : Dict.t value) (i : Z) :
  record_of fs username = Some r ->
  Dict.get "assigned" r = Some (VList l) ->
  Dict.get "index" r = Some (VInt i) ->
  Dict.get "translations" r = Some (VDict t) ->
  l <> [] -> len l <= i ->
  exists progress,
    translation_page sentences username translation submit now fs
    = (fs, Ok (Completed progress))
    /\ translated_count progress = len t
    /\ total_assigned progress = len l.
Proof.
  intros Hr Ha Hi Ht Hne Hle.
  rewrite (translation_page_kept sentences username translation submit now
             fs r Hr).
  - apply (translate_form_completed sentences username translation submit
             now (load_store fs) r fs l i (len t)); auto.
    unfold Dict.get_default. now rewrite Ht.
  - unfold Dict.get_default. rewrite Ha. now apply truthy_nonempty.
Qed.

Lemma completed_view_witness :
  exists progress,
    translation_page ["Hello"] "ada" "again" true "t"
      (Some [("ada", [("index", VInt 1);
                      ("translations",
                       VDict [("0", VDict [("English", VStr "Hello");
                                           ("Translation", VStr "e kaaro");
                                           ("Timestamp", VStr "t")])]);
                      ("metadata", VDict []); ("assigned", VList [VInt 0])])])
    = (Some [("ada", [("index", VInt 1);
                      ("translations",
                       VDict [("0", VDict [("English", VStr "Hello");
                                           ("Translation", VStr "e kaaro");
                                           ("Timestamp", VStr "t")])]);
                      ("metadata", VDict []); ("assigned", VList [VInt 0])])],
       Ok (Completed progress))
    /\ translated_count progress = 1
    /\ total_assigned progress = 1.
Proof.
  apply (completed_view ["Hello"] "ada" "again" true "t"
           (Some [("ada", [("index", VInt 1);
                           ("translations",
                            VDict [("0", VDict [("English", VStr "Hello");
                                                ("Translation", VStr "e kaaro");
                                                ("Timestamp", VStr "t")])]);
                           ("metadata", VDict []);
                           ("assigned", VList [VInt 0])])])
           [("index", VInt 1);
            ("translations",
             VDict [("0", VDict [("English", VStr "Hello");
                                 ("Translation", VStr "e kaaro");
                                 ("Timestamp", VStr "t")])]);
            ("metadata", VDict []); ("assigned", VList [VInt 0])]
           [VInt 0]
           [("0", VDict [("English", VStr "Hello");
                         ("Translation", VStr "e kaaro");
                         ("Timestamp", VStr "t")])]
           1 eq_refl eq_refl eq_refl eq_refl).
  - discriminate.
  - unfold len. simpl. lia.
Defined.

(** X6.  When the sentence source no longer has the sentence the cursor
    stands on (the source shrank after the assignment), the Translate view
    stops with [IndexError] and the run leaves the file as it was. *)
Theorem sentence_source_shrunk
    (sentences : list string) (username translation : string) (submit : bool)
    (now : string) (fs : file) (r : Dict.t value) (l : list value)
    (t : Dict.t value) (i idx : Z) :
  record_of fs username = Some r ->
  Dict.get "assigned" r = Some (VList l) ->
  Dict.get "index" r = Some (VInt i) ->
  Dict.get "translations" r = Some (VDict t) ->
  i < len l ->
  py_index l i = Ok (VInt idx) ->
  len sentences <= idx \/ idx < - len sentences ->
  translation_page sentences username translation submit now fs
  = (fs, Raise IndexError).
Proof.
  intros Hr Ha Hi Ht Hlt Hidx Hout.
  rewrite (translation_page_kept sentences username translation submit now
             fs r Hr).
  - apply (translate_form_sentence_missing sentences username translation
             submit now (load_store fs) r fs l i (len t) idx); auto.
    + unfold Dict.get_default. now rewrite Ht.
    + now apply py_index_out_of_range.
  - unfold Dict.get_default. rewrite Ha.
    pose proof (py_index_nonempty _ _ _ Hidx) as Hpos.
    destruct l; [unfold len in Hpos; simpl in Hpos; lia | reflexivity].
Qed.

Lemma sentence_source_shrunk_witness :
  translation_page ["Hello"] "ada" "" false "t"
    (Some [("ada", [("index", VInt 1); ("translations", VDict []);
                    ("metadata", VDict []);
                    ("assigned", VList [VInt 0; VInt 1])])])
  = (Some [("ada", [("index", VInt 1); ("translations", VDict []);
                    ("metadata", VDict []);
                    ("assigned", VList [VInt 0; VInt 1])])],
     Raise IndexError).
Proof.
  apply (sentence_source_shrunk ["Hello"] "ada" "" false "t"
           (Some [("ada", [("index", VInt 1); ("translations", VDict []);
                           ("metadata", VDict []);
                           ("assigned", VList [VInt 0; VInt 1])])])
           [("index", VInt 1); ("translations", VDict []);
            ("metadata", VDict []); ("assigned", VList [VInt 0; VInt 1])]
           [VInt 0; VInt 1] [] 1 1 eq_refl eq_refl eq_refl eq_refl).
  - reflexivity.
  - reflexivity.
  - left. unfold len. simpl. lia.
Defined.

(** ** The two phases of a Translate run *)

Section Phases.

Variables (sentences : list string) (username translation : string)
          (submit : bool) (now : string).

Lemma dict_set_get_same {A} k (v : A) (d : Dict.t A) :
  Dict.get k d = Some v -> Dict.set k v d = d.
Proof.
  induction d as [|[k' v'] d IH]; simpl; [discriminate|].
  destruct (String.eqb k k'); intros H.
  - congruence.
  - f_equal. auto.
Qed.

Lemma visited_set u x fs :
  Dict.set u x (visited u fs) = Dict.set u x (load_store fs).
Proof.
  unfold visited. destruct (Dict.mem u (load_store fs)); cbn [negb];
    [reflexivity|]. apply dict_set_set.
Qed.

Lemma well_formed_get r f d :
  well_formed_record r = true -> Dict.get f record_fields = Some d ->
  Dict.get f r = Some (Dict.get_default f d r).
Proof.
  intros Hwf Hf.
  destruct (dict_get_default_cases f d r) as [H|[H _]]; [assumption|].
  assert (Hmem : Dict.mem f r = true).
  { apply well_formed_record_mem; [assumption|].
    apply dict_in_keys. unfold Dict.mem. now rewrite Hf. }
  unfold Dict.mem in Hmem. rewrite H in Hmem. discriminate.
Qed.

(** Lines 88-108, then lines 110-147 on the record they leave. *)
Lemma translation_page_phases fs :
  exists p ud1 fs1,
    list_index username (users_at_visit username fs) = Ok p
    /\ translation_page sentences username translation submit now fs
       = translate_form sentences username translation submit now
           (Dict.set username ud1 (load_store fs)) ud1 fs1
    /\ well_formed_record ud1 = true
    /\ load_store fs1 = Dict.set username ud1 (load_store fs)
    /\ ((py_truthy (Dict.get_default "assigned" VNone
                      (start_record username fs)) = true
         /\ ud1 = start_record username fs /\ fs1 = fs)
        \/ (py_truthy (Dict.get_default "assigned" VNone
                         (start_record username fs)) = false
            /\ ud1 = Dict.set "assigned"
                       (VList (map VInt (assignment sentences p)))
                       (start_record username fs)
            /\ fs1 = Some (Dict.set username ud1 (load_store fs)))).
Proof.
  destruct (users_at_visit_position username fs) as [p Hp].
  pose proof (start_record_well_formed username fs) as Hwf.
  rewrite translation_page_unfold.
  destruct (py_truthy (Dict.get_default "assigned" VNone
                         (start_record username fs))) eqn:Ha.
  - exists p, (start_record username fs), fs.
    rewrite assign_sentences_kept by assumption.
    assert (Hrec : record_of fs username = Some (start_record username fs)).
    { destruct (start_record_cases username fs) as [H|[_ H]]; [assumption|].
      rewrite H in Ha. discriminate. }
    assert (Hsame : Dict.set username (start_record username fs)
                      (load_store fs) = load_store fs).
    { now apply dict_set_get_same. }
    rewrite Hsame. unfold visited, Dict.mem. unfold record_of in Hrec.
    rewrite Hrec. cbn [negb]. auto 10.
  - exists p. eexists. eexists.
    rewrite <- visited_keys in Hp.
    rewrite (assign_sentences_computed sentences username _ _ fs _ Ha Hp).
    rewrite visited_keys in Hp. rewrite visited_set.
    split; [assumption|]. split; [reflexivity|].
    assert (Hwf1 : well_formed_record
                     (Dict.set "assigned"
                        (VList (map VInt (assignment sentences p)))
                        (start_record username fs)) = true).
    { now apply well_formed_record_set. }
    split; [assumption|]. split.
    + etransitivity; [|apply (load_visited_set username _ fs Hwf1)].
      now rewrite visited_set.
    + right. auto.
Qed.

(** The record the second phase works on keeps the shape of the store. *)
Lemma phase_record_ok fs p ud1 :
  store_ok (load_store fs) ->
  list_index username (users_at_visit username fs) = Ok p ->
  (ud1 = start_record username fs
   \/ (py_truthy (Dict.get_default "assigned" VNone
                    (start_record username fs)) = false
       /\ ud1 = Dict.set "assigned"
                  (VList (map VInt (assignment sentences p)))
                  (start_record username fs))) ->
  record_ok p ud1.
Proof.
  intros Hok Hp Hud.
  assert (Hstart : record_ok p (start_record username fs)).
  { destruct (start_record_cases username fs) as [H|[_ ->]].
    - destruct (dict_get_nth _ _ _ H) as (p' & Hp' & Hn).
      unfold users_at_visit in Hp.
      rewrite (list_index_app _ _ _ _ Hp') in Hp. injection Hp as <-.
      eapply Hok; eauto.
    - apply record_ok_new. }
  destruct Hud as [->|(Hf & ->)]; [assumption|].
  now apply record_ok_assign.
Qed.


End Phases.





(** X9.  Visiting the Translate view twice without pressing the button is
    the same as visiting it once: with the same sentence source, the second
    visit leaves the file the first one left and ends as the first one did. *)
Theorem visit_idempotent
    (sentences : list string) (username translation now : string) (fs : file) :
  translation_page sentences username translation false now
    (fst (translation_page sentences username translation false now fs))
  = translation_page sentences username translation false now fs.
Proof.
  destruct (translation_page_phases sentences username translation false now
              fs)
    as (p & ud1 & fs1 & Hp & Hrun & Hwf1 & Hload & Hcases).
  rewrite Hrun, translate_form_no_submit.
  destruct (translation_page_phases sentences username translation false now
              fs1)
    as (p2 & ud2 & fs2 & Hp2 & Hrun2 & _ & _ & Hcases2).
  rewrite Hrun2. clear Hrun Hrun2.
  assert (Hstart : start_record username fs1 = ud1).
  { unfold start_record, record_of. now rewrite Hload, dict_get_set_same. }
  assert (Hpp : p2 = p).
  { unfold users_at_visit in Hp2.
    rewrite Hload, dict_mem_set_same, app_nil_r, dict_keys_set in Hp2.
    unfold users_at_visit in Hp. congruence. }
  subst p2. rewrite Hstart, Hload in Hcases2. rewrite Hload.
  destruct Hcases2 as [(_ & -> & ->)|(Hf & -> & ->)].
  - now rewrite dict_set_set.
  - destruct Hcases as [(Ht & -> & _)|(_ & Hud1 & ->)]; [congruence|].
    assert (Hsame : Dict.set "assigned"
                      (VList (map VInt (assignment sentences p))) ud1 = ud1).
    { rewrite Hud1 at 1. rewrite dict_set_set. now symmetry. }
    now rewrite Hsame, dict_set_set.
Qed.

(** X10.  A run of the Translate view for one user leaves the record of
    every other user as it was, and in the user's own record changes no
    field but [assigned], [translations] and [index]. *)
Theorem translate_run_frame
    (sentences : list string) (username translation : string) (submit : bool)
    (now : string) (fs : file) :
  (forall v, v <> username ->
     record_of
       (fst (translation_page sentences username translation submit now fs)) v
     = record_of fs v)
  /\ (forall r, record_of fs username = Some r ->
        exists r',
          record_of
            (fst (translation_page sentences username translation submit now
                    fs))
            username = Some r'
          /\ forall f, f <> "assigned" -> f <> "translations" ->
               f <> "index" ->
               Dict.get f r' = Dict.get f r).
Proof.
  destruct (translation_page_file sentences username translation submit now fs)
    as (ud1 & fs1 & Hassign & Hform).
  pose proof (start_record_well_formed username fs) as Hwf0.
  assert (Hwf1 : well_formed_record ud1 = true).
  { destruct Hassign as [(_ & -> & _)|(_ & q & _ & -> & _)];
      [assumption|]. now apply well_formed_record_set. }
  assert (Hud1 : forall f, f <> "assigned" ->
            Dict.get f ud1 = Dict.get f (start_record username fs)).
  { intros f Hf.
    destruct Hassign as [(_ & -> & _)|(_ & q & _ & -> & _)]; [reflexivity|].
    apply dict_get_set_other. congruence. }
  assert (Hfile :
    fst (translation_page sentences username translation submit now fs) = fs
    \/ exists new,
        load_store
          (fst (translation_page sentences username translation submit now fs))
        = Dict.set username new (load_store fs)
        /\ forall f, f <> "assigned" -> f <> "translations" -> f <> "index" ->
             Dict.get f new = Dict.get f (start_record username fs)).
  { destruct Hform as [Hfile|(ud2 & view & _ & Hsub & Hrun)].
    - destruct Hassign as [(_ & _ & ->)|(_ & q & _ & _ & ->)];
        [now left|right].
      exists ud1. rewrite Hfile, (load_visited_set _ _ _ Hwf1).
      split; [reflexivity|]. auto.
    - right. exists ud2. rewrite Hrun. cbn [fst].
      rewrite (load_visited_set _ _ _
                 (submission_well_formed _ _ _ _ _ Hsub Hwf1)).
      split; [reflexivity|]. intros f Ha Ht Hi.
      rewrite (submission_other_field Hsub) by assumption. auto. }
  destruct Hfile as [->|(new & Hload & Hnew)].
  - split; [reflexivity|]. intros r Hr. eauto.
  - split.
    + intros v Hv. unfold record_of. rewrite Hload.
      apply dict_get_set_other. congruence.
    + intros r Hr. exists new. unfold record_of at 1.
      rewrite Hload, dict_get_set_same. split; [reflexivity|].
      intros f Ha Ht Hi. rewrite (Hnew f Ha Ht Hi).
      unfold start_record. now rewrite Hr.
Qed.

(** ** The Metadata page: failures and repeated saves *)

Section MetadataRuns.

Lemma list_index_raise x l e :
  list_index x l = Raise e -> e = ValueError /\ ~ In x l.
Proof.
  induction l as [|y l IH]; simpl.
  - intros [= <-]. tauto.
  - destruct (String.eqb_spec x y) as [->|Hne]; [discriminate|].
    destruct (list_index x l) as [n|e'] eqn:E; [discriminate|].
    intros [= <-]. destruct (IH eq_refl) as [-> Hnot].
    split; [reflexivity|]. intros [H|H]; [congruence | tauto].
Qed.

Lemma options_index_raise options v e :
  options_index options v = Raise e ->
  e = ValueError /\ forall s, v = VStr s -> ~ In s options.
Proof.
  destruct v; simpl; try (intros [= <-]; split; [reflexivity|]; discriminate).
  intros H. apply list_index_raise in H. destruct H as [-> H].
  split; [reflexivity|]. now intros s0 [= <-].
Qed.

Lemma options_index_ok options s :
  In s options -> exists n, options_index options (VStr s) = Ok n.
Proof. intros H. simpl. now apply list_index_member. Qed.

End MetadataRuns.

(** X11.  The code of the Metadata page fails before showing its form in
    two cases only, and then writes nothing: with [AttributeError] when the
    stored [metadata] of the user is not a dict, and with [ValueError] when
    the stored [sex] is not one of the three options.  With a dict and a listed
    [sex] (or none stored) the page shows the form, and saves when asked.
    What the widgets themselves make of the values they are given is outside
    this development. *)
Theorem metadata_page_outcome
    (username name sex : string) (age : Z) (gmail country : string)
    (save : bool) (fs : file) :
  (forall e,
     snd (metadata_page username name sex age gmail country save fs) = Raise e ->
     fst (metadata_page username name sex age gmail country save fs) = fs
     /\ ((e = AttributeError
          /\ forall d,
               Dict.get_default "metadata" (VDict [])
                 (record_or_empty fs username) <> VDict d)
         \/ (e = ValueError
             /\ exists d,
                 Dict.get_default "metadata" (VDict [])
                   (record_or_empty fs username) = VDict d
                 /\ forall s,
                      Dict.get_default "sex" (VStr "Male") d = VStr s ->
                      ~ In s sex_options)))
  /\ (forall d s,
        Dict.get_default "metadata" (VDict []) (record_or_empty fs username)
        = VDict d ->
        Dict.get_default "sex" (VStr "Male") d = VStr s ->
        In s sex_options ->
        snd (metadata_page username name sex age gmail country save fs)
        = Ok (if save then MetadataSaved else MetadataForm)).
Proof.
  assert (Hrec : Dict.get_default username [] (load_store fs)
                 = record_or_empty fs username).
  { reflexivity. }
  unfold metadata_page. unfold_run. rewrite Hrec.
  destruct (Dict.get_default "metadata" (VDict [])
              (record_or_empty fs username)) as [| | | | |d] eqn:Em;
    try (split; [intros e [= <-]; split; [reflexivity|];
                 left; split; [reflexivity | discriminate]
                | discriminate]).
  cbn [py_get].
  destruct (options_index sex_options (Dict.get_default "sex" (VStr "Male") d))
    as [n|e0] eqn:Es.
  - split.
    + intros e. destruct save; discriminate.
    + intros d' s _ _ _. now destruct save.
  - apply options_index_raise in Es. destruct Es as [-> Hnot]. split.
    + intros e [= <-]. split; [reflexivity|]. right.
      split; [reflexivity|]. exists d. auto.
    + intros d' s [= <-] Hs Hin. exfalso. eapply Hnot; eauto.
Qed.

Lemma metadata_page_outcome_witness :
  snd (metadata_page "ada" "Ada" "Female" 30 "ada@gmail.com" "Ghana" true
         (Some [("ada", new_record)]))
  = Ok MetadataSaved.
Proof.
  exact (proj2 (metadata_page_outcome "ada" "Ada" "Female" 30 "ada@gmail.com"
                  "Ghana" true (Some [("ada", new_record)]))
           [] "Male" eq_refl eq_refl (or_introl eq_refl)).
Defined.

(** X12.  Saving the same metadata a second time changes nothing a page can
    read: the store loaded after the second save is the store loaded after
    the first. *)
Theorem metadata_save_twice
    (username name sex : string) (age : Z) (gmail country : string)
    (fs : file) :
  load_store
    (fst (metadata_page username name sex age gmail country true
            (fst (metadata_page username name sex age gmail country true fs))))
  = load_store
      (fst (metadata_page username name sex age gmail country true fs)).
Proof.
  destruct (metadata_page_file username name sex age gmail country true fs)
    as [H1|H1].
  - now rewrite !H1.
  - rewrite H1.
    set (md := VDict [("name", VStr name); ("sex", VStr sex);
                      ("age", VInt age); ("gmail", VStr gmail);
                      ("country", VStr country)]) in *.
    set (R := Dict.set "metadata" md
                (Dict.get_default username [] (load_store fs))) in *.
    set (f1 := Some (Dict.set username R (load_store fs))) in *.
    assert (Hl1 : load_store f1
                  = Dict.set username (ensure_fields R) (load_store fs)).
    { unfold f1. now rewrite load_store_set, load_store_saved. }
    destruct (metadata_page_file username name sex age gmail country true f1)
      as [H2|H2]; [now rewrite H2|].
    rewrite H2, load_store_set, load_store_saved, Hl1.
    unfold Dict.get_default. rewrite dict_get_set_same.
    assert (Hmd : Dict.set "metadata" md (ensure_fields R) = ensure_fields R).
    { apply dict_set_get_same. rewrite ensure_fields_get.
      unfold R. now rewrite dict_get_set_same. }
    fold md. rewrite Hmd.
    rewrite (ensure_fields_well_formed _ (ensure_fields_is_well_formed R)).
    apply dict_set_set.
Qed.

(** ** The Admin page on the stores the application writes *)

Section AdminRuns.


Lemma translation_entries_ok user items :
  Forall (fun item => entry_ok (snd item)) items ->
  exists rows, translation_entries user items = Ok rows.
Proof.
  induction 1 as [|[idx entry] items Hentry _ IH]; [now exists []|].
  destruct Hentry as (english & text & timestamp & Hentry & _).
  cbn [snd] in Hentry. subst entry.
  destruct IH as [rest Hrest].
  cbn. unfold rbind. rewrite Hrest. eauto.
Qed.

Lemma record_ok_len {p r i t} :
  record_ok p r ->
  Dict.get_default "index" (VInt 0) r = VInt i ->
  Dict.get_default "translations" (VDict []) r = VDict t ->
  len t = i.
Proof.
  intros (i' & l & t' & md & Hi & _ & Ht & _ & Hb & _ & _ & Hk & _) Hi' Ht'.
  assert (i' = i) by congruence. assert (t' = t) by congruence. subst i' t'.
  assert (Hlen : List.length (Dict.keys t) = Z.to_nat i).
  { rewrite Hk, length_map, length_firstn. unfold len in Hb. lia. }
  unfold Dict.keys in Hlen. rewrite length_map in Hlen. unfold len. lia.
Qed.

Lemma progress_entry_ok user p r :
  record_ok p r ->
  exists row,
    progress_entry user
      (Dict.get_default "translations" (VDict []) r)
      (Dict.get_default "assigned" (VList []) r) = Ok row
    /\ pr_user row = user
    /\ pr_translated row = record_cursor r
    /\ pr_assigned row = record_assigned_len r.
Proof.
  intros Hok. pose proof Hok as (i & l & t & md & Hi & Ha & Ht & _).
  pose proof (record_ok_len Hok Hi Ht) as Hlen.
  unfold record_cursor, record_assigned_len, record_assigned.
  rewrite Hi, Ha, Ht. unfold progress_entry, rbind. cbn [py_len].
  destruct (py_truthy (VList (map VInt l))) eqn:Etruthy.
  - unfold py_truediv.
    destruct (Z.eqb_spec (len (map VInt l)) 0) as [Hz|Hnz].
    + destruct l; [discriminate|]. unfold len in Hz. simpl in Hz. lia.
    + eexists. split; [reflexivity|]. cbn. auto.
  - eexists. split; [reflexivity|]. cbn. auto.
Qed.

Lemma admin_tables_ok data :
  Forall (fun item => exists p, record_ok p (snd item)) data ->
  exists tables, admin_tables data = Ok tables.
Proof.
  induction 1 as [|[user r] data [p Hok] _ [[[ps ms] ts] IH]];
    [now eexists|].
  cbn [snd] in Hok. cbn [admin_tables].
  destruct (progress_entry_ok user p r Hok) as (row & -> & _).
  destruct Hok as (i & l & t & md & _ & _ & Ht & Hmd & _ & _ & _ & _ & Hall).
  rewrite Ht, Hmd.
  destruct (translation_entries_ok user t Hall) as [rows Hrows].
  cbn. unfold rbind. rewrite Hrows, IH. eauto.
Qed.

Lemma store_ok_records data :
  store_ok data ->
  Forall (fun item => exists p, record_ok p (snd item)) data.
Proof.
  intros Hok. apply Forall_forall. intros [u r] Hin.
  apply In_nth_error in Hin. destruct Hin as [p Hp].
  exists p. exact (Hok p u r Hp).
Qed.

End AdminRuns.

(** X13.  The Admin page never writes the progress file, and before the
    administrator has logged in it does not read it either: what it shows
    then is the same whatever the file holds. *)
Theorem admin_page_read_only
    (ADMIN_PASSWORD : string) (admin_logged_in : bool) (password : string)
    (login : bool) (fs fs' : file) :
  fst (admin_page ADMIN_PASSWORD admin_logged_in password login fs) = fs
  /\ snd (admin_page ADMIN_PASSWORD false password login fs)
     = snd (admin_page ADMIN_PASSWORD false password login fs').
Proof.
  split.
  - unfold admin_page. destruct admin_logged_in; cbn [negb].
    + unfold_run. destruct (load_store fs) as [|item data]; [reflexivity|].
      destruct (admin_tables (item :: data)) as [[[ps ms] ts]|e];
        reflexivity.
    + destruct login; [destruct (String.eqb password ADMIN_PASSWORD)|];
        reflexivity.
  - unfold admin_page. cbn [negb].
    destruct login; [destruct (String.eqb password ADMIN_PASSWORD)|];
      reflexivity.
Qed.



(** X15.  On every store the application can reach, the dashboard of a
    logged-in administrator is shown without an exception: "No user data
    yet" for the empty store, and otherwise the tables, where the row of each
    user reports the cursor as [Translated] and the length of the assignment
    as [Assigned]. *)
Theorem admin_dashboard_reachable
    (ADMIN_PASSWORD password : string) (login : bool) (fs : file) :
  reachable fs ->
  exists v,
    snd (admin_page ADMIN_PASSWORD true password login fs) = Ok v
    /\ (v = AdminNoData <-> load_store fs = [])
    /\ forall u r,
         record_of fs u = Some r ->
         exists ps ms ts row,
           v = AdminDashboard ps ms ts
           /\ In row ps
           /\ pr_user row = u
           /\ pr_translated row = record_cursor r
           /\ pr_assigned row = record_assigned_len r.
Proof.
  intros Hreach. pose proof (reachable_ok Hreach) as Hok.
  destruct (admin_tables_ok _ (store_ok_records _ Hok))
    as [[[ps ms] ts] Htables].
  unfold admin_page. cbn [negb]. unfold_run. unfold record_of.
  destruct (load_store fs) as [|item data] eqn:Eload.
  - exists AdminNoData. split; [reflexivity|]. split; [tauto|]. discriminate.
  - rewrite Htables. exists (AdminDashboard ps ms ts).
    split; [reflexivity|]. split; [split; discriminate|].
    intros u r Hr.
    destruct (dict_get_nth _ _ _ Hr) as (p & _ & Hn).
    destruct (admin_tables_progress_row _ _ _ _ _ _ _ Htables Hn)
      as (row & Hrow & Hentry).
    destruct (progress_entry_ok u p r (Hok p u r Hn))
      as (row' & Hentry' & Hu & Ht & Ha).
    assert (row' = row) by congruence. subst row'.
    exists ps, ms, ts, row. split; [reflexivity|].
    split; [eapply nth_error_In; eauto | auto].
Qed.

Lemma admin_dashboard_reachable_witness :
  exists v,
    snd (admin_page "secret" true "" false
           (serve (ReqTranslate ["Hello"] "ada" "" false "t") None)) = Ok v
    /\ (v = AdminNoData
        <-> load_store (serve (ReqTranslate ["Hello"] "ada" "" false "t") None)
            = [])
    /\ forall u r,
         record_of (serve (ReqTranslate ["Hello"] "ada" "" false "t") None) u
         = Some r ->
         exists ps ms ts row,
           v = AdminDashboard ps ms ts
           /\ In row ps
           /\ pr_user row = u
           /\ pr_translated row = record_cursor r
           /\ pr_assigned row = record_assigned_len r.
Proof.
  apply (admin_dashboard_reachable "secret" "" false
           (serve (ReqTranslate ["Hello"] "ada" "" false "t") None)).
  apply reachable_serve, reachable_init.
Defined.

(** ** The router *)

Section Router.

Lemma get_setdefault k (v : value) s k' :
  Dict.get k' (if negb (Dict.mem k s) then Dict.set k v s else s)
  = if String.eqb k k' then Some (Dict.get_default k v s) else Dict.get k' s.
Proof.
  unfold Dict.mem, Dict.get_default.
  destruct (String.eqb_spec k k') as [<-|Hne];
    destruct (Dict.get k s) eqn:E; cbn [negb]; auto.
  - apply dict_get_set_same.
  - now apply dict_get_set_other.
Qed.

Lemma init_session_logged_in session :
  Dict.get "logged_in" (init_session session)
  = Some (Dict.get_default "logged_in" (VBool false) session).
Proof.
  unfold init_session. cbv zeta. rewrite get_setdefault.
  cbn [String.eqb Ascii.eqb Bool.eqb].
  rewrite get_setdefault. cbn [String.eqb Ascii.eqb Bool.eqb].
  unfold Dict.get_default at 1. rewrite get_setdefault. reflexivity.
Qed.

Lemma init_session_username session :
  Dict.get "username" (init_session session)
  = Some (Dict.get_default "username" VNone session).
Proof.
  unfold init_session. cbv zeta. rewrite get_setdefault.
  cbn [String.eqb Ascii.eqb Bool.eqb].
  rewrite get_setdefault. cbn [String.eqb Ascii.eqb Bool.eqb].
  rewrite get_setdefault. reflexivity.
Qed.

Lemma init_session_other k session :
  k <> "username" -> k <> "logged_in" -> k <> "page" ->
  Dict.get k (init_session session) = Dict.get k session.
Proof.
  intros Hu Hl Hp. unfold init_session. cbv zeta. rewrite !get_setdefault.
  destruct (String.eqb_spec "page" k); [congruence|].
  destruct (String.eqb_spec "logged_in" k); [congruence|].
  destruct (String.eqb_spec "username" k); [congruence|]. reflexivity.
Qed.

(** The session a run works with, after line 249. *)
Lemma run_session_logged_in v session :
  Dict.get_default "logged_in" VNone (Dict.set "page" v (init_session session))
  = Dict.get_default "logged_in" (VBool false) session.
Proof.
  unfold Dict.get_default at 1.
  rewrite dict_get_set_other by discriminate.
  now rewrite init_session_logged_in.
Qed.

Lemma run_session_username v session :
  Dict.get_default "username" VNone (Dict.set "page" v (init_session session))
  = Dict.get_default "username" VNone session.
Proof.
  unfold Dict.get_default at 1.
  rewrite dict_get_set_other by discriminate.
  now rewrite init_session_username.
Qed.

Lemma run_session_admin v session :
  Dict.get "admin_logged_in" (Dict.set "page" v (init_session session))
  = Dict.get "admin_logged_in" session.
Proof.
  rewrite dict_get_set_other by discriminate.
  apply init_session_other; discriminate.
Qed.

Lemma get_default_str {k s u} :
  Dict.get_default k VNone s = VStr u -> Dict.get k s = Some (VStr u).
Proof.
  unfold Dict.get_default. destruct (Dict.get k s); [congruence|discriminate].
Qed.

Lemma metadata_page_unsaved username name sex age gmail country fs :
  fst (metadata_page username name sex age gmail country false fs) = fs.
Proof.
  unfold metadata_page. unfold_run. repeat run_step; reflexivity.
Qed.

Lemma metadata_page_store username name sex age gmail country save fs :
  fst (metadata_page username name sex age gmail country save fs) = fs
  \/ exists new,
      load_store (fst (metadata_page username name sex age gmail country save
                         fs))
      = Dict.set username new (load_store fs).
Proof.
  destruct (metadata_page_file username name sex age gmail country save fs)
    as [H|H]; [now left|right].
  rewrite H, load_store_set, load_store_saved. eauto.
Qed.

Lemma translation_page_store sentences username translation submit now fs :
  fst (translation_page sentences username translation submit now fs) = fs
  \/ exists new,
      load_store
        (fst (translation_page sentences username translation submit now fs))
      = Dict.set username new (load_store fs).
Proof.
  destruct (translation_page_file sentences username translation submit now fs)
    as (ud1 & fs1 & Hassign & Hform).
  pose proof (start_record_well_formed username fs) as Hwf0.
  assert (Hwf1 : well_formed_record ud1 = true).
  { destruct Hassign as [(_ & -> & _)|(_ & q & _ & -> & _)];
      [assumption|]. now apply well_formed_record_set. }
  destruct Hform as [Hfile|(ud2 & view & _ & Hsub & Hrun)].
  - destruct Hassign as [(_ & _ & ->)|(_ & q & _ & _ & ->)];
      [now left|right].
    exists ud1. now rewrite Hfile, (load_visited_set _ _ _ Hwf1).
  - right. exists ud2. rewrite Hrun. cbn [fst].
    now rewrite (load_visited_set _ _ _
                   (submission_well_formed _ _ _ _ _ Hsub Hwf1)).
Qed.

(** What a page writes for the users other than its own: the records as
    loaded. *)
Lemma metadata_page_written username name sex age gmail country save fs :
  fst (metadata_page username name sex age gmail country save fs) = fs
  \/ forall v, v <> username ->
       stored_record
         (fst (metadata_page username name sex age gmail country save fs)) v
       = record_of fs v.
Proof.
  destruct (metadata_page_file username name sex age gmail country save fs)
    as [H|H]; [now left|right].
  intros v Hv. rewrite H. cbn [stored_record].
  apply dict_get_set_other. congruence.
Qed.

Lemma visited_get_other username fs v :
  v <> username -> Dict.get v (visited username fs) = record_of fs v.
Proof.
  intros Hv. unfold visited, record_of.
  destruct (Dict.mem username (load_store fs)); cbn [negb]; [reflexivity|].
  apply dict_get_set_other. congruence.
Qed.

Lemma translation_page_written sentences username translation submit now fs :
  fst (translation_page sentences username translation submit now fs) = fs
  \/ forall v, v <> username ->
       stored_record
         (fst (translation_page sentences username translation submit now fs))
         v
       = record_of fs v.
Proof.
  destruct (translation_page_file sentences username translation submit now fs)
    as (ud1 & fs1 & Hassign & Hform).
  destruct Hform as [Hfile|(ud2 & view & _ & _ & Hrun)].
  - destruct Hassign as [(_ & _ & ->)|(_ & q & _ & _ & ->)];
      [now left|right].
    intros v Hv. rewrite Hfile. cbn [stored_record].
    rewrite dict_get_set_other by congruence.
    now apply visited_get_other.
  - right. intros v Hv. rewrite Hrun. cbn [fst stored_record].
    rewrite dict_get_set_other by congruence.
    now apply visited_get_other.
Qed.

End Router.

(** The case analysis of one run. *)
Ltac main_cases pw i session fs :=
  unfold main; cbv zeta;
  destruct (options_index menu
              (Dict.get_default "page" VNone (init_session session)))
    as [n|e];
  [rewrite ?run_session_logged_in, ?run_session_username;
   destruct (String.eqb_spec (in_choice i) "Login") as [Hchoice|_];
   [destruct (py_truthy (Dict.get_default "logged_in" (VBool false) session))
      eqn:Hin;
    cbn [negb];
    [destruct (in_next i)
    |destruct (in_login i);
     [destruct (String.eqb_spec (strip (in_username i)) "") as [Hstrip|Hstrip];
      cbn [negb]|]]
   |destruct (String.eqb_spec (in_choice i) "Metadata") as [Hchoice|_];
    [destruct (py_truthy (Dict.get_default "logged_in" (VBool false) session))
       eqn:Hin;
     [destruct (Dict.get_default "username" VNone session)
        as [| | |u| |] eqn:Hu;
      [| | |destruct (metadata_page u (in_name i) (in_sex i) (in_age i)
                       (in_gmail i) (in_country i) (in_save i) fs)
             as [fs' [[|]|e]] eqn:Hpage| |]|]
    |destruct (String.eqb_spec (in_choice i) "Translate") as [Hchoice|_];
     [destruct (py_truthy (Dict.get_default "logged_in" (VBool false) session))
        eqn:Hin;
      [destruct (Dict.get_default "username" VNone session)
         as [| | |u| |] eqn:Hu;
       [| | |unfold run_page;
             destruct (translation_page (in_sentences i) u (in_translation i)
                         (in_submit i) (in_now i) fs)
               as [fs' [v|e]] eqn:Hpage| |]|]
     |destruct (String.eqb_spec (in_choice i) "Admin") as [Hchoice|_];
      [|destruct (String.eqb_spec (in_choice i) "Refresh") as [Hchoice|_];
        [|destruct (String.eqb_spec (in_choice i) "About")
            as [Hchoice|_]]]]]]
  |]; cbn [fst snd].

Section Runs.

Lemma admin_in_session_file pw i session fs :
  snd (fst (admin_in_session pw i session fs)) = fs.
Proof.
  unfold admin_in_session. cbv zeta.
  match goal with
  | |- context [admin_page ?a ?b ?c ?d fs] =>
      pose proof (admin_page_file a b c d fs) as H;
      destruct (admin_page a b c d fs) as [fs' [[| | | |ps ms ts]|e]]
  end; cbn [fst snd] in *; assumption.
Qed.

(** A run leaves the file alone, or is a run of the Metadata or Translate
    page for the user of a logged-in session. *)
Lemma main_file pw i session fs :
  snd (fst (main pw i (session, fs))) = fs
  \/ exists u,
      py_truthy (Dict.get_default "logged_in" (VBool false) session) = true
      /\ Dict.get "username" session = Some (VStr u)
      /\ ((in_choice i = "Metadata"
           /\ snd (fst (main pw i (session, fs)))
              = fst (metadata_page u (in_name i) (in_sex i) (in_age i)
                       (in_gmail i) (in_country i) (in_save i) fs))
          \/ (in_choice i = "Translate"
              /\ snd (fst (main pw i (session, fs)))
                 = fst (translation_page (in_sentences i) u (in_translation i)
                          (in_submit i) (in_now i) fs))).
Proof.
  main_cases pw i session fs; auto using admin_in_session_file;
    right; exists u; (split; [reflexivity|]);
    (split; [exact (get_default_str Hu)|]); rewrite Hpage; cbn [fst]; auto.
Qed.

Lemma main_serves pw i session fs :
  snd (fst (main pw i (session, fs))) = fs
  \/ exists req, snd (fst (main pw i (session, fs))) = serve req fs.
Proof.
  destruct (main_file pw i session fs)
    as [H|(u & _ & _ & [[_ H]|[_ H]])]; [now left| |]; right.
  - now exists (ReqMetadata u (in_name i) (in_sex i) (in_age i) (in_gmail i)
                  (in_country i) (in_save i)).
  - now exists (ReqTranslate (in_sentences i) u (in_translation i)
                  (in_submit i) (in_now i)).
Qed.

Lemma truthy_default k s :
  py_truthy (Dict.get_default k VNone s)
  = py_truthy (Dict.get_default k (VBool false) s).
Proof. unfold Dict.get_default. now destruct (Dict.get k s). Qed.

Lemma session_ok_set k v s :
  k <> "logged_in" -> k <> "username" ->
  session_ok s -> session_ok (Dict.set k v s).
Proof.
  intros Hl Hu. unfold session_ok, Dict.get_default.
  now rewrite !dict_get_set_other by assumption.
Qed.

Lemma session_ok_init s : session_ok s -> session_ok (init_session s).
Proof.
  unfold session_ok. intros Hok.
  unfold Dict.get_default at 1.
  rewrite init_session_logged_in, init_session_username, <- truthy_default.
  intros Hin. destruct (Hok Hin) as (u & Hu & Hname).
  exists u. unfold Dict.get_default. now rewrite Hu.
Qed.

Lemma session_ok_login x v s :
  strip x <> "" ->
  session_ok
    (Dict.set "page" v
       (Dict.set "logged_in" (VBool true)
          (Dict.set "username" (VStr (strip x)) s))).
Proof.
  intros Hx _. exists (strip x).
  rewrite !dict_get_set_other by discriminate.
  rewrite dict_get_set_same. split; [reflexivity|].
  split; [assumption | apply strip_idempotent].
Qed.

Lemma session_ok_nil : session_ok [].
Proof. intros H. discriminate. Qed.

Lemma admin_in_session_ok pw i s fs :
  session_ok s -> session_ok (fst (fst (admin_in_session pw i s fs))).
Proof.
  intros Hok. unfold admin_in_session. cbv zeta.
  match goal with
  | |- context [admin_page ?a ?b ?c ?d fs] =>
      destruct (admin_page a b c d fs) as [fs' [[| | | |ps ms ts]|e]]
  end; cbn [fst];
    destruct (Dict.mem "admin_logged_in" s); cbn [negb];
    repeat (apply session_ok_set; [discriminate|discriminate|]); assumption.
Qed.

Lemma main_session_ok pw i session fs :
  session_ok session -> session_ok (fst (fst (main pw i (session, fs)))).
Proof.
  intros Hok. pose proof (session_ok_init _ Hok) as Hinit.
  main_cases pw i session fs;
    try assumption;
    try apply session_ok_nil;
    try (apply session_ok_login; assumption);
    try apply admin_in_session_ok;
    repeat (apply session_ok_set; [discriminate|discriminate|]); assumption.
Qed.

Lemma main_usernames_ok pw i session fs :
  session_ok session -> usernames_ok fs ->
  usernames_ok (snd (fst (main pw i (session, fs)))).
Proof.
  intros Hs Hfs.
  destruct (main_file pw i session fs) as [->|(u & Hin & Hu & Hpage)];
    [assumption|].
  rewrite <- truthy_default in Hin.
  destruct (Hs Hin) as (u' & Hu' & Hname).
  assert (u' = u) by congruence. subst u'.
  assert (Hstore :
    snd (fst (main pw i (session, fs))) = fs
    \/ exists new,
        load_store (snd (fst (main pw i (session, fs))))
        = Dict.set u new (load_store fs)).
  { destruct Hpage as [[_ ->]|[_ ->]].
    - apply metadata_page_store.
    - apply translation_page_store. }
  destruct Hstore as [->|(new & Hload)]; [assumption|].
  intros v. rewrite Hload, dict_keys_set, in_app_iff. intros [Hv|Hv].
  - now apply Hfs.
  - destruct (Dict.mem u (load_store fs)); [destruct Hv|].
    destruct Hv as [<-|[]]. assumption.
Qed.

(** The administrator's flag stays down without the password. *)
Lemma admin_in_session_locked pw i s fs :
  py_truthy (Dict.get_default "admin_logged_in" VNone s) = false ->
  (no_admin_login pw i ->
   py_truthy (Dict.get_default "admin_logged_in" VNone
                (fst (fst (admin_in_session pw i s fs)))) = false)
  /\ forall v,
       snd (admin_in_session pw i s fs) = Ok (ViewAdmin v) ->
       v = AdminLogin \/ v = AdminWelcome \/ v = AdminIncorrect.
Proof.
  intros Hflag. unfold admin_in_session. cbv zeta.
  set (s' := if negb (Dict.mem "admin_logged_in" s)
             then Dict.set "admin_logged_in" (VBool false) s else s).
  assert (Hflag' : py_truthy (Dict.get_default "admin_logged_in" VNone s')
                   = false).
  { unfold s', Dict.mem. unfold Dict.get_default in *.
    destruct (Dict.get "admin_logged_in" s) eqn:E; cbn [negb].
    - now rewrite E.
    - now rewrite dict_get_set_same. }
  rewrite Hflag'. unfold admin_page. cbn [negb].
  destruct (in_admin_login i) eqn:Hlogin.
  - destruct (String.eqb_spec (in_password i) pw) as [Hpw|Hpw];
      cbn [ret fst snd]; (split; [|intros v [= <-]; auto]).
    + intros [H|H]; congruence.
    + auto.
  - cbn [ret fst snd]. split; [auto|]. intros v [= <-]. auto.
Qed.

Lemma main_locked pw i session fs :
  py_truthy (Dict.get_default "admin_logged_in" VNone session) = false ->
  (no_admin_login pw i ->
   py_truthy (Dict.get_default "admin_logged_in" VNone
                (fst (fst (main pw i (session, fs))))) = false)
  /\ forall v,
       snd (main pw i (session, fs)) = Ok (ViewAdmin v) ->
       v = AdminLogin \/ v = AdminWelcome \/ v = AdminIncorrect.
Proof.
  intros Hflag.
  assert (Hinit : py_truthy (Dict.get_default "admin_logged_in" VNone
                               (init_session session)) = false).
  { unfold Dict.get_default in *.
    now rewrite init_session_other by discriminate. }
  assert (Hset : forall k v s, k <> "admin_logged_in" ->
            py_truthy (Dict.get_default "admin_logged_in" VNone s) = false ->
            py_truthy (Dict.get_default "admin_logged_in" VNone
                         (Dict.set k v s)) = false).
  { intros k v s Hk. unfold Dict.get_default.
    now rewrite dict_get_set_other by assumption. }
  main_cases pw i session fs;
    try (split; [intros _|intros v0; discriminate];
         repeat (apply Hset; [discriminate|]); try assumption; reflexivity).
  apply admin_in_session_locked.
  apply Hset; [discriminate | assumption].
Qed.

Lemma run_all_locked pw runs st :
  py_truthy (Dict.get_default "admin_logged_in" VNone (fst st)) = false ->
  Forall (no_admin_login pw) runs ->
  py_truthy (Dict.get_default "admin_logged_in" VNone
               (fst (run_all pw runs st))) = false.
Proof.
  intros Hflag Hruns. revert st Hflag.
  induction Hruns as [|i runs Hi _ IH]; intros [session fs] Hflag;
    [assumption|].
  cbn [run_all]. apply IH. now apply main_locked.
Qed.

End Runs.

(** X16.  In a session as the application makes them, where a login holds a
    [str] username, a run of [main] changes the progress file only when the
    session is logged in, on the Metadata page with "Save Metadata" pressed
    or on the Translate page; the store it writes then holds for every user
    other than the one of the session the record as the loader read it (the
    stored record with the loader's defaults added), which therefore loads
    as before. *)
Theorem file_changes_need_login
    (ADMIN_PASSWORD : string) (i : inputs) (session : Dict.t value)
    (fs : file) :
  session_ok session ->
  snd (fst (main ADMIN_PASSWORD i (session, fs))) <> fs ->
  exists u,
    py_truthy (Dict.get_default "logged_in" (VBool false) session) = true
    /\ Dict.get "username" session = Some (VStr u)
    /\ ((in_choice i = "Metadata" /\ in_save i = true)
        \/ in_choice i = "Translate")
    /\ forall v, v <> u ->
         stored_record (snd (fst (main ADMIN_PASSWORD i (session, fs)))) v
         = record_of fs v
         /\ record_of (snd (fst (main ADMIN_PASSWORD i (session, fs)))) v
            = record_of fs v.
Proof.
  intros _ Hchanged.
  destruct (main_file ADMIN_PASSWORD i session fs)
    as [H|(u & Hin & Hu & Hpage)]; [contradiction|].
  exists u. split; [assumption|]. split; [assumption|].
  assert (Hstore :
    (exists new,
        load_store (snd (fst (main ADMIN_PASSWORD i (session, fs))))
        = Dict.set u new (load_store fs))
    /\ forall v, v <> u ->
         stored_record (snd (fst (main ADMIN_PASSWORD i (session, fs)))) v
         = record_of fs v).
  { destruct Hpage as [[_ H]|[_ H]]; rewrite H in Hchanged |- *.
    - split.
      + destruct (metadata_page_store u (in_name i) (in_sex i) (in_age i)
                    (in_gmail i) (in_country i) (in_save i) fs);
          [contradiction | assumption].
      + destruct (metadata_page_written u (in_name i) (in_sex i) (in_age i)
                    (in_gmail i) (in_country i) (in_save i) fs);
          [contradiction | assumption].
    - split.
      + destruct (translation_page_store (in_sentences i) u (in_translation i)
                    (in_submit i) (in_now i) fs);
          [contradiction | assumption].
      + destruct (translation_page_written (in_sentences i) u
                    (in_translation i) (in_submit i) (in_now i) fs);
          [contradiction | assumption]. }
  destruct Hstore as [[new Hload] Hstored]. split.
  - destruct Hpage as [[Hc H]|[Hc _]]; [left|now right].
    split; [assumption|]. destruct (in_save i); [reflexivity|].
    rewrite H, metadata_page_unsaved in Hchanged. contradiction.
  - intros v Hv. split; [now apply Hstored|].
    unfold record_of. rewrite Hload.
    apply dict_get_set_other. congruence.
Qed.

Lemma file_changes_need_login_witness :
  let i := {| in_choice := "Translate"; in_username := ""; in_login := false;
              in_next := false; in_name := ""; in_sex := "Male"; in_age := 18;
              in_gmail := ""; in_country := ""; in_save := false;
              in_sentences := ["Hello"]; in_translation := "";
              in_submit := false; in_now := "t"; in_password := "";
              in_admin_login := false |} in
  let session := [("username", VStr "ada"); ("logged_in", VBool true);
                  ("page", VStr "Translate")] in
  exists u,
    py_truthy (Dict.get_default "logged_in" (VBool false) session) = true
    /\ Dict.get "username" session = Some (VStr u)
    /\ ((in_choice i = "Metadata" /\ in_save i = true)
        \/ in_choice i = "Translate")
    /\ forall v, v <> u ->
         stored_record (snd (fst (main "secret" i (session, None)))) v
         = record_of None v
         /\ record_of (snd (fst (main "secret" i (session, None)))) v
            = record_of None v.
Proof.
  intros i session.
  apply (file_changes_need_login "secret" i session None).
  - intros _. exists "ada". split; [reflexivity|].
    split; [discriminate | reflexivity].
  - vm_compute. discriminate.
Defined.

(** X17.  In every state the application reaches from a new session and no
    file, the progress file is one the pages can produce, a logged-in
    session holds a username that is a non-empty stripped string, and so
    is every username in the file. *)
Theorem app_reachable_invariant (ADMIN_PASSWORD : string) (st : app_state) :
  app_reachable ADMIN_PASSWORD st ->
  reachable (snd st) /\ session_ok (fst st) /\ usernames_ok (snd st).
Proof.
  induction 1 as [|i [session fs] _ (Hreach & Hsession & Hnames)].
  - split; [apply reachable_init|]. split; [apply session_ok_nil|].
    intros u [].
  - cbn [fst snd] in *. split; [|split].
    + destruct (main_serves ADMIN_PASSWORD i session fs) as [->|[req ->]];
        [assumption | now apply reachable_serve].
    + now apply main_session_ok.
    + now apply main_usernames_ok.
Qed.

Lemma app_reachable_invariant_witness :
  let i := {| in_choice := "Login"; in_username := " ada "; in_login := true;
              in_next := false; in_name := ""; in_sex := "Male"; in_age := 18;
              in_gmail := ""; in_country := ""; in_save := false;
              in_sentences := ["Hello"]; in_translation := "";
              in_submit := false; in_now := "t"; in_password := "";
              in_admin_login := false |} in
  reachable (snd (fst (main "secret" i ([], None))))
  /\ session_ok (fst (fst (main "secret" i ([], None))))
  /\ usernames_ok (snd (fst (main "secret" i ([], None)))).
Proof.
  intros i.
  apply (app_reachable_invariant "secret" (fst (main "secret" i ([], None)))).
  apply app_run, app_init.
Defined.

(** X18.  Without a run that presses "Login as Admin" with the right
    password, the Admin page never shows the dashboard: whatever the next
    run is, its Admin view is the password form, the welcome of a login that
    this very run makes, or the "Incorrect password" error. *)
Theorem dashboard_needs_password
    (ADMIN_PASSWORD : string) (runs : list inputs) (i : inputs)
    (v : admin_view) :
  Forall (no_admin_login ADMIN_PASSWORD) runs ->
  snd (main ADMIN_PASSWORD i (run_all ADMIN_PASSWORD runs ([], None)))
  = Ok (ViewAdmin v) ->
  v = AdminLogin \/ v = AdminWelcome \/ v = AdminIncorrect.
Proof.
  intros Hruns.
  pose proof (run_all_locked ADMIN_PASSWORD runs ([], None) eq_refl Hruns)
    as Hflag.
  destruct (run_all ADMIN_PASSWORD runs ([], None)) as [session fs].
  cbn [fst] in Hflag.
  apply (proj2 (main_locked ADMIN_PASSWORD i session fs Hflag)).
Qed.

Lemma dashboard_needs_password_witness :
  AdminIncorrect = AdminLogin \/ AdminIncorrect = AdminWelcome
  \/ AdminIncorrect = AdminIncorrect.
Proof.
  apply (dashboard_needs_password "secret"
           [{| in_choice := "Admin"; in_username := ""; in_login := false;
               in_next := false; in_name := ""; in_sex := "Male";
               in_age := 18; in_gmail := ""; in_country := "";
               in_save := false; in_sentences := []; in_translation := "";
               in_submit := false; in_now := "t"; in_password := "guess";
               in_admin_login := true |}]
           {| in_choice := "Admin"; in_username := ""; in_login := false;
              in_next := false; in_name := ""; in_sex := "Male";
              in_age := 18; in_gmail := ""; in_country := "";
              in_save := false; in_sentences := []; in_translation := "";
              in_submit := false; in_now := "t"; in_password := "again";
              in_admin_login := true |}).
  - constructor; [|constructor]. right. cbn [in_password]. discriminate.
  - vm_compute. reflexivity.
Defined.

Section Refresh.

Lemma admin_in_session_view pw i s fs v :
  snd (admin_in_session pw i s fs) = Ok v -> exists a, v = ViewAdmin a.
Proof.
  unfold admin_in_session. cbv zeta.
  match goal with
  | |- context [admin_page ?a ?b ?c ?d fs] =>
      destruct (admin_page a b c d fs) as [fs' [[| | | |ps ms ts]|e]]
  end; cbn [snd]; intros [= <-]; eauto.
Qed.

Lemma main_refreshed pw i session fs :
  snd (main pw i (session, fs)) = Ok ViewRefreshed ->
  fst (main pw i (session, fs)) = ([], fs).
Proof.
  main_cases pw i session fs; try discriminate; try reflexivity.
  intros H. apply admin_in_session_view in H. destruct H as [a H].
  discriminate.
Qed.

End Refresh.

(** X19.  "Refresh" ends the login: it empties the session and leaves the
    file as it is, and the run that follows, whatever its inputs, cannot
    change the file and cannot show the dashboard. *)
Theorem refresh_logs_out
    (ADMIN_PASSWORD : string) (i next : inputs) (st : app_state) :
  snd (main ADMIN_PASSWORD i st) = Ok ViewRefreshed ->
  fst (main ADMIN_PASSWORD i st) = ([], snd st)
  /\ snd (fst (main ADMIN_PASSWORD next (fst (main ADMIN_PASSWORD i st))))
     = snd st
  /\ forall v,
       snd (main ADMIN_PASSWORD next (fst (main ADMIN_PASSWORD i st)))
       = Ok (ViewAdmin v) ->
       v = AdminLogin \/ v = AdminWelcome \/ v = AdminIncorrect.
Proof.
  destruct st as [session fs]. intros Hview.
  rewrite (main_refreshed _ _ _ _ Hview). cbn [snd].
  split; [reflexivity|]. split.
  - destruct (main_file ADMIN_PASSWORD next [] fs) as [H|(u & H & _)];
      [assumption | discriminate].
  - apply (main_locked ADMIN_PASSWORD next [] fs eq_refl).
Qed.

Lemma refresh_logs_out_witness :
  let i := {| in_choice := "Refresh"; in_username := ""; in_login := false;
              in_next := false; in_name := ""; in_sex := "Male"; in_age := 18;
              in_gmail := ""; in_country := ""; in_save := false;
              in_sentences := ["Hello"]; in_translation := "";
              in_submit := false; in_now := "t"; in_password := "";
              in_admin_login := false |} in
  let next := {| in_choice := "Translate"; in_username := "";
                 in_login := false; in_next := false; in_name := "";
                 in_sex := "Male"; in_age := 18; in_gmail := "";
                 in_country := ""; in_save := false;
                 in_sentences := ["Hello"]; in_translation := "e kaaro";
                 in_submit := true; in_now := "t"; in_password := "";
                 in_admin_login := false |} in
  let st := ([("username", VStr "ada"); ("logged_in", VBool true);
              ("page", VStr "Translate")], None) in
  fst (main "secret" i st) = ([], snd st)
  /\ snd (fst (main "secret" next (fst (main "secret" i st)))) = snd st
  /\ forall v,
       snd (main "secret" next (fst (main "secret" i st))) = Ok (ViewAdmin v) ->
       v = AdminLogin \/ v = AdminWelcome \/ v = AdminIncorrect.
Proof.
  intros i next st.
  apply (refresh_logs_out "secret" i next st). reflexivity.
Defined.

(** X20.  For a progress file that holds an object of objects, which are the
    files of this development, and for no file: loading it and saving it at
    once writes a store with the same usernames in the same order in which
    every record has the four fields, and doing it again writes the same
    store.  With no file it writes the empty store.  A file with a member
    that is not an object, on which the loader fails, is outside this
    development. *)
Theorem load_then_save_normalises (fs : file) :
  exists data,
    fst (load_then_save fs) = Some data
    /\ Dict.keys data
       = match fs with Some found => Dict.keys found | None => [] end
    /\ well_formed_store data = true
    /\ fst (load_then_save (Some data)) = Some data
    /\ (fs = None -> data = []).
Proof.
  exists (load_store fs). unfold load_then_save. unfold_run. cbn [fst].
  split; [reflexivity|]. split.
  - destruct fs as [found|]; [|reflexivity].
    unfold load_store, Dict.keys. rewrite map_map.
    apply map_ext. now intros [u r].
  - split; [apply load_store_is_well_formed|].
    split; [now rewrite load_store_saved|].
    now intros ->.
Qed.

(** ** The progress line *)

Section Progress.

Variables (sentences : list string) (username translation : string)
  (submit : bool) (now : string).

Lemma translate_form_progress p ap ud fs view :
  record_ok p ud -> well_formed_record ud = true ->
  snd (translate_form sentences username translation submit now ap ud fs)
  = Ok view ->
  translated_count (view_progress view) = record_cursor ud
  /\ total_assigned (view_progress view) = record_assigned_len ud
  /\ 0 <= record_cursor ud <= record_assigned_len ud
  /\ 0 < record_assigned_len ud <= 100
  /\ ((exists progress, view = Completed progress)
      <-> record_cursor ud = record_assigned_len ud).
Proof.
  intros Hok Hwf.
  pose proof Hok as (i & l & t & md & Hi & Ha & Ht & _ & Hb & Hc & _).
  pose proof (record_ok_len Hok Hi Ht) as Hlent.
  pose proof (well_formed_get ud "assigned" _ Hwf eq_refl) as Hga.
  rewrite Ha in Hga.
  assert (Hlen : len (map VInt l) = len l).
  { unfold len. now rewrite length_map. }
  unfold record_cursor, record_assigned_len, record_assigned.
  rewrite Hi, Ha, Hlen.
  unfold translate_form. unfold_run.
  unfold Dict.getitem at 1. rewrite Hga, Ht, Hi.
  cbn [py_len]. rewrite Hlen, Hlent. unfold py_truediv.
  destruct (Z.eqb_spec (len l) 0) as [|Hpos]; [discriminate|].
  cbn [py_ge as_int].
  destruct (Z.leb_spec (len l) i) as [Hle|Hlt].
  - intros [= <-]. cbn [view_progress translated_count total_assigned].
    repeat split; try lia. eauto.
  - repeat first
      [ run_step
      | match goal with
        | |- context [if ?b then _ else _] => destruct b
        end ];
      cbn [snd]; try discriminate;
      intros [= <-]; cbn [view_progress translated_count total_assigned];
      (repeat split; try lia; intros [progress Hview]; discriminate).
Qed.

End Progress.

(** X21.  On every store the application can reach, the progress line of a
    Translate view that is shown counts the user's cursor out of a non-empty
    assignment of at most 100 sentences, never more than the assignment,
    and the view is the completion message exactly when the two numbers are
    equal.  The count is the one before the submission of the same run. *)
Theorem progress_line_reachable
    (sentences : list string) (username translation : string) (submit : bool)
    (now : string) (fs : file) (view : translate_view) :
  reachable fs ->
  snd (translation_page sentences username translation submit now fs)
  = Ok view ->
  0 <= translated_count (view_progress view)
       <= total_assigned (view_progress view)
  /\ 0 < total_assigned (view_progress view) <= 100
  /\ ((exists progress, view = Completed progress)
      <-> translated_count (view_progress view)
          = total_assigned (view_progress view)).
Proof.
  intros Hreach.
  destruct (translation_page_phases sentences username translation submit now
              fs)
    as (p & ud1 & fs1 & Hp & -> & Hwf1 & Hload & Hcases).
  intros Hview.
  assert (Hok : record_ok p ud1).
  { apply (phase_record_ok sentences username fs p ud1
             (reachable_ok Hreach) Hp).
    destruct Hcases as [(_ & -> & _)|(Hf & -> & _)]; auto. }
  destruct (translate_form_progress sentences username translation submit now
              p _ ud1 fs1 view Hok Hwf1 Hview)
    as (-> & -> & Hbounds & Hlen & Hdone).
  auto.
Qed.

Lemma progress_line_reachable_witness :
  let progress := {| translated_count := 0; total_assigned := 1;
                     percent := 0 |} in
  let view := Awaiting progress 1 "Hello" in
  0 <= translated_count (view_progress view)
       <= total_assigned (view_progress view)
  /\ 0 < total_assigned (view_progress view) <= 100
  /\ ((exists progress, view = Completed progress)
      <-> translated_count (view_progress view)
          = total_assigned (view_progress view)).
Proof.
  intros progress view.
  apply (progress_line_reachable ["Hello"] "ada" "" false "t" None view).
  - apply reachable_init.
  - vm_compute. reflexivity.
Defined.
